(** * ThermostatLocalServer: a shallow embedding and its checked properties

    The development follows the Python sources module by module:

    - [Py]: the fragment of Python values, equality and dictionaries the
      server manipulates (JSON scalars, [dict.get], [in], [del]);
    - [Sys] and [Prim]: the outside world the coroutines talk to (thermostat
      HTTP endpoint, PostgreSQL tables, public server, clocks, the logger),
      threaded through a reader/state monad [IO];
    - [ApplyInitialConfig]: [src/apply_initial_config.py];
    - [ThermostatServer]: registration and state-change detection of
      [src/services/thermostat_server.py];
    - [DiscoveryCommandHandler]: [src/discovery_command_handler.py];
    - [CommandExecutor]: [src/public_sync/command_executor.py];
    - [UploadServices]: [src/public_sync/upload_services.py];
    - [DiscoveryManager]: [src/discovery/manager.py];
    - [DatabaseManager], [CommandDispatch], [ThermostatRoutes],
      [PeriodicDiscovery], [DiscoveryPhases], [StartupDiscovery] and
      [SyncManager]: the away temperature of [src/database/manager.py], the
      dispatcher of the command executor, the control routes of
      [src/api/thermostat_routes.py], periodic and startup discovery, the
      result of the discovery phases, and the queue of acknowledgments of
      [src/public_sync/sync_manager.py].

    The vocabulary of the statements and a few concrete devices and worlds
    come next, then the facts: helper lemmas, and one theorem per property
    of the specification, named after the property with its number in the
    comment that precedes it; further properties of the code follow,
    numbered X1, X2, ... in the same way.

    Modelling conventions.  Python floats are exact rationals ([Q]); a
    coroutine is the function of the world it runs in (one scheduler thread,
    so the code between two suspension points is atomic); every network
    exchange consumes one tick of [net_clock] and the device's answer is an
    arbitrary function of that tick and of the request, so that answers may
    change over time; the database is a reachable, untyped store, whose
    statements succeed unless the caller branches on their result; a log
    record keeps its level and message template, not the interpolated
    values. *)

From Stdlib Require Import ZArith QArith Qabs String List Bool Lia.
From stdpp Require Import base option gmap strings list fin_maps pretty.

Open Scope string_scope.
Open Scope list_scope.
Open Scope Z_scope.

(* ===================================================================== *)
(** * Python values and dictionaries                                       *)
(* ===================================================================== *)

Module Py.

(** JSON scalars as Python sees them after [json.loads]. *)
Inductive pyval : Type :=
  | PNone
  | PBool (b : bool)
  | PInt (z : Z)
  | PFloat (q : Q)
  | PStr (s : string).

(** Numeric tower: [bool] is a subclass of [int], [int] compares with
    [float] by value. *)
Definition as_number (v : pyval) : option Q :=
  match v with
  | PBool b => Some (inject_Z (if b then 1 else 0))
  | PInt z => Some (inject_Z z)
  | PFloat q => Some q
  | PNone | PStr _ => None
  end.

(** [a == b]. *)
Definition py_eq (a b : pyval) : bool :=
  match a, b with
  | PNone, PNone => true
  | PStr s, PStr t => bool_decide (s = t)
  | _, _ =>
      match as_number a, as_number b with
      | Some x, Some y => Qeq_bool x y
      | _, _ => false
      end
  end.

(** [a != b]. *)
Definition py_ne (a b : pyval) : bool := negb (py_eq a b).

(** [v in [x1, ..., xn]] and [v in (x1, ..., xn)]. *)
Definition py_in (v : pyval) (xs : list pyval) : bool := existsb (py_eq v) xs.

(** [v is None]. *)
Definition is_none (v : pyval) : bool :=
  match v with PNone => true | _ => false end.

(** [bool(v)]. *)
Definition truthy (v : pyval) : bool :=
  match v with
  | PNone => false
  | PBool b => b
  | PInt z => negb (z =? 0)
  | PFloat q => negb (Qeq_bool q 0)
  | PStr s => negb (bool_decide (s = ""))
  end.

(** A [dict] with string keys. *)
Abbreviation dict := (gmap string pyval).

(** [d.get(k)], [None] by default. *)
Definition get (d : dict) (k : string) : pyval := default PNone (d !! k).

(** [k in d]. *)
Definition has (d : dict) (k : string) : bool := bool_decide (is_Some (d !! k)).

(** The guard [k in d and d[k] is not None] of the configuration code. *)
Definition has_value (d : dict) (k : string) : bool :=
  has d k && negb (is_none (get d k)).

(** [bool(d)] for a dictionary or any finite map: non-empty. *)
Definition nonempty {V} (d : gmap string V) : bool := negb (bool_decide (d = ∅)).

End Py.

Import Py.

(* ===================================================================== *)
(** * The outside world                                                    *)
(* ===================================================================== *)

Module Sys.

Inductive log_level : Type := DEBUG | INFO | WARNING | ERROR.

Record log_record : Type := Log { level : log_level; message : string }.

(** [datetime.date]: ordered lexicographically on (year, month, day). *)
Record date : Type := Date { year : Z; month : Z; day : Z }.

Definition date_le (a b : date) : bool :=
  (year a <? year b)
  || ((year a =? year b)
      && ((month a <? month b)
          || ((month a =? month b) && (day a <=? day b)))).

Definition date_ge (a b : date) : bool := date_le b a.

(** What [response.json()] yields: an object, some other JSON value (of
    which only the truth value matters), or a parse error. *)
Inductive json_body : Type :=
  | JObj (d : dict)
  | JOther (truth : bool)
  | JMalformed.

(** The outcome of one HTTP exchange: the client raised, or a response
    arrived. *)
Inductive http_reply : Type :=
  | Raised (e : string)
  | Reply (status : Z) (body : json_body) (text : string).

(** Bodies POSTed to [/tstat]: a flat object of fields, or the clock
    object [{"time": {"day":..,"hour":..,"minute":..}}]. *)
Inductive post_body : Type :=
  | Fields (d : dict)
  | TimeSync (wday hour minute : Z).

Inductive http_request : Type :=
  | GET_tstat (ip : string)
  | POST_tstat (ip : string) (body : post_body).

(** [database/models.py] *)
Record ThermostatRecord : Type := {
  thermostat_id : string;
  ip_address : string;
  name : string;
  model : string;
  api_version : Z;
  fw_version : string;
  discovery_method : string;
  active : bool;
  away_temp : option Q;
  last_seen : option Z
}.

(** [discovery/models.py] *)
Record ThermostatDevice : Type := {
  ip : string;
  uuid : string;
  dev_name : string;
  dev_model : string;
  dev_api_version : Z;
  dev_fw_version : string;
  base_url : string;
  dev_discovery_method : string;
  dev_last_seen : Z
}.

(** A cell of a [device_config] row: a value or a timestamp. An absent
    column is NULL. *)
Inductive db_value : Type :=
  | DVal (v : pyval)
  | DTime (t : Z).

(** The environment: everything the process reads but does not control. *)
Record Env : Type := {
  device_http : nat -> http_request -> http_reply;
  utcnow : nat -> Z;
  today : nat -> date;
  localtime : nat -> Z * Z * Z;
  public_register : nat -> list ThermostatRecord -> bool;
  float_of_string : string -> option Q;
  upsert_ok : nat -> bool
}.

(** The state the process changes. *)
Record World : Type := {
  net_clock : nat;
  clock_reads : nat;
  sent : list (string * post_body);
  device_config : gmap string (gmap string db_value);
  thermostats : gmap string ThermostatRecord;
  public_batches : list (list ThermostatRecord);
  logs : list log_record
}.

Definition IO (A : Type) : Type := Env -> World -> A * World.

Definition ret {A} (x : A) : IO A := fun _ w => (x, w).

Definition bind {A B} (m : IO A) (k : A -> IO B) : IO B :=
  fun e w => let (a, w') := m e w in k a e w'.

Definition run {A} (m : IO A) (e : Env) (w : World) : World := snd (m e w).

Definition value {A} (m : IO A) (e : Env) (w : World) : A := fst (m e w).

End Sys.

Import Sys.

#[global] Instance IO_ret : MRet IO := @ret.
#[global] Instance IO_bind : MBind IO := fun A B k m => bind m k.

Module Prim.

(** [logger.<level>(message)] *)
Definition log (l : log_level) (m : string) : IO unit :=
  fun _ w =>
    (tt, {| net_clock := net_clock w; clock_reads := clock_reads w;
            sent := sent w; device_config := device_config w;
            thermostats := thermostats w;
            public_batches := public_batches w;
            logs := logs w ++ [Log l m] |}).

(** One exchange with a thermostat. A POST is recorded in [sent] whether or
    not the device answers. *)
Definition http (r : http_request) : IO http_reply :=
  fun e w =>
    (device_http e (net_clock w) r,
     {| net_clock := S (net_clock w); clock_reads := clock_reads w;
        sent := match r with
                | GET_tstat _ => sent w
                | POST_tstat ip b => sent w ++ [(ip, b)]
                end;
        device_config := device_config w;
        thermostats := thermostats w;
        public_batches := public_batches w;
        logs := logs w |}).

(** The environment, for the pure conversions that consult it. *)
Definition ask : IO Env := fun e w => (e, w).

Definition tick_clock (w : World) : World :=
  {| net_clock := net_clock w; clock_reads := S (clock_reads w);
     sent := sent w; device_config := device_config w;
     thermostats := thermostats w;
     public_batches := public_batches w;
     logs := logs w |}.

(** [datetime.now(timezone.utc)] *)
Definition now_utc : IO Z := fun e w => (utcnow e (clock_reads w), tick_clock w).

(** [date.today()] *)
Definition date_today : IO date := fun e w => (today e (clock_reads w), tick_clock w).

(** [datetime.now()] as (weekday, hour, minute) *)
Definition now_local : IO (Z * Z * Z) :=
  fun e w => (localtime e (clock_reads w), tick_clock w).

(** [DatabaseManager.update_device_config]: INSERT .. ON CONFLICT DO UPDATE
    SET the given columns and [updated_at]. *)
Definition update_device_config (tid : string) (updates : gmap string db_value)
  : IO unit :=
  fun e w =>
    let stamp := utcnow e (clock_reads w) in
    let row := default ∅ (device_config w !! tid) in
    (tt, {| net_clock := net_clock w; clock_reads := S (clock_reads w);
            sent := sent w;
            device_config :=
              <[tid := <["updated_at" := DTime stamp]> (updates ∪ row)]>
                (device_config w);
            thermostats := thermostats w;
            public_batches := public_batches w;
            logs := logs w |}).

(** The row of [device_config] for a thermostat, if any. *)
Definition device_config_row (tid : string) : IO (option (gmap string db_value)) :=
  fun _ w => (device_config w !! tid, w).

End Prim.

(* ===================================================================== *)
(** * src/apply_initial_config.py                                          *)
(* ===================================================================== *)

Module ApplyInitialConfig.
Import Prim.

Record season_config : Type := { season : string; config : dict }.

(** [_determine_seasonal_config], with [date.today()] as its argument. *)
Definition _determine_seasonal_config (today : date) : season_config :=
  let current_year := year today in
  let heating_season_start := Date current_year 11 16 in
  if date_ge today heating_season_start || date_le today (Date current_year 4 14)
  then {| season := "heating";
          config := {[ "tmode" := PInt 1; "t_heat" := PInt 50; "fmode" := PInt 0 ]} |}
  else {| season := "cooling";
          config := {[ "tmode" := PInt 0; "fmode" := PInt 0 ]} |}.

(** [_build_safe_thermostat_command]: the command and the warnings it
    logs on the way. *)
Definition _build_safe_thermostat_command (config : dict) : dict * list log_record :=
  let command : dict := ∅ in
  let '(command, warnings) :=
    if has_value config "tmode" then
      if py_in (get config "tmode") [PInt 0; PInt 1]
      then (<["tmode" := get config "tmode"]> command, [])
      else (<["tmode" := PInt 0]> command,
            [Log WARNING "Invalid tmode {config['tmode']} - using OFF mode"])
    else (command, []) in
  let command :=
    if py_eq (get command "tmode") (PInt 1) && has_value config "t_heat"
    then <["t_heat" := get config "t_heat"]> command
    else command in
  let command :=
    foldl (fun cmd key =>
             if has_value config key then <[key := get config key]> cmd else cmd)
          command ["hold"; "fmode"] in
  (command, warnings).

(** [logger] calls of a pure helper, replayed in order. *)
Definition emit (rs : list log_record) : IO unit :=
  foldr (fun r k => log (level r) (message r);; k) (mret tt) rs.

(** [_detect_setting_changes] *)
Definition _detect_setting_changes (current_settings new_config : dict)
  : gmap string (pyval * pyval) :=
  foldl (fun changes key =>
           let current_val := get current_settings key in
           let new_val := get new_config key in
           if py_ne current_val new_val && negb (is_none new_val)
           then <[key := (current_val, new_val)]> changes
           else changes)
        ∅ ["tmode"; "t_heat"; "hold"].

(** [_detect_db_changes]: [stored_config] uses the thermostat's field
    names. *)
Definition _detect_db_changes (stored_config current_settings : dict)
  : gmap string (pyval * pyval) :=
  foldl (fun changes (m : string * string) =>
           let '(db_field, tstat_field) := m in
           let stored_val := get stored_config tstat_field in
           let current_val := get current_settings tstat_field in
           if py_ne stored_val current_val && negb (is_none current_val)
           then <[db_field := (stored_val, current_val)]> changes
           else changes)
        ∅ [("tmode_set", "tmode"); ("t_heat_set", "t_heat");
           ("t_cool_set", "t_cool"); ("hold_set", "hold")].

(** A column read back as a Python value; NULL is [None]. *)
Definition column (row : gmap string db_value) (c : string) : pyval :=
  match row !! c with
  | Some (DVal v) => v
  | _ => PNone
  end.

(** [read_thermostat_current_settings] *)
Definition read_thermostat_current_settings (device_ip : string) : IO (option dict) :=
  r ← http (GET_tstat device_ip);
  match r with
  | Reply status body _ =>
      if status =? 200 then
        match body with
        | JObj data =>
            let current_settings : dict :=
              {[ "tmode" := get data "tmode"; "t_heat" := get data "t_heat";
                 "t_cool" := get data "t_cool"; "hold" := get data "hold" ]} in
            log INFO "[READ] Current thermostat settings from {device_ip}: {current_settings}";;
            mret (Some current_settings)
        | JOther _ | JMalformed =>
            log ERROR "Error reading thermostat settings from {device_ip}: {e}";;
            mret None
        end
      else
        log WARNING "Failed to read settings from {device_ip}: HTTP {response.status}";;
        mret None
  | Raised _ =>
      log ERROR "Error reading thermostat settings from {device_ip}: {e}";;
      mret None
  end.

(** [apply_initial_settings]: the settings maintained regardless of any
    other logic. *)
Definition initial_settings : dict := {[ "fmode" := PInt 0 ]}.

Definition apply_initial_settings (device_ip : string) : IO bool :=
  r ← http (POST_tstat device_ip (Fields initial_settings));
  match r with
  | Reply status _ _ =>
      if status =? 200 then
        log INFO "[INITIAL] Applied initial settings to {device_ip}: {initial_settings}";;
        mret true
      else
        log WARNING "Failed to apply initial settings to {device_ip}: HTTP {response.status}";;
        mret false
  | Raised _ =>
      log ERROR "Error applying initial settings to {device_ip}: {e}";;
      mret false
  end.

(** [_get_stored_device_config]: the row, if it has a [tmode_set]. *)
Definition _get_stored_device_config (thermostat_id : string) : IO (option dict) :=
  row ← device_config_row thermostat_id;
  match row with
  | Some config_row =>
      if is_none (column config_row "tmode_set") then mret None
      else mret (Some ({[ "tmode" := column config_row "tmode_set";
                          "t_heat" := column config_row "t_heat_set";
                          "t_cool" := column config_row "t_cool_set";
                          "hold" := column config_row "hold_set" ]} : dict))
  | None => mret None
  end.

(** One [if ... is not None:] block of the two functions that fill
    [config_updates]. *)
Definition stamp_field (present : bool) (col at_col : string) (v : pyval) (now : Z)
    (config_updates : gmap string db_value) : gmap string db_value :=
  if present
  then <[at_col := DTime now]> (<[col := DVal v]> config_updates)
  else config_updates.

(** [_save_config_to_database] *)
Definition _save_config_to_database (thermostat_id : string) (config : dict) : IO unit :=
  now ← now_utc;
  let config_updates : gmap string db_value := ∅ in
  let config_updates :=
    stamp_field (has_value config "tmode") "tmode_set" "tmode_applied_at"
                (get config "tmode") now config_updates in
  let config_updates :=
    stamp_field (has_value config "t_heat") "t_heat_set" "t_heat_applied_at"
                (get config "t_heat") now config_updates in
  let config_updates :=
    stamp_field (has_value config "hold") "hold_set" "hold_applied_at"
                (get config "hold") now config_updates in
  if nonempty config_updates then
    update_device_config thermostat_id config_updates;;
    log DEBUG "[DB] Saved config to database for {thermostat_id}: {config_updates}"
  else mret tt.

(** [_update_db_from_thermostat] *)
Definition _update_db_from_thermostat (thermostat_id : string) (current_settings : dict)
  : IO unit :=
  stored_config ← _get_stored_device_config thermostat_id;
  now ← now_utc;
  let config_updates : gmap string db_value := ∅ in
  let config_updates :=
    stamp_field (negb (is_none (get current_settings "tmode")))
                "tmode_set" "tmode_applied_at"
                (get current_settings "tmode") now config_updates in
  let config_updates :=
    stamp_field (negb (is_none (get current_settings "t_heat")))
                "t_heat_set" "t_heat_applied_at"
                (get current_settings "t_heat") now config_updates in
  let config_updates :=
    stamp_field (negb (is_none (get current_settings "t_cool")))
                "t_cool_set" "t_cool_applied_at"
                (get current_settings "t_cool") now config_updates in
  let config_updates :=
    stamp_field (negb (is_none (get current_settings "hold")))
                "hold_set" "hold_applied_at"
                (get current_settings "hold") now config_updates in
  match stored_config with
  | Some stored =>
      if nonempty (_detect_db_changes stored current_settings)
      then log INFO "[DB CHANGE] Database values changing for {thermostat_id}: {db_changes}"
      else log DEBUG "[DB] No database changes needed for {thermostat_id}"
  | None =>
      log INFO "[DB] Creating new database config for {thermostat_id}: {current_settings}"
  end;;
  if nonempty config_updates then
    update_device_config thermostat_id config_updates;;
    log INFO "[DB] Preserved thermostat settings to database for {thermostat_id}"
  else mret tt.

(** [_is_unsafe_setting]: heating during the cooling season. *)
Definition _is_unsafe_setting (settings : dict) : IO bool :=
  if py_eq (get settings "tmode") (PInt 1) then
    today ← date_today;
    let season_config := _determine_seasonal_config today in
    if bool_decide (season season_config = "cooling") then mret true else mret false
  else mret false.

(** [_sync_thermostat_time] *)
Definition _sync_thermostat_time (device : ThermostatDevice) : IO unit :=
  now_edt ← now_local;
  let '(wday, hour, minute) := now_edt in
  r ← http (POST_tstat (ip device) (TimeSync wday hour minute));
  match r with
  | Reply status _ _ =>
      if status =? 200 then log INFO "[TIME] Synced time for {device.name}" else mret tt
  | Raised _ => log WARNING "Time sync failed for {device.name}: {e}"
  end.

(** [_apply_seasonal_safety_config]: the fallback when the thermostat
    cannot be read. *)
Definition _apply_seasonal_safety_config (device : ThermostatDevice) : IO unit :=
  today ← date_today;
  let season_config := _determine_seasonal_config today in
  let safety_config : dict := <["hold" := PInt 1]> (config season_config) in
  log INFO "[FALLBACK] Applying {season} season safety config to {device.name}: {safety_config}";;
  let '(command, warnings) := _build_safe_thermostat_command safety_config in
  emit warnings;;
  r ← http (POST_tstat (ip device) (Fields command));
  match r with
  | Reply status _ _ =>
      (if status =? 200 then
         log INFO "[SUCCESS] Applied {season} safety config to {device.name}";;
         _save_config_to_database (uuid device) safety_config
       else
         log WARNING "[ERROR] Failed to apply safety config to {device.name}: HTTP {response.status}");;
      _sync_thermostat_time device
  | Raised _ =>
      log ERROR "Failed to apply seasonal safety config to {device.name}: {e}"
  end.

(** [_apply_seasonal_defaults_with_hold] *)
Definition _apply_seasonal_defaults_with_hold (device : ThermostatDevice)
    (current_settings : dict) : IO unit :=
  today ← date_today;
  let season_config := _determine_seasonal_config today in
  let config : dict := <["hold" := PInt 1]> (config season_config) in
  '(config : dict) ←
    (if negb (py_in (get config "tmode") [PInt 0; PInt 1]) then
       log WARNING "Invalid tmode {config.get('tmode')} - defaulting to OFF";;
       mret (<["tmode" := PInt 0]> config)
     else mret config);
  let '(command, warnings) := _build_safe_thermostat_command config in
  emit warnings;;
  log INFO "[SEASONAL] Applying {season_config['season']} defaults with hold=1 to {device.name}";;
  (if nonempty (_detect_setting_changes current_settings config)
   then log INFO "[CHANGE] Thermostat settings changing on {device.name}: {changes}"
   else mret tt);;
  r ← http (POST_tstat (ip device) (Fields command));
  match r with
  | Reply status _ _ =>
      if status =? 200 then
        log INFO "[SUCCESS] Applied seasonal config to {device.name}: {command}";;
        _save_config_to_database (uuid device) config;;
        log INFO "[DB] Updated database with seasonal config for {device.name}"
      else
        log ERROR "[ERROR] Failed to apply seasonal config to {device.name}: HTTP {response.status}"
  | Raised _ =>
      log ERROR "Failed to apply seasonal defaults to {device.name}: {e}"
  end.

(** [apply_intelligent_config]: the entry point of the policy. *)
Definition apply_intelligent_config (device : ThermostatDevice)
    (current_settings : option dict) (discovery_type : string) : IO unit :=
  log INFO "[DISCOVERY] Starting intelligent config for {device.name} (type: {discovery_type})";;
  apply_initial_settings (ip device);;
  current_settings ←
    match current_settings with
    | None => read_thermostat_current_settings (ip device)
    | Some s => mret (Some s)
    end;
  match current_settings with
  | None =>
      log WARNING "[FALLBACK] Cannot read thermostat {device.name} - applying seasonal defaults";;
      _apply_seasonal_safety_config device
  | Some current_settings =>
      if py_eq (get current_settings "hold") (PInt 0) then
        log INFO "[HOLD=0] {device.name} hold disabled - applying seasonal defaults with hold=1";;
        _apply_seasonal_defaults_with_hold device current_settings
      else
        unsafe ←
          (if bool_decide (discovery_type = "startup")
           then _is_unsafe_setting current_settings
           else mret false : IO bool);
        (if (unsafe : bool)
         then log WARNING "[UNSAFE] {device.name} has unsafe setting but respecting hold=1: {current_settings}"
         else mret tt);;
        log INFO "[HOLD=1] {device.name} hold enabled - preserving thermostat settings";;
        _update_db_from_thermostat (uuid device) current_settings
  end.

(** [apply_initial_config]: the legacy entry point. *)
Definition apply_initial_config (device : ThermostatDevice) : IO unit :=
  log INFO "[LEGACY] Redirecting to intelligent config for {device.name}";;
  apply_intelligent_config device None "startup".

End ApplyInitialConfig.

(* ===================================================================== *)
(** * src/services/thermostat_server.py                                    *)
(* ===================================================================== *)

Module ThermostatServer.
Import Prim ApplyInitialConfig.

(** The parts of the server object the registration path reads:
    [self.public_sync] (set or [None]) and
    [config['public_server'].get('enabled', False)]. *)
Record ServerConfig : Type := { public_sync : bool; public_enabled : bool }.

(** [DatabaseManager.get_thermostat_by_id] *)
Definition get_thermostat_by_id (tid : string) : IO (option ThermostatRecord) :=
  fun _ w => (thermostats w !! tid, w).

(** [DatabaseManager.upsert_thermostat]: INSERT .. ON CONFLICT DO UPDATE,
    with [away_temp = COALESCE(thermostats.away_temp, $10)] and [last_seen]
    the record's or, failing that, the current time. The statement may
    fail, in which case the table is unchanged and [False] returned. *)
Definition upsert_thermostat (rec : ThermostatRecord) : IO bool :=
  fun e w =>
    let stamp := utcnow e (clock_reads w) in
    let kept_away :=
      match thermostats w !! thermostat_id rec with
      | Some old => match away_temp old with Some a => Some a | None => away_temp rec end
      | None => away_temp rec
      end in
    let row :=
      {| thermostat_id := thermostat_id rec; ip_address := ip_address rec;
         name := name rec; model := model rec; api_version := api_version rec;
         fw_version := fw_version rec; discovery_method := discovery_method rec;
         active := active rec; away_temp := kept_away;
         last_seen := match last_seen rec with
                      | Some t => Some t
                      | None => Some stamp
                      end |} in
    let reads :=
      match last_seen rec with
      | Some _ => clock_reads w
      | None => S (clock_reads w)
      end in
    if upsert_ok e (net_clock w) then
      (true, {| net_clock := S (net_clock w); clock_reads := reads;
                sent := sent w; device_config := device_config w;
                thermostats := <[thermostat_id rec := row]> (thermostats w);
                public_batches := public_batches w;
                logs := logs w |})
    else
      (false, {| net_clock := S (net_clock w); clock_reads := reads;
                 sent := sent w; device_config := device_config w;
                 thermostats := thermostats w;
                 public_batches := public_batches w;
                 logs := logs w ++
                   [Log ERROR "Failed to upsert thermostat {device.thermostat_id}: {e}"] |}).

(** [PublicServerSync.register_thermostats]: one batch to the public
    server; it returns a boolean and never raises. *)
Definition register_thermostats (batch : list ThermostatRecord) : IO bool :=
  fun e w =>
    (public_register e (net_clock w) batch,
     {| net_clock := S (net_clock w); clock_reads := clock_reads w;
        sent := sent w; device_config := device_config w;
        thermostats := thermostats w;
        public_batches := public_batches w ++ [batch];
        logs := logs w |}).

(** [discovery_type_map.get(phase_name, "startup")] *)
Definition discovery_type_map : gmap string string :=
  {[ "startup_phase" := "startup"; "tcp_first_batch" := "startup";
     "periodic_discovery" := "periodic"; "background_tcp" := "periodic";
     "tcp_additional" := "periodic"; "discovery" := "startup" ]}.

Definition discovery_type_of (phase_name : string) : string :=
  default "startup" (discovery_type_map !! phase_name).

(** The body of the [for device in devices] loop; it yields the record it
    registered, if any. *)
Definition register_one (discovery_type : string) (device : ThermostatDevice)
  : IO (option ThermostatRecord) :=
  log INFO "[DEVICE] Processing {device.name} ({device.ip}) - discovery_type: {discovery_type}";;
  existing_device ← get_thermostat_by_id (uuid device);
  let away_temp : Q :=
    match existing_device with
    | Some old => match Sys.away_temp old with Some a => a | None => 50%Q end
    | None => 50%Q
    end in
  (match existing_device with
   | Some old =>
       match Sys.away_temp old with
       | Some _ => log DEBUG "[AWAY_TEMP] Preserving away_temp {away_temp}F for existing device {device.name}"
       | None => log DEBUG "[AWAY_TEMP] Using default away_temp {away_temp}F for existing null device {device.name}"
       end
   | None => log DEBUG "[AWAY_TEMP] Using default away_temp {away_temp}F for new device {device.name}"
   end);;
  now ← now_utc;
  let db_record :=
    {| thermostat_id := uuid device; ip_address := ip device;
       name := dev_name device; model := dev_model device;
       api_version := dev_api_version device;
       fw_version := dev_fw_version device;
       discovery_method := dev_discovery_method device;
       active := true; away_temp := Some away_temp; last_seen := Some now |} in
  success ← upsert_thermostat db_record;
  if (success : bool) then
    log INFO "[DB] Registered locally: {device.name} ({device.ip}) via {device.discovery_method}";;
    log INFO "[CONFIG] Starting intelligent configuration for {device.name}...";;
    current_settings ← read_thermostat_current_settings (ip device);
    match current_settings with
    | Some s =>
        log INFO "[READ] Current thermostat settings for {device.name}: {current_settings}";;
        apply_intelligent_config device (Some s) discovery_type
    | None =>
        log WARNING "[READ] Failed to read settings from {device.name} - using fallback config";;
        apply_intelligent_config device None discovery_type
    end;;
    log INFO "[CONFIG] Completed intelligent configuration for {device.name}";;
    mret (Some db_record)
  else
    log ERROR "[ERROR] Failed to register locally: {device.name}";;
    mret None.

(** [_register_and_configure_devices] *)
Definition _register_and_configure_devices (cfg : ServerConfig)
    (devices : list ThermostatDevice) (phase_name : string) : IO unit :=
  match devices with
  | [] => mret tt
  | _ =>
      log INFO "[LOG] Registering {len(devices)} devices from {phase_name} with intelligent configuration...";;
      let discovery_type := discovery_type_of phase_name in
      registered_thermostats ←
        foldl (fun (acc : IO (list ThermostatRecord)) device =>
                 registered ← acc;
                 r ← register_one discovery_type device;
                 mret (match r with
                       | Some rec => (registered ++ [rec])%list
                       | None => registered
                       end))
              (mret []) devices;
      (match registered_thermostats with
       | _ :: _ =>
           if public_sync cfg && public_enabled cfg then
             log INFO "[NETWORK] Registering {len(registered_thermostats)} devices with public server...";;
             registration_success ← register_thermostats registered_thermostats;
             if (registration_success : bool) then
               log INFO "[PASS] Public server registration successful for {len(registered_thermostats)} devices";;
               log INFO "[SEARCH] Devices are now available for remote discovery commands"
             else
               log WARNING "[WARNING] Public server registration failed for {len(registered_thermostats)} devices"
           else if negb (public_enabled cfg) then
             log INFO "[LOCAL] Local-only mode - skipping public server registration"
           else mret tt
       | [] =>
           if negb (public_enabled cfg) then
             log INFO "[LOCAL] Local-only mode - skipping public server registration"
           else mret tt
       end);;
      log INFO "[COMPLETE] Finished processing {len(devices)} devices from {phase_name}"
  end.

(** [StatusRecord] of [database/models.py], the six monitored fields. *)
Record StatusRecord : Type := {
  temp : Q;
  t_heat : Q;
  tmode : Z;
  tstate : Z;
  hold : Z;
  override : Z
}.

(** An entry [{'from': .., 'to': ..}] of the diff. *)
Record field_change : Type := Change { change_from : pyval; change_to : pyval }.

(** [abs(a - b) >= 0.5] *)
Definition temp_moved (a b : Q) : bool := Qle_bool (1 # 2) (Qabs (a - b)).

(** [_classify_change_type] *)
Definition _classify_change_type (changed_fields : gmap string field_change) : string :=
  if bool_decide (is_Some (changed_fields !! "tmode"))
     || bool_decide (is_Some (changed_fields !! "t_heat"))
     || bool_decide (is_Some (changed_fields !! "hold"))
  then "manual_adjustment"
  else if bool_decide (is_Some (changed_fields !! "tstate")) then "hvac_state_change"
  else if bool_decide (is_Some (changed_fields !! "temp")) then "temperature_change"
  else if bool_decide (is_Some (changed_fields !! "override")) then "override_change"
  else "other_change".

(** One [if <field differs>: changed_fields[key] = ..;
    significant_change = True] block. *)
Definition mark (differs : bool) (key : string) (c : field_change)
    (st : gmap string field_change * bool) : gmap string field_change * bool :=
  if differs then (<[key := c]> (fst st), true) else st.

(** The six comparisons of [_detect_state_change], in source order; the
    result is [(changed_fields, significant_change)]. *)
Definition compare_readings (previous_status current_status : StatusRecord)
  : gmap string field_change * bool :=
  let st : gmap string field_change * bool := (∅, false) in
  let st :=
    mark (temp_moved (temp current_status) (temp previous_status)) "temp"
         (Change (PFloat (temp previous_status)) (PFloat (temp current_status))) st in
  let st :=
    mark (negb (Qeq_bool (t_heat current_status) (t_heat previous_status))) "t_heat"
         (Change (PFloat (t_heat previous_status)) (PFloat (t_heat current_status))) st in
  let st :=
    mark (negb (tmode current_status =? tmode previous_status)) "tmode"
         (Change (PInt (tmode previous_status)) (PInt (tmode current_status))) st in
  let st :=
    mark (negb (tstate current_status =? tstate previous_status)) "tstate"
         (Change (PInt (tstate previous_status)) (PInt (tstate current_status))) st in
  let st :=
    mark (negb (hold current_status =? hold previous_status)) "hold"
         (Change (PInt (hold previous_status)) (PInt (hold current_status))) st in
  let st :=
    mark (negb (override current_status =? override previous_status)) "override"
         (Change (PInt (override previous_status)) (PInt (override current_status))) st in
  st.

(** [_detect_state_change], over the cache [self._last_states]. *)
Definition _detect_state_change (_last_states : gmap string StatusRecord)
    (thermostat_id : string) (current_status : StatusRecord)
  : bool * string * option (gmap string field_change) :=
  match _last_states !! thermostat_id with
  | None => (false, "first_reading", None)
  | Some previous_status =>
      let '(changed_fields, significant_change) :=
        compare_readings previous_status current_status in
      if negb significant_change
      then (false, "no_change", None)
      else (true, _classify_change_type changed_fields, Some changed_fields)
  end.

(** [_update_state_cache] *)
Definition _update_state_cache (_last_states : gmap string StatusRecord)
    (thermostat_id : string) (status : StatusRecord) : gmap string StatusRecord :=
  <[thermostat_id := status]> _last_states.

End ThermostatServer.

(* ===================================================================== *)
(** * src/discovery_command_handler.py                                     *)
(* ===================================================================== *)

Module DiscoveryCommandHandler.
Import Prim ThermostatServer.

(** An element of [discovery_results['devices_found']]. *)
Record device_data : Type := {
  dd_thermostat_id : string;
  dd_name : string;
  dd_ip : string;
  dd_discovery_method : string
}.

(** [discovery_results['registration_results']] *)
Record registration_results : Type := {
  local_registration_success : bool;
  public_server_registration_success : bool;
  devices_registered : nat;
  registration_errors : list string
}.

(** [DiscoveryCommandResult.discovery_results] of a completed command. *)
Record discovery_results : Type := {
  phases_executed : list string;
  total_devices_found : Z;
  devices_found : list device_data;
  registration : option registration_results
}.

Definition with_registration (r : discovery_results) (reg : registration_results)
  : discovery_results :=
  {| phases_executed := phases_executed r;
     total_devices_found := total_devices_found r;
     devices_found := devices_found r;
     registration := Some reg |}.

(** The loop that collects the records of the devices the database does
    not know yet. *)
Definition to_register (devices_data : list device_data) : IO (list ThermostatRecord) :=
  foldl (fun (acc : IO (list ThermostatRecord)) dd =>
           pending ← acc;
           existing ← get_thermostat_by_id (dd_thermostat_id dd);
           match existing with
           | None =>
               now ← now_utc;
               let record :=
                 {| thermostat_id := dd_thermostat_id dd; ip_address := dd_ip dd;
                    name := dd_name dd; model := "Unknown"; api_version := 0;
                    fw_version := "Unknown";
                    discovery_method := dd_discovery_method dd;
                    active := true; away_temp := Some 50%Q; last_seen := Some now |} in
               log DEBUG "New device {device_data['name']} will get default away_temp {away_temp}F";;
               mret (pending ++ [record])%list
           | Some _ =>
               log DEBUG "Existing device {device_data['name']} found - skipping registration";;
               mret pending
           end)
        (mret []) devices_data.

(** [_handle_device_registration]; [has_public_sync] is
    [self.public_sync is not None]. *)
Definition _handle_device_registration (has_public_sync : bool)
    (result : discovery_results) : IO discovery_results :=
  match devices_found result with
  | [] => mret result
  | devices_data =>
      log INFO "Registering {len(devices_data)} devices";;
      thermostats_to_register ← to_register devices_data;
      match thermostats_to_register with
      | _ :: _ =>
          if has_public_sync then
            registration_success ← register_thermostats thermostats_to_register;
            mret (with_registration result
                    {| local_registration_success := true;
                       public_server_registration_success := registration_success;
                       devices_registered := length thermostats_to_register;
                       registration_errors :=
                         if (registration_success : bool) then []
                         else ["Public server registration failed"] |})
          else
            mret (with_registration result
                    {| local_registration_success := true;
                       public_server_registration_success := false;
                       devices_registered := 0;
                       registration_errors := ["No new devices to register"] |})
      | [] =>
          mret (with_registration result
                  {| local_registration_success := true;
                     public_server_registration_success := false;
                     devices_registered := 0;
                     registration_errors := ["No new devices to register"] |})
      end
  end.

(** The tail of [execute_discovery_command]: registration is handled when
    [params['apply_initial_config']] is set and a device was found. *)
Definition finish_discovery_command (has_public_sync apply_initial_config : bool)
    (result : discovery_results) : IO discovery_results :=
  if apply_initial_config && (total_devices_found result >? 0)
  then _handle_device_registration has_public_sync result
  else mret result.

End DiscoveryCommandHandler.

(* ===================================================================== *)
(** * src/public_sync/command_executor.py                                  *)
(* ===================================================================== *)

Module CommandExecutor.
Import Prim.

(** A call either returns or raises. *)
Inductive outcome (A : Type) : Type :=
  | Returned (a : A)
  | Raises (e : string).
Arguments Returned {A} a.
Arguments Raises {A} e.

(** An element of [extra['per_thermostat']]. *)
Record per_thermostat : Type := {
  pt_thermostat_id : string;
  pt_success : bool;
  pt_error : option string
}.

(** The triple [(ok, error, extra)] of [execute_command]. *)
Definition command_result : Type :=
  bool * option string * option (list per_thermostat).

(** [float(v)] for a value that is not [None]. *)
Definition py_float (e : Env) (v : pyval) : option Q :=
  match v with
  | PStr s => float_of_string e s
  | PNone => None
  | _ => as_number v
  end.

(** [a - b]; a [TypeError] is [None]. *)
Definition py_sub (a b : pyval) : option Q :=
  match as_number a, as_number b with
  | Some x, Some y => Some (x - y)%Q
  | _, _ => None
  end.

(** [200 <= resp.status < 300] *)
Definition is_2xx (status : Z) : bool := (200 <=? status) && (status <? 300).

Section Executor.

(** [LocalDBAdapter.fetch_one] for the query of [_resolve_thermostat_ip],
    as [row.get("ip_address") if row else None]. The executor is generic in
    the adapter, which only reads the table [thermostats]; the adapter's own
    log records are left out. *)
Variable fetch_ip_address :
  string -> string -> gmap string ThermostatRecord -> option string.

(** [_resolve_thermostat_ip] *)
Definition _resolve_thermostat_ip (site_id thermostat_id : string) : IO (option string) :=
  fun _ w => (fetch_ip_address site_id thermostat_id (thermostats w), w).

(** [_post_tstat] *)
Definition _post_tstat (ip : string) (payload : dict) : IO (bool * option string) :=
  log INFO "Command sent to Thermostat %s Payload=%s";;
  r ← http (POST_tstat ip (Fields payload));
  match r with
  | Reply status _ txt =>
      if is_2xx status then mret (true, None)
      else mret (false,
                 Some ("Device HTTP " +:+ pretty status +:+ ": " +:+ String.substring 0 200 txt))
  | Raised e =>
      log ERROR "POST /tstat failed";;
      mret (false, Some e)
  end.

(** [_get_tstat_readback]: the parsed body, [{}] on any failure. *)
Definition _get_tstat_readback (ip : string) : IO json_body :=
  r ← http (GET_tstat ip);
  match r with
  | Reply status body _ =>
      if is_2xx status then
        match body with
        | JMalformed => log ERROR "GET /tstat failed";; mret (JObj ∅)
        | _ => mret body
        end
      else mret (JObj ∅)
  | Raised _ =>
      log ERROR "GET /tstat failed";;
      mret (JObj ∅)
  end.

(** [_verify_set_state] *)
Definition _verify_set_state (ip : string) (expected : dict) : IO (outcome bool) :=
  current ← _get_tstat_readback ip;
  match current with
  | JMalformed => mret (Returned false)
  | JOther truth =>
      if truth then mret (Raises "AttributeError") else mret (Returned false)
  | JObj current =>
      if negb (nonempty current) then mret (Returned false)
      else
        let exp_mode := get expected "tmode" in
        let exp_hold := get expected "hold" in
        let exp_heat := get expected "t_heat" in
        let act_mode := get current "tmode" in
        let act_hold := get current "hold" in
        let act_heat := get current "t_heat" in
        if py_eq exp_mode (PInt 0) then
          mret (Returned (py_eq act_mode (PInt 0) && py_eq act_hold exp_hold))
        else if py_eq act_mode (PInt 1) && py_eq act_hold exp_hold then
          match py_sub act_heat exp_heat with
          | Some d => mret (Returned (negb (Qle_bool (1 # 10) (Qabs d))))
          | None => mret (Raises "TypeError")
          end
        else mret (Returned false)
  end.

(** The [config_updates] built from the payload after a verified write. *)
Definition payload_updates (payload : dict) (now : Z) : gmap string db_value :=
  let config_updates : gmap string db_value := ∅ in
  let config_updates :=
    ApplyInitialConfig.stamp_field (has payload "tmode") "tmode_set" "tmode_applied_at"
      (get payload "tmode") now config_updates in
  let config_updates :=
    ApplyInitialConfig.stamp_field (has payload "t_heat") "t_heat_set" "t_heat_applied_at"
      (get payload "t_heat") now config_updates in
  let config_updates :=
    ApplyInitialConfig.stamp_field (has payload "hold") "hold_set" "hold_applied_at"
      (get payload "hold") now config_updates in
  config_updates.

(** The payload of [do_one]; [float(t_heat)] may raise. *)
Definition build_payload (e : Env) (tmode hold t_heat : pyval) : outcome dict :=
  let payload : dict := {[ "tmode" := tmode; "hold" := hold ]} in
  if py_eq tmode (PInt 1) then
    match py_float e t_heat with
    | Some f => Returned (<["t_heat" := PFloat f]> payload)
    | None => Raises "ValueError"
    end
  else Returned payload.

(** The inner coroutine [do_one] of [_execute_set_state]. *)
Definition do_one (site_id : string) (tmode hold t_heat : pyval) (tid : string)
  : IO (outcome (string * bool * option string)) :=
  ip ← _resolve_thermostat_ip site_id tid;
  match ip with
  | None => mret (Returned (tid, false, Some "IP not found"))
  | Some ip =>
      if bool_decide (ip = "") then mret (Returned (tid, false, Some "IP not found"))
      else
        e ← ask;
        match build_payload e tmode hold t_heat with
        | Raises x => mret (Raises x)
        | Returned payload =>
            posted ← _post_tstat ip payload;
            let '(ok, err) := (posted : bool * option string) in
            if (ok : bool) then
              verified ← _verify_set_state ip payload;
              match (verified : outcome bool) with
              | Raises x => mret (Raises x)
              | Returned false => mret (Returned (tid, false, Some "Verification failed"))
              | Returned true =>
                  now ← now_utc;
                  let config_updates := payload_updates payload now in
                  (if nonempty config_updates then
                     update_device_config tid config_updates;;
                     log DEBUG "Updated device config for {tid}: {config_updates}"
                   else mret tt);;
                  mret (Returned (tid, true, None))
              end
            else mret (Returned (tid, false, err))
        end
  end.

(** The defensive filtering step of [_execute_set_state]: [t_heat] is
    removed from a copy of [params] when [tmode == 0]. *)
Definition defensive_filter (params : dict) (tmode t_heat : pyval) : IO (dict * pyval) :=
  if py_eq tmode (PInt 0) && has params "t_heat" then
    log WARNING "Command for {thermostat_id} contained t_heat with tmode=0 - removing t_heat for safety";;
    mret (delete "t_heat" params, PNone)
  else mret (params, t_heat).

(** [_execute_set_state] *)
Definition _execute_set_state (site_id thermostat_id : string) (params : dict)
  : IO (outcome command_result) :=
  let tmode := get params "tmode" in
  let hold := get params "hold" in
  let t_heat := get params "t_heat" in
  if negb (py_in tmode [PInt 0; PInt 1]) then
    mret (Returned (false, Some "Invalid or missing tmode (expected 0 or 1)", None))
  else if negb (py_in hold [PInt 0; PInt 1]) then
    mret (Returned (false, Some "Invalid or missing hold (expected 0 or 1)", None))
  else
    filtered ← defensive_filter params tmode t_heat;
    let '(params, t_heat) := (filtered : dict * pyval) in
    if py_eq tmode (PInt 1) && is_none t_heat then
      mret (Returned (false, Some "Missing t_heat for HEAT mode", None))
    else if py_eq tmode (PInt 0) && has params "t_heat" then
      mret (Returned (false, Some "t_heat must be omitted when tmode == 0", None))
    else
      r ← do_one site_id tmode hold t_heat thermostat_id;
      match (r : outcome (string * bool * option string)) with
      | Raises x => mret (Raises x)
      | Returned (tid, ok, err) =>
          let all_ok : bool := ok in
          let first_err : option string := if all_ok then None else err in
          let extra :=
            [{| pt_thermostat_id := tid; pt_success := ok; pt_error := err |}] in
          mret (Returned (all_ok, first_err, Some extra))
      end.

End Executor.

End CommandExecutor.

(* ===================================================================== *)
(** * src/public_sync/upload_services.py                                   *)
(* ===================================================================== *)

Module UploadServices.

(** [MinuteReading] of [database/models.py]; timestamps are microseconds
    since the epoch. *)
Record MinuteReading : Type := {
  mr_thermostat_id : string;
  minute_ts : Z;
  temp_avg : Q;
  t_heat_last : Q;
  tmode_last : Z;
  hvac_runtime_percent : Q;
  poll_count : Z;
  poll_failures : Z;
  local_temp_avg : option Q
}.

(** An element of [minute_readings] in the body of an upload. The key
    [local_temp_avg] is present only when the reading has one. *)
Record upload_record : Type := {
  ur_thermostat_id : string;
  ur_minute_ts : Z;
  ur_temp_avg : Q;
  ur_t_heat_last : Q;
  ur_tmode_last : Z;
  ur_hvac_runtime_percent : Q;
  ur_poll_count : Z;
  ur_poll_failures : Z;
  ur_local_temp_avg : option Q
}.

(** What one [session.post] to the public server does. *)
Inductive response : Type :=
  | Status (code : Z)
  | Failed (e : string).

(** The public server and the wall clock. *)
Record Cloud : Type := {
  minute_endpoint : nat -> list upload_record -> response;
  wall_clock : nat -> Z
}.

(** [self.session], [self.retry_attempts] and
    [config['public_server']['max_batch_size']]. *)
Record Config : Type := {
  session : bool;
  retry_attempts : Z;
  max_batch_size : Z
}.

(** Tables [sync_checkpoint] and [minute_readings], and the traffic. *)
Record Store : Type := {
  sync_checkpoint : gmap string Z;
  minute_readings : list MinuteReading;
  posts_made : nat;
  accepted : list (list upload_record);
  time_reads : nat;
  journal : list log_record
}.

Definition U (A : Type) : Type := Cloud -> Store -> A * Store.

#[global] Instance U_ret : MRet U := fun A x _ s => (x, s).
#[global] Instance U_bind : MBind U :=
  fun A B k m c s => let (a, s') := m c s in k a c s'.

Definition note (l : log_level) (m : string) : U unit :=
  fun _ s =>
    (tt, {| sync_checkpoint := sync_checkpoint s;
            minute_readings := minute_readings s;
            posts_made := posts_made s; accepted := accepted s;
            time_reads := time_reads s;
            journal := journal s ++ [Log l m] |}).

(** [datetime.now(timezone.utc)] *)
Definition utc_now : U Z :=
  fun c s =>
    (wall_clock c (time_reads s),
     {| sync_checkpoint := sync_checkpoint s;
        minute_readings := minute_readings s;
        posts_made := posts_made s; accepted := accepted s;
        time_reads := S (time_reads s);
        journal := journal s |}).

(** [DatabaseManager.get_sync_checkpoint] *)
Definition get_sync_checkpoint (name : string) : U (option Z) :=
  fun _ s => (sync_checkpoint s !! name, s).

(** [DatabaseManager.update_sync_checkpoint] *)
Definition update_sync_checkpoint (name : string) (timestamp : Z) : U unit :=
  fun _ s =>
    (tt, {| sync_checkpoint := <[name := timestamp]> (sync_checkpoint s);
            minute_readings := minute_readings s;
            posts_made := posts_made s; accepted := accepted s;
            time_reads := time_reads s;
            journal := journal s |}).

(** [DatabaseManager.get_minute_readings_since]: [WHERE minute_ts > $1]. *)
Definition get_minute_readings_since (since_timestamp : Z) : U (list MinuteReading) :=
  fun _ s =>
    (filter (fun r => since_timestamp < minute_ts r) (minute_readings s), s).

(** One [session.post(url, json=data)]; an accepted body is kept in
    [accepted]. *)
Definition post (data : list upload_record) : U response :=
  fun c s =>
    let r := minute_endpoint c (posts_made s) data in
    (r, {| sync_checkpoint := sync_checkpoint s;
           minute_readings := minute_readings s;
           posts_made := S (posts_made s);
           accepted := match r with
                       | Status code =>
                           if bool_decide (code = 200 ∨ code = 201)
                           then accepted s ++ [data] else accepted s
                       | Failed _ => accepted s
                       end;
           time_reads := time_reads s;
           journal := journal s |}).

(** The [for attempt in range(self.retry_attempts)] loop, by the number
    of attempts left. *)
Fixpoint retry_loop (attempts_left : nat) (data : list upload_record) : U bool :=
  match attempts_left with
  | O => mret false
  | S n =>
      r ← post data;
      match r with
      | Status code =>
          if bool_decide (code = 200 ∨ code = 201) then mret true
          else if code =? 429 then
            note WARNING "Rate limited, attempt {attempt + 1}";;
            retry_loop n data
          else
            note WARNING "Upload failed: {response.status}, attempt {attempt + 1}";;
            note DEBUG "Error response: {error_text[:200]}";;
            retry_loop n data
      | Failed _ =>
          note WARNING "Upload attempt {attempt + 1} failed: {e}";;
          retry_loop n data
      end
  end.

(** [_post_with_retry] *)
Definition _post_with_retry (cfg : Config) (data : list upload_record) : U bool :=
  if negb (session cfg) then mret false
  else retry_loop (Z.to_nat (retry_attempts cfg)) data.

(** The upload format of a reading. *)
Definition to_upload_record (record : MinuteReading) : upload_record :=
  {| ur_thermostat_id := mr_thermostat_id record;
     ur_minute_ts := minute_ts record;
     ur_temp_avg := temp_avg record;
     ur_t_heat_last := t_heat_last record;
     ur_tmode_last := tmode_last record;
     ur_hvac_runtime_percent := hvac_runtime_percent record;
     ur_poll_count := poll_count record;
     ur_poll_failures := poll_failures record;
     ur_local_temp_avg := local_temp_avg record |}.

(** [[l[i:i+k] for i in range(0, len(l), k)]] for a positive step. *)
Fixpoint slices_from {A} (fuel k : nat) (l : list A) : list (list A) :=
  match fuel with
  | O => []
  | S f =>
      match l with
      | [] => []
      | _ => take k l :: slices_from f k (drop k l)
      end
  end.

(** The batches of the loop [for i in range(0, len(upload_records),
    max_batch)]: a zero step raises [ValueError], a negative one gives an
    empty range. *)
Definition batches_of (max_batch : Z) (upload_records : list upload_record)
  : option (list (list upload_record)) :=
  if max_batch =? 0 then None
  else if max_batch <? 0 then Some []
  else Some (slices_from (length upload_records) (Z.to_nat max_batch) upload_records).

(** The body of the batch loop: stop at the first batch that is not
    accepted. *)
Fixpoint upload_batches (cfg : Config) (checkpoint : Z)
    (batches : list (list upload_record)) : U bool :=
  match batches with
  | [] => mret true
  | batch :: rest =>
      success ← _post_with_retry cfg batch;
      if (success : bool) then upload_batches cfg checkpoint rest
      else
        note WARNING "Upload failed, checkpoint NOT updated. Remains: {checkpoint}";;
        mret false
  end.

(** [max(record.minute_ts for record in minute_data)] of a non-empty
    list. *)
Definition latest_minute_ts (first : MinuteReading) (others : list MinuteReading) : Z :=
  foldl (fun m r => Z.max m (minute_ts r)) (minute_ts first) others.

Definition hour : Z := 3600000000.

(** [_upload_minute_data] *)
Definition _upload_minute_data (cfg : Config) : U unit :=
  checkpoint ← get_sync_checkpoint "minute_upload";
  checkpoint ←
    match (checkpoint : option Z) with
    | Some c => mret c
    | None =>
        now ← utc_now;
        note WARNING "No minute upload checkpoint found, using 1 hour ago";;
        mret (now - hour)
    end;
  let start_time : Z := checkpoint in
  end_time ← utc_now;
  note INFO "minute upload window | start_time=%s | end_time=%s | duration=%s";;
  minute_data ← get_minute_readings_since start_time;
  match (minute_data : list MinuteReading) with
  | [] =>
      note INFO "No minute data to upload. Exiting without updating checkpoint. Checkpoint remains: {checkpoint}"
  | first :: others =>
      let upload_records := to_upload_record <$> minute_data in
      match batches_of (max_batch_size cfg) upload_records with
      | None =>
          note ERROR "Minute data upload error: {e}";;
          note ERROR "[DEBUG] Traceback: {traceback.format_exc()}"
      | Some batches =>
          uploaded ← upload_batches cfg checkpoint batches;
          if (uploaded : bool) then
            update_sync_checkpoint "minute_upload" (latest_minute_ts first others);;
            note INFO "Minute upload successful: {len(upload_records)} records ({weather_count} with weather, avg runtime: {runtime_avg:.1f}%)"
          else mret tt
      end
  end.

End UploadServices.

(* ===================================================================== *)
(** * src/discovery/manager.py                                             *)
(* ===================================================================== *)

Module DiscoveryManager.

(** [DiscoveryResult] of [discovery/models.py], without the wall-clock
    duration. *)
Record DiscoveryResult : Type := {
  devices : list ThermostatDevice;
  method : string;
  devices_tested : nat;
  success_count : nat
}.

(** One invocation [callback(devices_since_checkpoint.copy(),
    ips_scanned, ips_total)]. *)
Record checkpoint_call : Type := {
  call_devices : list ThermostatDevice;
  call_ips_scanned : nat;
  call_ips_total : nat
}.

(** The local variables of [discover_tcp_progressive], the registry
    [self.known_devices] and the invocations of the callback so far. *)
Record scan_state : Type := {
  ips_scanned : nat;
  all_devices_found : list ThermostatDevice;
  devices_since_checkpoint : list ThermostatDevice;
  known_devices : gmap string ThermostatDevice;
  callback_calls : list checkpoint_call;
  scan_logs : list log_record
}.

Section Scan.

(** [_get_device_details(ip, method)] for the address at a given position
    of the scan: it swallows every exception and answers a device or
    [None]. *)
Variable _get_device_details : nat -> string -> string -> option ThermostatDevice.

(** [callback] is set ([True]) or [None]. *)
Variable has_callback : bool.

(** The body of [for ip_str in all_ips]. *)
Definition scan_ip (ips_total : nat) (st : scan_state) (ip_str : string) : scan_state :=
  let device := _get_device_details (ips_scanned st) ip_str "tcp_scan" in
  let st :=
    match device with
    | Some device =>
        {| ips_scanned := ips_scanned st;
           all_devices_found := all_devices_found st ++ [device];
           devices_since_checkpoint := devices_since_checkpoint st ++ [device];
           known_devices := <[uuid device := device]> (known_devices st);
           callback_calls := callback_calls st;
           scan_logs := scan_logs st ++ [Log INFO "[OK] TCP found: {device.name} ({device.ip})"] |}
    | None => st
    end in
  let scanned := S (ips_scanned st) in
  if (Nat.eqb (scanned mod 10) 0) || (Nat.eqb scanned ips_total) then
    {| ips_scanned := scanned;
       all_devices_found := all_devices_found st;
       devices_since_checkpoint := [];
       known_devices := known_devices st;
       callback_calls :=
         if has_callback
         then callback_calls st ++
                [{| call_devices := devices_since_checkpoint st;
                    call_ips_scanned := scanned;
                    call_ips_total := ips_total |}]
         else callback_calls st;
       scan_logs :=
         if Nat.eqb (scanned mod 50) 0
         then scan_logs st ++
                [Log INFO "TCP scan progress: {ips_scanned}/{ips_total} IPs, {len(all_devices_found)} devices"]
         else scan_logs st |}
  else
    {| ips_scanned := scanned;
       all_devices_found := all_devices_found st;
       devices_since_checkpoint := devices_since_checkpoint st;
       known_devices := known_devices st;
       callback_calls := callback_calls st;
       scan_logs := scan_logs st |}.

(** The state before the loop. *)
Definition scan_start (known : gmap string ThermostatDevice) : scan_state :=
  {| ips_scanned := 0;
     all_devices_found := [];
     devices_since_checkpoint := [];
     known_devices := known;
     callback_calls := [];
     scan_logs :=
       [Log INFO "[SEARCH] Starting TCP discovery with checkpoint reporting...";
        Log INFO "TCP scan will check ALL {ips_total} IP addresses (no exclusions)..."] |}.

(** The loop over a list of addresses, [ips_total] being the length of
    the whole candidate list. *)
Definition scan_loop (ips_total : nat) (st : scan_state) (ips : list string) : scan_state :=
  foldl (scan_ip ips_total) st ips.

(** [discover_tcp_progressive], given [self._generate_scan_ips()]: the
    result and the final state. *)
Definition discover_tcp_progressive (known : gmap string ThermostatDevice)
    (all_ips : list string) : DiscoveryResult * scan_state :=
  let ips_total := length all_ips in
  let st := scan_loop ips_total (scan_start known) all_ips in
  ({| devices := all_devices_found st;
      method := "tcp_scan";
      devices_tested := ips_scanned st;
      success_count := length (all_devices_found st) |},
   st).

(** The devices answering at positions [a <= i < b] of the scan, in
    order. *)
Definition found_between (all_ips : list string) (a b : nat) : list ThermostatDevice :=
  omap id (take (b - a) (drop a (imap (fun i ip => _get_device_details i ip "tcp_scan") all_ips))).

End Scan.

End DiscoveryManager.

(* ===================================================================== *)
(** * src/database/manager.py: the away temperature                       *)
(* ===================================================================== *)

Module DatabaseManager.

(** A row with another [away_temp]. *)
Definition with_away_temp (row : ThermostatRecord) (away_temp : Q) : ThermostatRecord :=
  {| thermostat_id := thermostat_id row; ip_address := ip_address row;
     name := name row; model := model row; api_version := api_version row;
     fw_version := fw_version row; discovery_method := discovery_method row;
     active := active row; away_temp := Some away_temp;
     last_seen := last_seen row |}.

(** [DatabaseManager.update_thermostat_away_temp]: UPDATE thermostats SET
    away_temp = $1 WHERE thermostat_id = $2 AND active = true; [True] when
    a row was updated. The statement may fail, as the upsert may, in which
    case the table is unchanged and [False] returned. *)
Definition update_thermostat_away_temp (thermostat_id : string) (away_temp : Q) : IO bool :=
  fun e w =>
    let answer (ok : bool) (table : gmap string ThermostatRecord) (l : log_record) :=
      (ok, {| net_clock := S (net_clock w); clock_reads := clock_reads w;
              sent := sent w; device_config := device_config w;
              thermostats := table;
              public_batches := public_batches w;
              logs := logs w ++ [l] |}) in
    if upsert_ok e (net_clock w) then
      match thermostats w !! thermostat_id with
      | Some row =>
          if active row
          then answer true (<[thermostat_id := with_away_temp row away_temp]> (thermostats w))
                 (Log INFO "Updated away_temp for {thermostat_id}: {away_temp}F")
          else answer false (thermostats w)
                 (Log WARNING "No active thermostat found with ID: {thermostat_id}")
      | None =>
          answer false (thermostats w)
            (Log WARNING "No active thermostat found with ID: {thermostat_id}")
      end
    else
      answer false (thermostats w)
        (Log ERROR "Failed to update away_temp for {thermostat_id}: {e}").

End DatabaseManager.

(* ===================================================================== *)
(** * src/public_sync/command_executor.py: dispatch and set_away_temp      *)
(* ===================================================================== *)

Module CommandDispatch.
Import Prim CommandExecutor.

(** The third component of the triple of [execute_command]:
    [{"per_thermostat": [...]}] or [{"away_temp": .., "thermostat_id": ..}]. *)
Inductive command_extra : Type :=
  | PerThermostat (results : list per_thermostat)
  | AwayTemp (away_temp : Q) (thermostat_id : string).

Definition dispatch_result : Type := bool * option string * option command_extra.

(** [temp_value < 41.0 or temp_value > 76.0] *)
Definition out_of_range (temp_value : Q) : bool :=
  negb (Qle_bool 41 temp_value) || negb (Qle_bool temp_value 76).

(** [_execute_set_away_temp], with the [DatabaseAdapter]. The outer
    handler turns any other exception into a rejection of its own; an
    integer too large for a float, which it would catch, is rejected here
    as out of range. *)
Definition _execute_set_away_temp (site_id thermostat_id : string) (params : dict)
  : IO dispatch_result :=
  let away_temp := get params "away_temp" in
  if is_none away_temp then mret (false, Some "Missing away_temp parameter", None)
  else
    e ← ask;
    match py_float e away_temp with
    | None => mret (false, Some "away_temp must be a valid number", None)
    | Some temp_value =>
        if out_of_range temp_value then
          mret (false,
                Some "away_temp must be between 41.0 and 76.0 degrees Fahrenheit", None)
        else
          success ← DatabaseManager.update_thermostat_away_temp thermostat_id temp_value;
          if (success : bool) then
            log INFO "Updated away_temp for {thermostat_id}: {temp_value}F";;
            mret (true, None, Some (AwayTemp temp_value thermostat_id))
          else
            mret (false,
                  Some ("Failed to update database for thermostat " +:+ thermostat_id),
                  None)
    end.

Section Dispatch.

Variable fetch_ip_address :
  string -> string -> gmap string ThermostatRecord -> option string.

(** [execute_command] *)
Definition execute_command (site_id thermostat_id cmd : string) (params : dict)
  : IO (outcome dispatch_result) :=
  if bool_decide (cmd = "set_state") then
    r ← _execute_set_state fetch_ip_address site_id thermostat_id params;
    match (r : outcome command_result) with
    | Returned (ok, err, extra) => mret (Returned (ok, err, PerThermostat <$> extra))
    | Raises x => mret (Raises x)
    end
  else if bool_decide (cmd = "set_away_temp") then
    r ← _execute_set_away_temp site_id thermostat_id params;
    mret (Returned r)
  else mret (Returned (false, Some ("Unsupported command: " +:+ cmd), None)).

End Dispatch.

End CommandDispatch.

(* ===================================================================== *)
(** * src/api/thermostat_routes.py                                         *)
(* ===================================================================== *)

Module ThermostatRoutes.
Import Prim.

(** [ThermostatResponse] *)
Record ThermostatResponse : Type := {
  resp_thermostat_id : string;
  resp_name : string;
  resp_ip_address : string;
  resp_status : string;
  resp_response : option dict;
  resp_error : option string
}.

(** [_update_config_tracking]: the same three blocks as in [do_one]. *)
Definition _update_config_tracking (thermostat_id : string) (command : dict) : IO unit :=
  now ← now_utc;
  let config_updates := CommandExecutor.payload_updates command now in
  if nonempty config_updates
  then update_device_config thermostat_id config_updates
  else mret tt.

(** The answer of the [except] clause. *)
Definition failed_with (thermostat_id e : string) : ThermostatResponse :=
  {| resp_thermostat_id := thermostat_id; resp_name := "Unknown";
     resp_ip_address := "Unknown"; resp_status := "failed";
     resp_response := None; resp_error := Some e |}.

(** [_execute_thermostat_command] *)
Definition _execute_thermostat_command (thermostat_id : string) (command : dict)
  : IO ThermostatResponse :=
  thermostat ← ThermostatServer.get_thermostat_by_id thermostat_id;
  match thermostat with
  | None => mret (failed_with thermostat_id "Thermostat not found")
  | Some thermostat =>
      r ← http (POST_tstat (ip_address thermostat) (Fields command));
      match r with
      | Reply status body _ =>
          if status =? 200 then
            match body with
            | JObj result =>
                let confirmed := py_eq (get result "success") (PInt 0) in
                (if confirmed then _update_config_tracking thermostat_id command
                 else mret tt);;
                mret {| resp_thermostat_id := thermostat_id;
                        resp_name := name thermostat;
                        resp_ip_address := ip_address thermostat;
                        resp_status := if confirmed then "success" else "failed";
                        resp_response := Some result; resp_error := None |}
            | JOther _ => mret (failed_with thermostat_id "AttributeError")
            | JMalformed => mret (failed_with thermostat_id "JSONDecodeError")
            end
          else
            mret {| resp_thermostat_id := thermostat_id;
                    resp_name := name thermostat;
                    resp_ip_address := ip_address thermostat;
                    resp_status := "failed";
                    resp_response := None;
                    resp_error := Some ("HTTP " +:+ pretty status) |}
      | Raised e => mret (failed_with thermostat_id e)
      end
  end.

(** POST /thermostats/{thermostat_id}/temperature, on a validated
    [TemperatureRequest]. *)
Definition set_thermostat_temperature (thermostat_id : string) (t_heat : Q) (hold : bool)
  : IO ThermostatResponse :=
  let command : dict :=
    {[ "tmode" := PInt 1; "t_heat" := PFloat t_heat;
       "hold" := PInt (if hold then 1 else 0) ]} in
  _execute_thermostat_command thermostat_id command.

(** POST /thermostats/{thermostat_id}/mode, on a validated [ModeRequest]. *)
Definition set_thermostat_mode (thermostat_id : string) (tmode : Z) : IO ThermostatResponse :=
  let command : dict := {[ "tmode" := PInt tmode ]} in
  _execute_thermostat_command thermostat_id command.

End ThermostatRoutes.

(* ===================================================================== *)
(** * src/services/thermostat_server.py: periodic discovery                *)
(* ===================================================================== *)

Module PeriodicDiscovery.
Import Prim ThermostatServer.



End PeriodicDiscovery.

(* ===================================================================== *)
(** * src/discovery_command_handler.py: the result of the phases           *)
(* ===================================================================== *)

Module DiscoveryPhases.
Import DiscoveryCommandHandler.

(** The body of the deduplication loop of [_execute_discovery_phases],
    over [(unique_devices, seen_ids)]. *)
Definition dedupe_step (st : list ThermostatDevice * gset string) (d : ThermostatDevice)
  : list ThermostatDevice * gset string :=
  if negb (bool_decide (uuid d = "")) && negb (bool_decide (uuid d ∈ snd st))
  then ((fst st ++ [d])%list, {[ uuid d ]} ∪ snd st)
  else st.

Definition unique_devices (all_devices : list ThermostatDevice) : list ThermostatDevice :=
  fst (foldl dedupe_step ([], ∅) all_devices).

(** [all_found_ids], the set the phases fill with the uuids that are not
    empty. *)
Definition all_found_ids (all_devices : list ThermostatDevice) : gset string :=
  list_to_set (uuid <$> filter (fun d => uuid d <> "") all_devices).

(** The [discovery_results] of a completed command, from the devices of
    the phases that ran, in the order database, UDP, TCP. *)
Definition build_result (phases_to_run : list string) (all_devices : list ThermostatDevice)
  : discovery_results :=
  {| phases_executed := phases_to_run;
     total_devices_found := Z.of_nat (size (all_found_ids all_devices));
     devices_found :=
       (fun d => {| dd_thermostat_id := uuid d; dd_name := dev_name d;
                    dd_ip := ip d; dd_discovery_method := dev_discovery_method d |})
         <$> unique_devices all_devices;
     registration := None |}.

End DiscoveryPhases.

(* ===================================================================== *)
(** * src/discovery/manager.py: the combined startup discovery             *)
(* ===================================================================== *)

Module StartupDiscovery.

(** A Python [dict] keeps its keys in insertion order: an association
    list without repeated keys. *)
Definition odict : Type := list (string * ThermostatDevice).

Definition odict_has (k : string) (d : odict) : bool :=
  existsb (fun kv => bool_decide (fst kv = k)) d.

(** [d[k] = v]: in place when the key is there, at the end otherwise. *)
Definition odict_set (k : string) (v : ThermostatDevice) (d : odict) : odict :=
  if odict_has k d
  then (fun kv => if bool_decide (fst kv = k) then (k, v) else kv) <$> d
  else (d ++ [(k, v)])%list.

(** [discover_combined_startup], given the devices of the database phase
    and of the UDP phase: [(devices_list, should_continue_to_tcp)] and the
    registry [self.known_devices] after the update. The log records are
    left out. *)
Definition discover_combined_startup (known : gmap string ThermostatDevice)
    (db_devices udp_devices : list ThermostatDevice)
  : list ThermostatDevice * bool * gmap string ThermostatDevice :=
  let all_devices : odict := [] in
  let all_devices :=
    foldl (fun all_devices device => odict_set (uuid device) device all_devices)
          all_devices db_devices in
  let all_devices :=
    foldl (fun all_devices device =>
             if negb (odict_has (uuid device) all_devices)
             then odict_set (uuid device) device all_devices
             else all_devices)
          all_devices udp_devices in
  let known := foldl (fun m kv => <[fst kv := snd kv]> m) known all_devices in
  let devices_list := snd <$> all_devices in
  (devices_list, Nat.eqb (length devices_list) 0, known).

End StartupDiscovery.

(* ===================================================================== *)
(** * src/public_sync/sync_manager.py: command acknowledgments             *)
(* ===================================================================== *)

Module SyncManager.

(** An entry of [self.command_acks]; the response data are those of the
    command, of any shape. *)
Record ack (D : Type) : Type := {
  ack_cmd_id : option string;
  ack_success : bool;
  ack_executed_at : Z;
  ack_error_message : option string;
  ack_response_data : option D
}.
Arguments ack_cmd_id {D} _.
Arguments ack_success {D} _.
Arguments ack_executed_at {D} _.
Arguments ack_error_message {D} _.
Arguments ack_response_data {D} _.

Section Acks.

Variable D : Type.

(** The public server's answer to the post of a batch of results, and
    the clock. *)
Record Server : Type := {
  results_endpoint : nat -> list (ack D) -> UploadServices.response;
  clock : nat -> Z
}.

(** [self.session] (set or [None]) and [self.retry_attempts]. *)
Record SyncConfig : Type := { has_session : bool; attempts : Z }.

(** The queue, [stats['command_acks']], and the traffic. *)
Record SyncState : Type := {
  command_acks : list (ack D);
  acks_counted : nat;
  posts : nat;
  delivered : list (list (ack D));
  clock_reads : nat;
  records : list log_record
}.

Definition logged (l : log_level) (m : string) (st : SyncState) : SyncState :=
  {| command_acks := command_acks st; acks_counted := acks_counted st;
     posts := posts st; delivered := delivered st; clock_reads := clock_reads st;
     records := records st ++ [Log l m] |}.


(** [_queue_ack] *)
Definition _queue_ack (srv : Server) (cmd_id : option string) (success : bool)
    (error_msg : option string) (response_data : option D) (st : SyncState) : SyncState :=
  let ack_data :=
    {| ack_cmd_id := cmd_id; ack_success := success;
       ack_executed_at := clock srv (clock_reads st);
       ack_error_message := error_msg; ack_response_data := response_data |} in
  logged DEBUG "Queued ACK for command {cmd_id}: {'SUCCESS' if success else f'FAILED: {error_msg}'}"
    {| command_acks := command_acks st ++ [ack_data]; acks_counted := acks_counted st;
       posts := posts st; delivered := delivered st;
       clock_reads := S (clock_reads st); records := records st |}.

(** One [session.post(url, json=data)] of a batch of results. *)
Definition post_results (srv : Server) (batch : list (ack D)) (st : SyncState)
  : UploadServices.response * SyncState :=
  let r := results_endpoint srv (posts st) batch in
  (r, {| command_acks := command_acks st; acks_counted := acks_counted st;
         posts := S (posts st);
         delivered := match r with
                      | UploadServices.Status code =>
                          if bool_decide (code = 200 ∨ code = 201)
                          then delivered st ++ [batch] else delivered st
                      | UploadServices.Failed _ => delivered st
                      end;
         clock_reads := clock_reads st; records := records st |}).

(** The [for attempt in range(self.retry_attempts)] loop of
    [_post_with_retry], by the number of attempts left. *)
Fixpoint retry_results (attempts_left : nat) (srv : Server) (batch : list (ack D))
    (st : SyncState) : bool * SyncState :=
  match attempts_left with
  | O => (false, st)
  | S n =>
      let '(r, st) := post_results srv batch st in
      match r with
      | UploadServices.Status code =>
          if bool_decide (code = 200 ∨ code = 201) then (true, st)
          else if code =? 422 then
            (false,
             logged ERROR "Payload that failed: {json.dumps(data, indent=2, default=str)}"
               (logged ERROR "422 Validation Error on {url}: {error_text}" st))
          else if code =? 429 then
            retry_results n srv batch (logged WARNING "Rate limited, attempt {attempt + 1}" st)
          else
            retry_results n srv batch
              (logged DEBUG "Error response: {error_text[:200]}"
                 (logged WARNING "Upload failed: {response.status}, attempt {attempt + 1}" st))
      | UploadServices.Failed _ =>
          retry_results n srv batch
            (logged WARNING "Upload attempt {attempt + 1} failed: {e}" st)
      end
  end.

(** [_post_with_retry] *)
Definition _post_with_retry (cfg : SyncConfig) (srv : Server) (batch : list (ack D))
    (st : SyncState) : bool * SyncState :=
  if negb (has_session cfg) then (false, st)
  else retry_results (Z.to_nat (attempts cfg)) srv batch st.


End Acks.

End SyncManager.

(* ===================================================================== *)
(** * Vocabulary of the statements                                         *)
(* ===================================================================== *)

Import Prim ApplyInitialConfig ThermostatServer DiscoveryCommandHandler.
Import CommandExecutor UploadServices DiscoveryManager.

(** ** Frames *)

(** A computation leaves a component of the world as it found it. *)
Definition keeps {X A} (f : World -> X) (m : IO A) : Prop :=
  forall e w, f (run m e w) = f w.

(** A component the logger and the clocks do not touch. *)
Class Quiet {X} (f : World -> X) : Prop := {
  quiet_log : forall l m, keeps f (log l m);
  quiet_clock : forall w, f (tick_clock w) = f w
}.

(** A table has a row under the key. *)
Definition has_row {V} (table : gmap string V) (k : string) : bool :=
  bool_decide (is_Some (table !! k)).

(** ** Seasons and safe commands *)

Definition invalid_tmode_warning : log_record :=
  Log WARNING "Invalid tmode {config['tmode']} - using OFF mode".

(** Nov 16 through Apr 14, across the year boundary. *)
Definition heating_window (d : date) : Prop :=
  (month d = 11 /\ 16 <= day d) \/ month d = 12 \/ 1 <= month d <= 3
  \/ (month d = 4 /\ day d <= 14).

(** Apr 15 through Nov 15. *)
Definition cooling_window (d : date) : Prop :=
  (month d = 4 /\ 15 <= day d) \/ 5 <= month d <= 10
  \/ (month d = 11 /\ day d <= 15).

Definition heating_config : season_config :=
  {| season := "heating";
     config := {[ "tmode" := PInt 1; "t_heat" := PInt 50; "fmode" := PInt 0 ]} |}.

Definition cooling_config : season_config :=
  {| season := "cooling"; config := {[ "tmode" := PInt 0; "fmode" := PInt 0 ]} |}.

(** The command the policy sends on a given day when it takes a device
    over. *)
Definition seasonal_command (today : date) : dict :=
  fst (_build_safe_thermostat_command
         (<["hold" := PInt 1]> (config (_determine_seasonal_config today)))).

(** ** The hold-aware policy *)

(** The unconditional baseline write. *)
Definition fan_off : post_body := Fields {[ "fmode" := PInt 0 ]}.

(** The settings [read_thermostat_current_settings] extracts from a
    [/tstat] object. *)
Definition tstat_settings (data : dict) : dict :=
  {[ "tmode" := get data "tmode"; "t_heat" := get data "t_heat";
     "t_cool" := get data "t_cool"; "hold" := get data "hold" ]}.


(** Setting, its column of [device_config], and the column of its
    applied-at timestamp. *)
Definition mirror_columns : list (string * string * string) :=
  [("tmode", "tmode_set", "tmode_applied_at");
   ("t_heat", "t_heat_set", "t_heat_applied_at");
   ("t_cool", "t_cool_set", "t_cool_applied_at");
   ("hold", "hold_set", "hold_applied_at")].

(** Every setting the device reported is in the thermostat's row, stamped
    with one and the same time. *)
Definition mirrored (tid : string) (s : dict) (w' : World) : Prop :=
  exists t,
    forall field col at_col,
      (field, col, at_col) ∈ mirror_columns ->
      is_none (get s field) = false ->
      exists row,
        device_config w' !! tid = Some row
        /\ row !! col = Some (DVal (get s field))
        /\ row !! at_col = Some (DTime t).


(** The [config_updates] of [_update_db_from_thermostat]. *)
Definition settings_updates (s : dict) (now : Z) : gmap string db_value :=
  stamp_field (negb (is_none (get s "hold"))) "hold_set" "hold_applied_at" (get s "hold") now
    (stamp_field (negb (is_none (get s "t_cool"))) "t_cool_set" "t_cool_applied_at" (get s "t_cool") now
       (stamp_field (negb (is_none (get s "t_heat"))) "t_heat_set" "t_heat_applied_at" (get s "t_heat") now
          (stamp_field (negb (is_none (get s "tmode"))) "tmode_set" "tmode_applied_at" (get s "tmode") now ∅))).

(** The branch of [apply_intelligent_config] taken on settings whose hold
    is not 0. *)
Definition preserve_branch (device : ThermostatDevice) (s : dict) (dt : string) : IO unit :=
  unsafe ← (if bool_decide (dt = "startup") then _is_unsafe_setting s
            else mret false : IO bool);
  (if (unsafe : bool)
   then log WARNING "[UNSAFE] {device.name} has unsafe setting but respecting hold=1: {current_settings}"
   else mret tt);;
  log INFO "[HOLD=1] {device.name} hold enabled - preserving thermostat settings";;
  _update_db_from_thermostat (uuid device) s.

(** ** The set_state executor *)

Definition strip_warning : log_record :=
  Log WARNING "Command for {thermostat_id} contained t_heat with tmode=0 - removing t_heat for safety".

Definition omit_rejection : string := "t_heat must be omitted when tmode == 0".

(** The call returned the triple [(False, msg, None)]. *)
Definition is_rejection (msg : string) (r : outcome command_result) : bool :=
  match r with
  | Returned (false, Some m, None) => bool_decide (m = msg)
  | _ => false
  end.

(** The call returned with [ok = True]. *)
Definition succeeded (r : outcome command_result) : bool :=
  match r with
  | Returned (ok, _, _) => ok
  | Raises _ => false
  end.

(** The device answers the POST of the payload with a 2xx status. *)
Definition post_accepted (e : Env) (n : nat) (ip0 : string) (payload : dict) : bool :=
  match device_http e n (POST_tstat ip0 (Fields payload)) with
  | Reply status _ _ => is_2xx status
  | Raised _ => false
  end.

(** The device's answer to the read-back carries tmode = 0 and the
    requested hold. *)
Definition readback_confirms_off (e : Env) (n : nat) (ip0 : string) (hold : pyval) : bool :=
  match device_http e n (GET_tstat ip0) with
  | Reply status (JObj d) _ =>
      is_2xx status && py_eq (get d "tmode") (PInt 0) && py_eq (get d "hold") hold
  | _ => false
  end.

(** ** The minute upload *)


(** The readings a run considers: those after the stored checkpoint, or
    after one hour before the first clock reading when none is stored. *)
Definition window_start (c : Cloud) (s : Store) : Z :=
  match sync_checkpoint s !! "minute_upload" with
  | Some t => t
  | None => wall_clock c (time_reads s) - hour
  end.

Definition selected (c : Cloud) (s : Store) : list MinuteReading :=
  filter (fun r => window_start c s < minute_ts r) (minute_readings s).

(** [_upload_minute_data] from the point where the readings are known. *)
Definition upload_selected (cfg : Config) (checkpoint : Z) (minute_data : list MinuteReading)
  : U unit :=
  match minute_data with
  | [] =>
      note INFO "No minute data to upload. Exiting without updating checkpoint. Checkpoint remains: {checkpoint}"
  | first :: others =>
      let upload_records := to_upload_record <$> minute_data in
      match batches_of (max_batch_size cfg) upload_records with
      | None =>
          note ERROR "Minute data upload error: {e}";;
          note ERROR "[DEBUG] Traceback: {traceback.format_exc()}"
      | Some batches =>
          uploaded ← upload_batches cfg checkpoint batches;
          if (uploaded : bool) then
            update_sync_checkpoint "minute_upload" (latest_minute_ts first others);;
            note INFO "Minute upload successful: {len(upload_records)} records ({weather_count} with weather, avg runtime: {runtime_avg:.1f}%)"
          else mret tt
      end
  end.


(** ** State-change detection *)

Inductive monitored : Type := Temp | THeat | TMode | TState | Hold | Override.

Definition key (f : monitored) : string :=
  match f with
  | Temp => "temp" | THeat => "t_heat" | TMode => "tmode"
  | TState => "tstate" | Hold => "hold" | Override => "override"
  end.

(** The field differs beyond its threshold between two readings. *)
Definition differs (f : monitored) (prev cur : StatusRecord) : Prop :=
  match f with
  | Temp => (1 # 2 <= Qabs (temp cur - temp prev))%Q
  | THeat => ~ (t_heat cur == t_heat prev)%Q
  | TMode => tmode cur <> tmode prev
  | TState => tstate cur <> tstate prev
  | Hold => hold cur <> hold prev
  | Override => override cur <> override prev
  end.

Definition differs_b (f : monitored) (prev cur : StatusRecord) : bool :=
  match f with
  | Temp => temp_moved (temp cur) (temp prev)
  | THeat => negb (Qeq_bool (t_heat cur) (t_heat prev))
  | TMode => negb (tmode cur =? tmode prev)
  | TState => negb (tstate cur =? tstate prev)
  | Hold => negb (hold cur =? hold prev)
  | Override => negb (override cur =? override prev)
  end.

(** The entry of the diff for a field. *)
Definition change_of (f : monitored) (prev cur : StatusRecord) : field_change :=
  match f with
  | Temp => Change (PFloat (temp prev)) (PFloat (temp cur))
  | THeat => Change (PFloat (t_heat prev)) (PFloat (t_heat cur))
  | TMode => Change (PInt (tmode prev)) (PInt (tmode cur))
  | TState => Change (PInt (tstate prev)) (PInt (tstate cur))
  | Hold => Change (PInt (hold prev)) (PInt (hold cur))
  | Override => Change (PInt (override prev)) (PInt (override cur))
  end.

(** ** Progress checkpoints of the TCP scan *)

Section ScanVocabulary.

Variable probe : nat -> string -> string -> option ThermostatDevice.

(** The invocation the callback is owed at checkpoint number [k]. *)
Definition expected_call (ips : list string) (k : nat) : checkpoint_call :=
  {| call_devices :=
       found_between probe ips (10 * k) (min (10 * S k) (length ips));
     call_ips_scanned := min (10 * S k) (length ips);
     call_ips_total := length ips |}.

Definition expected_calls (ips : list string) (count : nat) : list checkpoint_call :=
  expected_call ips <$> seq 0 count.

(** The position of the last checkpoint once [n] of [T] addresses are
    scanned. *)
Definition last_checkpoint (T n : nat) : nat :=
  if Nat.eqb n T then n else (10 * (n / 10))%nat.

(** The loop invariant after [n] addresses. *)
Record scan_inv (ips : list string) (n : nat) (st : scan_state) : Prop := {
  inv_scanned : ips_scanned st = n;
  inv_calls :
    callback_calls st
    = expected_calls ips ((last_checkpoint (length ips) n + 9) / 10);
  inv_pending :
    devices_since_checkpoint st
    = found_between probe ips (last_checkpoint (length ips) n) n;
  inv_all : all_devices_found st = found_between probe ips 0 n
}.

End ScanVocabulary.

(** ** Concrete devices, worlds and commands *)

Module Sample.

Definition device : ThermostatDevice :=
  {| ip := "10.0.60.5"; uuid := "5cdad4276f10"; dev_name := "hallway";
     dev_model := "CT50 V1.94"; dev_api_version := 113; dev_fw_version := "1.04.84";
     base_url := "http://10.0.60.5/tstat"; dev_discovery_method := "tcp_scan";
     dev_last_seen := 0 |}.

(** A thermostat that answers every GET with the same object and accepts
    every POST, on the first of July. *)
Definition env_of (tstat : dict) : Env :=
  {| device_http := fun _ r =>
       match r with
       | GET_tstat _ => Reply 200 (JObj tstat) ""
       | POST_tstat _ _ => Reply 200 (JObj {[ "success" := PInt 0 ]}) ""
       end;
     utcnow := fun n => 1751328000 + Z.of_nat n;
     today := fun _ => Date 2025 7 1;
     localtime := fun _ => (1, 12, 0);
     public_register := fun _ _ => true;
     float_of_string := fun _ => None;
     upsert_ok := fun _ => true |}.

Definition held : dict := {[ "tmode" := PInt 1; "t_heat" := PInt 68; "hold" := PInt 1 ]}.


Definition off_held : dict := {[ "tmode" := PInt 0; "hold" := PInt 1 ]}.

Definition empty_world : World :=
  {| net_clock := 0; clock_reads := 0; sent := []; device_config := ∅;
     thermostats := ∅; public_batches := []; logs := [] |}.

Definition off_with_setpoint : dict :=
  {[ "tmode" := PInt 0; "t_heat" := PInt 70; "hold" := PInt 1 ]}.

Definition resolve_all (site tid : string) (table : gmap string ThermostatRecord)
  : option string := Some "10.0.60.5".

Definition server : ServerConfig := {| public_sync := true; public_enabled := true |}.

(** The result of a remote TCP discovery that found [device]. *)
Definition found_one : discovery_results :=
  {| phases_executed := ["tcp_discovery"];
     total_devices_found := 1;
     devices_found :=
       [{| dd_thermostat_id := uuid device; dd_name := dev_name device;
           dd_ip := ip device; dd_discovery_method := "tcp_scan" |}];
     registration := None |}.

(** Two minute readings after a checkpoint at minute 1000. *)
Definition reading (ts : Z) : MinuteReading :=
  {| mr_thermostat_id := uuid device; minute_ts := ts; temp_avg := 70; t_heat_last := 68;
     tmode_last := 1; hvac_runtime_percent := 25; poll_count := 12; poll_failures := 0;
     local_temp_avg := None |}.

Definition store : Store :=
  {| sync_checkpoint := {[ "minute_upload" := 1000 ]};
     minute_readings := [reading 940; reading 1060; reading 1120];
     posts_made := 0; accepted := []; time_reads := 0; journal := [] |}.

Definition accepting : Cloud :=
  {| minute_endpoint := fun _ _ => Status 200; wall_clock := fun _ => 1130 |}.

(** The public server accepts the first post and fails all later ones. *)
Definition failing_after_one : Cloud :=
  {| minute_endpoint := fun n _ => if Nat.eqb n 0 then Status 201 else Status 500;
     wall_clock := fun _ => 1130 |}.

Definition one_per_batch : Config :=
  {| session := true; retry_attempts := 3; max_batch_size := 1 |}.

End Sample.

(** ** What the policy writes, on every path *)

(** A body that neither selects COOL nor carries a cooling setpoint. *)
Definition cool_free (b : post_body) : bool :=
  match b with
  | Fields d => negb (has d "t_cool") && negb (py_eq (get d "tmode") (PInt 2))
  | TimeSync _ _ _ => true
  end.

(** The three sequences of writes of [apply_intelligent_config] to the
    device at [ip0]: the baseline alone; the baseline and the seasonal
    command of some day; these two and the clock. *)
Inductive policy_posts (ip0 : string) : list (string * post_body) -> Prop :=
  | posts_baseline : policy_posts ip0 [(ip0, fan_off)]
  | posts_takeover day :
      policy_posts ip0 [(ip0, fan_off); (ip0, Fields (seasonal_command day))]
  | posts_takeover_clock day wday hour minute :
      policy_posts ip0 [(ip0, fan_off); (ip0, Fields (seasonal_command day));
                        (ip0, TimeSync wday hour minute)].

(** The [config_updates] of [_save_config_to_database]. *)
Definition saved_updates (config : dict) (now : Z) : gmap string db_value :=
  stamp_field (has_value config "hold") "hold_set" "hold_applied_at" (get config "hold") now
    (stamp_field (has_value config "t_heat") "t_heat_set" "t_heat_applied_at" (get config "t_heat") now
       (stamp_field (has_value config "tmode") "tmode_set" "tmode_applied_at" (get config "tmode") now ∅)).

(** The configuration the policy pushes when it takes a device over. *)
Definition takeover_config (today : date) : dict :=
  <["hold" := PInt 1]> (config (_determine_seasonal_config today)).

(** The row of [device_config] records the take-over of a given day,
    stamped with one time. *)
Definition takeover_recorded (today : date) (row : gmap string db_value) : Prop :=
  exists t,
    row !! "tmode_set" = Some (DVal (get (takeover_config today) "tmode"))
    /\ row !! "hold_set" = Some (DVal (PInt 1))
    /\ row !! "tmode_applied_at" = Some (DTime t)
    /\ row !! "hold_applied_at" = Some (DTime t)
    /\ (get (takeover_config today) "tmode" = PInt 1 ->
        row !! "t_heat_set" = Some (DVal (PInt 50))).

(** The device's answer to a request at a tick is a response with status
    200. *)
Definition answers_200 (e : Env) (n : nat) (r : http_request) : bool :=
  match device_http e n r with
  | Reply status _ _ => status =? 200
  | Raised _ => false
  end.

(** The device answers at all. *)
Definition answers (e : Env) (n : nat) (r : http_request) : bool :=
  match device_http e n r with
  | Reply _ _ _ => true
  | Raised _ => false
  end.

(** The device does not answer the GET with status 200 and an object. *)
Definition unreadable (e : Env) (n : nat) (ip0 : string) : bool :=
  match device_http e n (GET_tstat ip0) with
  | Reply status (JObj _) _ => negb (status =? 200)
  | _ => true
  end.





(** ** More devices and worlds *)

Module Scenario.



End Scenario.

(** ** Local registration *)

(** The away temperature [register_one] gives a device: the one of its
    row, or 50 when it has no row or a null one. *)
Definition away_temp_for (table : gmap string ThermostatRecord) (tid : string) : Q :=
  match table !! tid with
  | Some old => match away_temp old with Some a => a | None => 50%Q end
  | None => 50%Q
  end.

(** The record [register_one] builds for a device. *)
Definition record_of (device : ThermostatDevice) (away : Q) (now : Z) : ThermostatRecord :=
  {| thermostat_id := uuid device; ip_address := ip device;
     name := dev_name device; model := dev_model device;
     api_version := dev_api_version device;
     fw_version := dev_fw_version device;
     discovery_method := dev_discovery_method device;
     active := true; away_temp := Some away; last_seen := Some now |}.

(** The body of the loop of [_register_and_configure_devices], named. *)
Definition register_step (discovery_type : string)
    (acc : IO (list ThermostatRecord)) (device : ThermostatDevice)
  : IO (list ThermostatRecord) :=
  registered ← acc;
  r ← register_one discovery_type device;
  mret (match r with
        | Some rec => (registered ++ [rec])%list
        | None => registered
        end).

(** What the tail of [_register_and_configure_devices] hands to the public
    server, given the records registered locally. *)
Definition public_batch_of (cfg : ServerConfig) (registered : list ThermostatRecord)
  : list (list ThermostatRecord) :=
  match registered with
  | [] => []
  | _ :: _ => if public_sync cfg && public_enabled cfg then [registered] else []
  end.

(** A database that refuses every upsert and a thermostat that answers
    everything. *)
Definition refusing (e : Env) : Env :=
  {| device_http := device_http e; utcnow := utcnow e; today := today e;
     localtime := localtime e; public_register := public_register e;
     float_of_string := float_of_string e; upsert_ok := fun _ => false |}.

(** ** Remote registration *)




(** ** Tracking of applied settings *)

(** The [config_updates] of [_save_config_to_database] and of [do_one]:
    mode, setpoint and hold, each with its applied-at time, for the fields
    that are present. *)
Definition stamped (has_mode has_heat has_hold : bool) (mode heat hold : pyval) (now : Z)
  : gmap string db_value :=
  stamp_field has_hold "hold_set" "hold_applied_at" hold now
    (stamp_field has_heat "t_heat_set" "t_heat_applied_at" heat now
       (stamp_field has_mode "tmode_set" "tmode_applied_at" mode now ∅)).

(** The row of [device_config] records a mode and a hold applied at one
    time. *)
Definition tracked (mode hold : pyval) (row : gmap string db_value) : Prop :=
  exists t,
    row !! "tmode_set" = Some (DVal mode)
    /\ row !! "hold_set" = Some (DVal hold)
    /\ row !! "tmode_applied_at" = Some (DTime t)
    /\ row !! "hold_applied_at" = Some (DTime t).

(** ** The set_state executor, on every command *)

(** The success flag of [do_one]. *)
Definition ok_of (r : outcome (string * bool * option string)) : bool :=
  match r with
  | Returned (_, ok, _) => ok
  | Raises _ => false
  end.

(** A payload the executor may send: OFF or HEAT, a hold of 0 or 1, no
    cooling setpoint, and a heating setpoint exactly in HEAT mode. *)
Definition safe_payload (payload : dict) : Prop :=
  py_in (get payload "tmode") [PInt 0; PInt 1] = true
  /\ py_in (get payload "hold") [PInt 0; PInt 1] = true
  /\ has payload "t_cool" = false
  /\ has payload "t_heat" = py_eq (get payload "tmode") (PInt 1).

(** ** Attempts and batches of the minute upload *)

(** The public server accepts a post: status 200 or 201. *)
Definition accepted_code (r : response) : bool :=
  match r with
  | Status code => bool_decide (code = 200 ∨ code = 201)
  | Failed _ => false
  end.

(** Where a run leaves the [minute_upload] checkpoint when it goes
    through: at the latest of the readings it selected, if any. *)
Definition checkpoint_after (rows : list MinuteReading) (s s' : Store) : Prop :=
  match rows with
  | [] => sync_checkpoint s' = sync_checkpoint s
  | first :: others =>
      sync_checkpoint s'
      = <["minute_upload" := latest_minute_ts first others]> (sync_checkpoint s)
  end.

(** ** The registry and the stream of a TCP scan *)

(** [self.known_devices[device.uuid] = device] for each device of a list,
    in order. *)
Definition remember (known : gmap string ThermostatDevice) (found : list ThermostatDevice)
  : gmap string ThermostatDevice :=
  foldl (fun m d => <[uuid d := d]> m) known found.

(** ** The away temperature *)

(** The value a [set_away_temp] command asks for, when it passes the
    validation: present, a number, and not outside 41..76. *)
Definition away_temp_request (e : Env) (params : dict) : option Q :=
  if is_none (get params "away_temp") then None
  else
    match py_float e (get params "away_temp") with
    | Some v => if CommandDispatch.out_of_range v then None else Some v
    | None => None
    end.

(** The success flag of a triple [(ok, error, extra)]. *)
Definition accepted_by {E} (r : bool * option string * option E) : bool := fst (fst r).


(** ** Acknowledgments *)

(** The public server refuses a post for good: status 422. *)
Definition refused_for_good (r : UploadServices.response) : bool :=
  match r with
  | UploadServices.Status code => code =? 422
  | UploadServices.Failed _ => false
  end.

(** ** Devices found more than once *)

(** The entry of [devices_found] for a device. *)
Definition found_entry (d : ThermostatDevice) : device_data :=
  {| dd_thermostat_id := uuid d; dd_name := dev_name d;
     dd_ip := ip d; dd_discovery_method := dev_discovery_method d |}.

(** The first device of a list with a given uuid. *)
Definition first_with (u : string) (devices : list ThermostatDevice)
  : option ThermostatDevice :=
  snd <$> list_find (fun d => uuid d = u) devices.

(** An insertion-ordered dictionary of devices is well formed: no key
    twice, every device under its uuid. *)
Definition odict_wf (m : StartupDiscovery.odict) : Prop :=
  NoDup (fst <$> m) /\ Forall (fun kv => fst kv = uuid (snd kv)) m.

(** ** The routes of the local API *)

(** The device confirms a request at a tick: status 200 and an object
    whose [success] is 0. *)
Definition confirms (e : Env) (n : nat) (r : http_request) : bool :=
  match device_http e n r with
  | Reply status (JObj result) _ => (status =? 200) && py_eq (get result "success") (PInt 0)
  | _ => false
  end.

(** ** Periodic discovery *)


(** ** The effect of one write of the executor *)

(** What one [do_one] does to the world, by its outcome. *)
Definition do_one_writes (tid : string) (e : Env) (tmode hold t_heat : pyval)
    (ip0 : option string) (w : World)
    (r : outcome (string * bool * option string) * World) : Prop :=
  match ip0 with
  | Some ip0 =>
      if bool_decide (ip0 = "")
      then sent (snd r) = sent w /\ device_config (snd r) = device_config w
           /\ ok_of (fst r) = false
      else
        match build_payload e tmode hold t_heat with
        | Raises _ =>
            sent (snd r) = sent w /\ device_config (snd r) = device_config w
            /\ ok_of (fst r) = false
        | Returned payload =>
            sent (snd r) = sent w ++ [(ip0, Fields payload)]
            /\ if ok_of (fst r)
               then exists row,
                      device_config (snd r) = <[tid := row]> (device_config w)
                      /\ tracked tmode hold row
               else device_config (snd r) = device_config w
        end
  | None =>
      sent (snd r) = sent w /\ device_config (snd r) = device_config w
      /\ ok_of (fst r) = false
  end.

(** ** The two modes of a TCP scan *)

(** The two modes of the scan differ in the record of the invocations
    only. *)
Definition same_scan (st st' : scan_state) : Prop :=
  ips_scanned st' = ips_scanned st
  /\ all_devices_found st' = all_devices_found st
  /\ devices_since_checkpoint st' = devices_since_checkpoint st
  /\ known_devices st' = known_devices st
  /\ callback_calls st' = [].


(* ===================================================================== *)
(** * Facts                                                                *)
(* ===================================================================== *)

(** ** Python values and dictionaries *)

Lemma has_insert (d : dict) k k' v :
  has (<[k := v]> d) k' = if decide (k = k') then true else has d k'.
Proof.
  unfold has. destruct (decide (k = k')) as [->|Hne].
  - rewrite lookup_insert_eq. by apply bool_decide_eq_true_2.
  - by rewrite lookup_insert_ne.
Qed.

Lemma get_insert (d : dict) k k' v :
  get (<[k := v]> d) k' = if decide (k = k') then v else get d k'.
Proof.
  unfold get. destruct (decide (k = k')) as [->|Hne].
  - by rewrite lookup_insert_eq.
  - by rewrite lookup_insert_ne.
Qed.

Lemma has_empty k : has (∅ : dict) k = false.
Proof. unfold has. rewrite lookup_empty. apply bool_decide_eq_false_2. by intros [? ?]. Qed.

Lemma get_empty k : get (∅ : dict) k = PNone.
Proof. unfold get. by rewrite lookup_empty. Qed.

Lemma py_eq_int_number v z :
  py_eq v (PInt z) = true -> exists q, as_number v = Some q /\ Qeq q (inject_Z z).
Proof.
  destruct v as [|b|n|q|s]; simpl; try discriminate; intros H;
    eexists; (split; [reflexivity|]); by apply Qeq_bool_iff.
Qed.

Lemma py_eq_int_unique v a b :
  py_eq v (PInt a) = true -> py_eq v (PInt b) = true -> a = b.
Proof.
  intros Ha Hb.
  destruct (py_eq_int_number _ _ Ha) as (q & Hq & Hqa).
  destruct (py_eq_int_number _ _ Hb) as (q' & Hq' & Hqb).
  rewrite Hq in Hq'. injection Hq' as <-.
  rewrite Hqa in Hqb.
  unfold Qeq in Hqb. simpl in Hqb. lia.
Qed.

Lemma py_in_01 v :
  py_in v [PInt 0; PInt 1] = true ->
  py_eq v (PInt 0) = true \/ py_eq v (PInt 1) = true.
Proof.
  unfold py_in. simpl. rewrite orb_false_r. intros H.
  apply orb_true_iff in H. exact H.
Qed.

Lemma py_in_01_not_2 v :
  py_in v [PInt 0; PInt 1] = true -> py_eq v (PInt 2) = false.
Proof.
  intros H. destruct (py_eq v (PInt 2)) eqn:E; [|done].
  destruct (py_in_01 _ H) as [H0|H1].
  - pose proof (py_eq_int_unique _ _ _ H0 E). lia.
  - pose proof (py_eq_int_unique _ _ _ H1 E). lia.
Qed.

(** ** Safe commands and seasons *)

Ltac dict_simpl :=
  repeat (rewrite ?has_insert, ?get_insert, ?has_empty, ?get_empty in *;
          repeat case_decide; try discriminate; try congruence).

(** C1 (as amended). For every configuration, the command built by
    [_build_safe_thermostat_command] has no [t_cool] field and its mode is
    never COOL (2); it carries a [tmode] exactly when the configuration
    supplies a non-null one, which is kept when it equals 0 or 1 and is
    replaced by OFF (0), with one warning logged, otherwise; and it carries
    [t_heat] if and only if its mode is HEAT (1) and the configuration
    supplies a non-null [t_heat]. *)
Theorem build_safe_command_shape (config : dict) :
  let command := fst (_build_safe_thermostat_command config) in
  let warnings := snd (_build_safe_thermostat_command config) in
  has command "t_cool" = false
  /\ py_eq (get command "tmode") (PInt 2) = false
  /\ has command "tmode" = has_value config "tmode"
  /\ get command "tmode" =
       (if has_value config "tmode"
        then if py_in (get config "tmode") [PInt 0; PInt 1]
             then get config "tmode" else PInt 0
        else PNone)
  /\ warnings =
       (if has_value config "tmode" && negb (py_in (get config "tmode") [PInt 0; PInt 1])
        then [invalid_tmode_warning] else [])
  /\ (has command "t_heat" = true <->
      py_eq (get command "tmode") (PInt 1) = true /\ has_value config "t_heat" = true).
Proof.
  unfold _build_safe_thermostat_command. cbn [foldl].
  destruct (has_value config "tmode") eqn:Ht.
  - destruct (py_in (get config "tmode") [PInt 0; PInt 1]) eqn:Hin; cbn [fst snd andb negb].
    + rewrite get_insert. rewrite decide_True by done.
      destruct (py_eq (get config "tmode") (PInt 1) && has_value config "t_heat") eqn:Hh;
      destruct (has_value config "hold"), (has_value config "fmode");
      dict_simpl; repeat split; auto using py_in_01_not_2;
      try (apply andb_true_iff in Hh; tauto); try discriminate;
      try (intros [Ha Hb]; rewrite Ha, Hb in Hh; discriminate).
    + destruct (has_value config "hold"), (has_value config "fmode");
      dict_simpl; repeat split; try done; try discriminate; try (intros [? ?]; discriminate).
  - cbn [fst snd andb negb]. rewrite get_empty. cbn [py_eq as_number andb].
    destruct (has_value config "hold"), (has_value config "fmode");
      dict_simpl; repeat split; try done; try discriminate; try (intros [? ?]; discriminate).
Qed.

(** C1 as stated fails: a configuration that asks for HEAT without a
    setpoint yields a HEAT command without [t_heat]; and a null [tmode],
    which is neither 0 nor 1, is dropped instead of being clamped to OFF. *)
Lemma heat_mode_without_setpoint :
  let heat_only : dict := {[ "tmode" := PInt 1 ]} in
  let null_mode : dict := {[ "tmode" := PNone; "hold" := PInt 1 ]} in
  (py_eq (get (fst (_build_safe_thermostat_command heat_only)) "tmode") (PInt 1) = true
   /\ has (fst (_build_safe_thermostat_command heat_only)) "t_heat" = false)
  /\ (py_in (get null_mode "tmode") [PInt 0; PInt 1] = false
      /\ has (fst (_build_safe_thermostat_command null_mode)) "tmode" = false).
Proof. vm_compute. repeat split. Qed.

Lemma in_heating_test (today : date) :
  (date_ge today (Date (year today) 11 16) || date_le today (Date (year today) 4 14)) = true
  <-> (11 < month today \/ (month today = 11 /\ 16 <= day today)
       \/ month today < 4 \/ (month today = 4 /\ day today <= 14)).
Proof.
  destruct today as [y m d]. unfold date_ge, date_le. cbn [year month day].
  rewrite !orb_true_iff, !andb_true_iff, !orb_true_iff, !andb_true_iff.
  rewrite !Z.ltb_lt, !Z.eqb_eq, !Z.leb_le. lia.
Qed.

Lemma seasonal_config_cases (today : date) :
  _determine_seasonal_config today =
    if date_ge today (Date (year today) 11 16) || date_le today (Date (year today) 4 14)
    then heating_config else cooling_config.
Proof. reflexivity. Qed.

Example cool_request_is_clamped :
  _build_safe_thermostat_command
    {[ "tmode" := PInt 2; "t_heat" := PInt 72; "t_cool" := PInt 70; "hold" := PInt 1 ]}
  = ({[ "tmode" := PInt 0; "hold" := PInt 1 ]}, [invalid_tmode_warning]).
Proof. vm_compute. reflexivity. Qed.

Example heat_request_keeps_setpoint :
  _build_safe_thermostat_command
    {[ "tmode" := PInt 1; "t_heat" := PInt 50; "fmode" := PInt 0; "hold" := PInt 1 ]}
  = ({[ "tmode" := PInt 1; "t_heat" := PInt 50; "fmode" := PInt 0; "hold" := PInt 1 ]}, []).
Proof. vm_compute. reflexivity. Qed.

(** C3. [_determine_seasonal_config] is a function of the date alone:
    from Nov 16 through Apr 14 it yields the heating configuration
    {tmode=1, t_heat=50, fmode=0}, from Apr 15 through Nov 15 the cooling
    season configuration {tmode=0, fmode=0}, and on no date does it yield
    mode COOL (2) or a [t_cool] field. *)
Theorem seasonal_config_by_date (today : date) :
  (heating_window today -> _determine_seasonal_config today = heating_config)
  /\ (cooling_window today -> _determine_seasonal_config today = cooling_config)
  /\ py_eq (get (config (_determine_seasonal_config today)) "tmode") (PInt 2) = false
  /\ has (config (_determine_seasonal_config today)) "t_cool" = false.
Proof.
  rewrite seasonal_config_cases.
  pose proof (in_heating_test today) as Hw.
  destruct (date_ge today _ || date_le today _) eqn:E.
  - split; [done|]. split.
    + intros Hc. exfalso. destruct Hw as [Hw _]. specialize (Hw eq_refl).
      unfold cooling_window in Hc. lia.
    + split; reflexivity.
  - split.
    + intros Hh. exfalso. destruct Hw as [_ Hw].
      assert (false = true); [|discriminate].
      apply Hw. unfold heating_window in Hh. lia.
    + split; [done|]. split; reflexivity.
Qed.

Lemma calendar_covered (today : date) :
  1 <= month today <= 12 -> heating_window today \/ cooling_window today.
Proof. unfold heating_window, cooling_window. lia. Qed.

Example season_nov_16 : _determine_seasonal_config (Date 2025 11 16) = heating_config.
Proof. reflexivity. Qed.

Example season_nov_15 : _determine_seasonal_config (Date 2025 11 15) = cooling_config.
Proof. reflexivity. Qed.

Example season_apr_14 : _determine_seasonal_config (Date 2026 4 14) = heating_config.
Proof. reflexivity. Qed.

Example season_apr_15 : _determine_seasonal_config (Date 2026 4 15) = cooling_config.
Proof. reflexivity. Qed.

Example season_new_year : _determine_seasonal_config (Date 2026 1 1) = heating_config.
Proof. reflexivity. Qed.

(** ** The monad, unfolded *)

Lemma bind_eq {A B} (m : IO A) (k : A -> IO B) e w :
  (m ≫= k) e w = k (fst (m e w)) e (snd (m e w)).
Proof. unfold mbind, IO_bind, bind. by destruct (m e w). Qed.

Lemma run_bind {A B} (m : IO A) (k : A -> IO B) e w :
  run (m ≫= k) e w = run (k (value m e w)) e (run m e w).
Proof. unfold run, value. by rewrite bind_eq. Qed.

Lemma value_bind {A B} (m : IO A) (k : A -> IO B) e w :
  value (m ≫= k) e w = value (k (value m e w)) e (run m e w).
Proof. unfold run, value. by rewrite bind_eq. Qed.

Lemma run_ret {A} (x : A) e w : run (mret x) e w = w.
Proof. reflexivity. Qed.

Lemma value_ret {A} (x : A) e w : value (mret x) e w = x.
Proof. reflexivity. Qed.

(** ** Frames: a computation that leaves a component of the world alone *)

Lemma keeps_ret {X A} (f : World -> X) (x : A) : keeps f (mret x).
Proof. by intros e w. Qed.

Lemma keeps_bind {X A B} (f : World -> X) (m : IO A) (k : A -> IO B) :
  keeps f m -> (forall a, keeps f (k a)) -> keeps f (m ≫= k).
Proof. intros Hm Hk e w. rewrite run_bind, Hk. apply Hm. Qed.

Lemma keeps_if {X A} (f : World -> X) (c : bool) (a b : IO A) :
  keeps f a -> keeps f b -> keeps f (if c then a else b).
Proof. by destruct c. Qed.

#[global] Instance sent_quiet : Quiet sent.
Proof. by split. Qed.
#[global] Instance device_config_quiet : Quiet device_config.
Proof. by split. Qed.
#[global] Instance thermostats_quiet : Quiet thermostats.
Proof. by split. Qed.
#[global] Instance public_batches_quiet : Quiet public_batches.
Proof. by split. Qed.

Lemma keeps_log {X} (f : World -> X) `{!Quiet f} l m : keeps f (log l m).
Proof. apply quiet_log. Qed.

Lemma keeps_now_utc {X} (f : World -> X) `{!Quiet f} : keeps f now_utc.
Proof. intros e w. apply quiet_clock. Qed.

Lemma keeps_date_today {X} (f : World -> X) `{!Quiet f} : keeps f date_today.
Proof. intros e w. apply quiet_clock. Qed.

Lemma keeps_now_local {X} (f : World -> X) `{!Quiet f} : keeps f now_local.
Proof. intros e w. apply quiet_clock. Qed.

Lemma keeps_emit {X} (f : World -> X) `{!Quiet f} rs : keeps f (emit rs).
Proof.
  induction rs as [|r rs IH]; simpl.
  - apply keeps_ret.
  - apply keeps_bind; [apply keeps_log; done | intros _; exact IH].
Qed.

Create HintDb frame.
#[export] Hint Resolve keeps_ret keeps_bind keeps_if keeps_log keeps_now_utc
  keeps_date_today keeps_now_local keeps_emit : frame.
#[export] Hint Extern 1 (Quiet _) => typeclasses eauto : frame.

Ltac frame :=
  repeat first
    [ apply keeps_bind; [|intros ?]
    | apply keeps_if
    | apply keeps_ret
    | apply keeps_log; typeclasses eauto
    | apply keeps_now_utc; typeclasses eauto
    | apply keeps_date_today; typeclasses eauto
    | apply keeps_emit; typeclasses eauto
    | progress eauto with frame
    | match goal with |- keeps _ (match ?x with _ => _ end) => destruct x end ].

Ltac drop_quiet f :=
  match goal with
  | |- context [f (run ?m ?e ?W)] =>
      let H := fresh in
      assert (H : keeps f m) by (frame; eauto with frame);
      rewrite (H e W); clear H
  end.

Lemma keeps_http_get {X} (f : World -> X) ip :
  (forall w n, f {| net_clock := n; clock_reads := clock_reads w; sent := sent w;
                    device_config := device_config w; thermostats := thermostats w;
                    public_batches := public_batches w; logs := logs w |} = f w) ->
  keeps f (http (GET_tstat ip)).
Proof. intros H e w. apply H. Qed.

Lemma keeps_read_settings {X} (f : World -> X) `{!Quiet f} ip :
  keeps f (http (GET_tstat ip)) -> keeps f (read_thermostat_current_settings ip).
Proof. intros H. unfold read_thermostat_current_settings. frame. Qed.

Lemma sent_http_get ip : keeps sent (http (GET_tstat ip)).
Proof. by intros e w. Qed.
Lemma device_config_http r : keeps device_config (http r).
Proof. by intros e w. Qed.
Lemma thermostats_http r : keeps thermostats (http r).
Proof. by intros e w. Qed.

Lemma keeps_is_unsafe {X} (f : World -> X) `{!Quiet f} s : keeps f (_is_unsafe_setting s).
Proof. unfold _is_unsafe_setting. frame. Qed.

#[export] Hint Resolve keeps_is_unsafe : frame.

(** ** The policy on a device that is not at hold = 0 *)

Lemma sent_apply_initial_settings ip0 e w :
  sent (run (apply_initial_settings ip0) e w) = sent w ++ [(ip0, fan_off)].
Proof.
  unfold apply_initial_settings. rewrite run_bind.
  assert (Hs : sent (run (http (POST_tstat ip0 (Fields initial_settings))) e w)
               = sent w ++ [(ip0, fan_off)]) by reflexivity.
  destruct (value _ e w) as [x|status b t]; [|destruct (status =? 200)];
    rewrite ?run_bind; cbn; exact Hs.
Qed.


Lemma keeps_apply_initial_settings {X} (f : World -> X) `{!Quiet f} ip0 :
  keeps f (http (POST_tstat ip0 (Fields initial_settings))) ->
  keeps f (apply_initial_settings ip0).
Proof. intros H. unfold apply_initial_settings. frame. Qed.

Lemma keeps_device_config_row {X} (f : World -> X) tid : keeps f (device_config_row tid).
Proof. by intros e w. Qed.

Lemma keeps_get_stored {X} (f : World -> X) tid : keeps f (_get_stored_device_config tid).
Proof.
  unfold _get_stored_device_config. apply keeps_bind; [apply keeps_device_config_row|].
  intros [row|]; [destruct (is_none _)|]; apply keeps_ret.
Qed.

Lemma value_get_stored_frame tid e w : run (_get_stored_device_config tid) e w = w.
Proof.
  unfold _get_stored_device_config. rewrite run_bind.
  destruct (value (device_config_row tid) e w) as [row|]; [destruct (is_none _)|]; reflexivity.
Qed.

Lemma device_config_update_db tid s e w :
  device_config (run (_update_db_from_thermostat tid s) e w) =
    let ups := settings_updates s (utcnow e (clock_reads w)) in
    if nonempty ups
    then <[tid := <["updated_at" := DTime (utcnow e (S (clock_reads w)))]>
                    (ups ∪ default ∅ (device_config w !! tid))]> (device_config w)
    else device_config w.
Proof.
  unfold _update_db_from_thermostat.
  rewrite run_bind, value_get_stored_frame. rewrite run_bind.
  change (value now_utc e w) with (utcnow e (clock_reads w)).
  change (run now_utc e w) with (tick_clock w).
  fold (settings_updates s (utcnow e (clock_reads w))).
  cbv zeta. rewrite run_bind.
  set (lg := match value (_get_stored_device_config tid) e w with
             | Some _ => _ | None => _ end).
  assert (Hlg : forall w0, device_config (run lg e w0) = device_config w0
                           /\ clock_reads (run lg e w0) = clock_reads w0).
  { intros w0. subst lg. destruct (value _ e w); [destruct (nonempty _)|]; done. }
  destruct (Hlg (tick_clock w)) as [Hd Hc].
  destruct (nonempty (settings_updates s _)).
  - rewrite run_bind. cbn. rewrite Hd, Hc. reflexivity.
  - cbn. rewrite Hd. reflexivity.
Qed.

Lemma sent_update_db tid s : keeps sent (_update_db_from_thermostat tid s).
Proof.
  unfold _update_db_from_thermostat.
  apply keeps_bind; [apply keeps_get_stored|intros st].
  apply keeps_bind; [apply keeps_now_utc; typeclasses eauto|intros now].
  apply keeps_bind.
  - destruct st; [destruct (nonempty _)|]; apply keeps_log; typeclasses eauto.
  - intros _. destruct (nonempty _); [|apply keeps_ret].
    apply keeps_bind; [by intros e w|intros _; apply keeps_log; typeclasses eauto].
Qed.

Lemma settings_updates_lookup s now field col at_col :
  (field, col, at_col) ∈ mirror_columns ->
  is_none (get s field) = false ->
  settings_updates s now !! col = Some (DVal (get s field))
  /\ settings_updates s now !! at_col = Some (DTime now).
Proof.
  intros Hin Hv. unfold mirror_columns in Hin.
  unfold settings_updates, stamp_field.
  repeat (apply elem_of_cons in Hin as [Heq|Hin]; [injection Heq as -> -> ->|]);
    [..|by apply elem_of_nil in Hin];
    rewrite Hv; cbn [negb];
    destruct (is_none (get s "tmode")), (is_none (get s "t_heat")),
             (is_none (get s "t_cool")), (is_none (get s "hold"));
    try discriminate; cbn [negb]; split; by simplify_map_eq.
Qed.

Lemma settings_updates_nonempty s now field col at_col :
  (field, col, at_col) ∈ mirror_columns ->
  is_none (get s field) = false ->
  nonempty (settings_updates s now) = true.
Proof.
  intros Hin Hv. destruct (settings_updates_lookup s now _ _ _ Hin Hv) as [H _].
  unfold nonempty. apply negb_true_iff, bool_decide_eq_false_2.
  intros E. rewrite E, lookup_empty in H. discriminate.
Qed.

Lemma mirror_columns_fresh field col at_col :
  (field, col, at_col) ∈ mirror_columns -> "updated_at" <> col /\ "updated_at" <> at_col.
Proof.
  unfold mirror_columns. intros Hin.
  repeat (apply elem_of_cons in Hin as [Heq|Hin]; [injection Heq as -> -> ->; done|]).
  by apply elem_of_nil in Hin.
Qed.

Lemma update_db_mirrors tid s e w :
  mirrored tid s (run (_update_db_from_thermostat tid s) e w)
  /\ (forall tid', tid' <> tid ->
        device_config (run (_update_db_from_thermostat tid s) e w) !! tid'
        = device_config w !! tid').
Proof.
  unfold mirrored. rewrite device_config_update_db. cbv zeta. split.
  - exists (utcnow e (clock_reads w)). intros field col at_col Hin Hv.
    rewrite (settings_updates_nonempty _ _ _ _ _ Hin Hv).
    destruct (settings_updates_lookup s (utcnow e (clock_reads w)) _ _ _ Hin Hv) as [Hc Ha].
    eexists. split; [apply lookup_insert_eq|].
    destruct (mirror_columns_fresh _ _ _ Hin) as [Hne1 Hne2].
    rewrite !lookup_insert_ne by done.
    split; by apply lookup_union_Some_l.
  - intros tid' Hne. destruct (nonempty _); [|done].
    by rewrite lookup_insert_ne.
Qed.

Lemma keeps_update_db_other_tables tid s :
  keeps thermostats (_update_db_from_thermostat tid s).
Proof.
  unfold _update_db_from_thermostat.
  apply keeps_bind; [apply keeps_get_stored|intros st].
  apply keeps_bind; [apply keeps_now_utc; typeclasses eauto|intros now].
  apply keeps_bind.
  - destruct st; [destruct (nonempty _)|]; apply keeps_log; typeclasses eauto.
  - intros _. destruct (nonempty _); [|apply keeps_ret].
    apply keeps_bind; [by intros e w|intros _; apply keeps_log; typeclasses eauto].
Qed.

Lemma preserve_branch_effect device s dt e w :
  sent (run (preserve_branch device s dt) e w) = sent w
  /\ mirrored (uuid device) s (run (preserve_branch device s dt) e w)
  /\ (forall tid, tid <> uuid device ->
        device_config (run (preserve_branch device s dt) e w) !! tid = device_config w !! tid).
Proof.
  unfold preserve_branch. rewrite !run_bind.
  match goal with
  | |- context [run (_update_db_from_thermostat _ _) e ?W] => set (w3 := W)
  end.
  assert (Hs : sent w3 = sent w) by (subst w3; repeat drop_quiet sent; done).
  assert (Hd : device_config w3 = device_config w)
    by (subst w3; repeat drop_quiet device_config; done).
  rewrite <- Hs, <- Hd.
  split; [apply sent_update_db|]. apply update_db_mirrors.
Qed.


(** ** The policy on a device at hold = 0 *)

Lemma seasonal_tmode_valid today :
  py_in (get (<["hold" := PInt 1]> (config (_determine_seasonal_config today))) "tmode")
        [PInt 0; PInt 1] = true.
Proof.
  rewrite seasonal_config_cases. by destruct (date_ge today _ || date_le today _).
Qed.

Lemma keeps_save_config tid cfg : keeps sent (_save_config_to_database tid cfg).
Proof.
  unfold _save_config_to_database.
  apply keeps_bind; [apply keeps_now_utc; typeclasses eauto|intros now].
  destruct (nonempty _); [|apply keeps_ret].
  apply keeps_bind; [by intros e w|intros _; apply keeps_log; typeclasses eauto].
Qed.









Example held_device_row :
  map_to_list <$>
    (device_config (run (apply_intelligent_config Sample.device None "startup")
                        (Sample.env_of Sample.held) Sample.empty_world)
       !! uuid Sample.device)
  = Some [("updated_at", DTime 1751328002); ("t_heat_set", DVal (PInt 68));
          ("t_heat_applied_at", DTime 1751328001); ("tmode_set", DVal (PInt 1));
          ("tmode_applied_at", DTime 1751328001); ("hold_set", DVal (PInt 1));
          ("hold_applied_at", DTime 1751328001)].
Proof. vm_compute. reflexivity. Qed.


(** ** Remote registration against the local registration path *)

Lemma keeps_get_thermostat_by_id {X} (f : World -> X) tid :
  keeps f (get_thermostat_by_id tid).
Proof. by intros e w. Qed.

Lemma keeps_to_register {X} (f : World -> X) `{!Quiet f} devices_data :
  keeps f (to_register devices_data).
Proof.
  unfold to_register.
  assert (H : forall (acc : IO (list ThermostatRecord)), keeps f acc ->
            keeps f (foldl (fun (acc : IO (list ThermostatRecord)) dd =>
               pending ← acc;
               existing ← get_thermostat_by_id (dd_thermostat_id dd);
               match existing with
               | None =>
                   now ← now_utc;
                   let record :=
                     {| thermostat_id := dd_thermostat_id dd; ip_address := dd_ip dd;
                        name := dd_name dd; model := "Unknown"; api_version := 0;
                        fw_version := "Unknown";
                        discovery_method := dd_discovery_method dd;
                        active := true; away_temp := Some 50%Q; last_seen := Some now |} in
                   log DEBUG "New device {device_data['name']} will get default away_temp {away_temp}F";;
                   mret (pending ++ [record])%list
               | Some _ =>
                   log DEBUG "Existing device {device_data['name']} found - skipping registration";;
                   mret pending
               end) acc devices_data)).
  { induction devices_data as [|dd rest IH]; intros acc Hacc; cbn [foldl]; [done|].
    apply IH. apply keeps_bind; [done|intros pending].
    apply keeps_bind; [apply keeps_get_thermostat_by_id|intros [old|]].
    - apply keeps_bind; [by apply keeps_log|intros _; apply keeps_ret].
    - apply keeps_bind; [by apply keeps_now_utc|intros now].
      apply keeps_bind; [by apply keeps_log|intros _; apply keeps_ret]. }
  apply H, keeps_ret.
Qed.

Lemma keeps_handle_registration {X} (f : World -> X) `{!Quiet f} has_sync result :
  (forall batch, keeps f (register_thermostats batch)) ->
  keeps f (_handle_device_registration has_sync result).
Proof.
  intros Hreg. unfold _handle_device_registration.
  destruct (devices_found result) as [|dd rest]; [apply keeps_ret|].
  apply keeps_bind; [by apply keeps_log|intros _].
  apply keeps_bind; [by apply keeps_to_register|intros [|r rs]]; [apply keeps_ret|].
  destruct has_sync; [|apply keeps_ret].
  apply keeps_bind; [apply Hreg|intros ok; apply keeps_ret].
Qed.

Lemma keeps_register_thermostats_tables batch :
  keeps thermostats (register_thermostats batch)
  /\ keeps device_config (register_thermostats batch)
  /\ keeps sent (register_thermostats batch).
Proof. by repeat split. Qed.

(** C4, on the code. The handler of a remote discovery command never
    takes the local registration path: whatever the command, the result and
    the environment, it leaves the table [thermostats] and the table
    [device_config] as they were and writes to no device; its only effect
    is a batch for the public server and the outcome appended to the result.
    On one new device the local path upserts the device, writes the fan-off
    baseline and mirrors the held settings, while the handler does none of
    it and yet reports [local_registration_success]. *)
Theorem remote_registration_skips_local_path :
  (forall has_sync apply_config result e w,
     thermostats (run (finish_discovery_command has_sync apply_config result) e w)
       = thermostats w
     /\ device_config (run (finish_discovery_command has_sync apply_config result) e w)
        = device_config w
     /\ sent (run (finish_discovery_command has_sync apply_config result) e w) = sent w)
  /\ (let e := Sample.env_of Sample.held in
      let local :=
        run (_register_and_configure_devices Sample.server [Sample.device]
               "periodic_discovery") e Sample.empty_world in
      let remote := finish_discovery_command true true Sample.found_one e Sample.empty_world in
      has_row (thermostats local) (uuid Sample.device) = true
      /\ sent local = [(ip Sample.device, fan_off)]
      /\ has_row (device_config local) (uuid Sample.device) = true
      /\ has_row (thermostats (snd remote)) (uuid Sample.device) = false
      /\ sent (snd remote) = []
      /\ has_row (device_config (snd remote)) (uuid Sample.device) = false
      /\ length (public_batches (snd remote)) = 1%nat
      /\ registration (fst remote)
         = Some {| local_registration_success := true;
                   public_server_registration_success := true;
                   devices_registered := 1;
                   registration_errors := [] |}).
Proof.
  split.
  - intros has_sync apply_config result e w.
    unfold finish_discovery_command.
    destruct (apply_config && (total_devices_found result >? 0)); [|done].
    repeat split; apply keeps_handle_registration;
      try typeclasses eauto; intros batch; apply keeps_register_thermostats_tables.
  - vm_compute. repeat split.
Qed.

(** ** The set_state executor *)

Lemma has_delete (d : dict) k : has (delete k d) k = false.
Proof. unfold has. rewrite lookup_delete_eq. apply bool_decide_eq_false_2. by intros [? ?]. Qed.

Lemma filter_clears_guard params tmode t_heat e w :
  py_eq tmode (PInt 0) && has (fst (value (defensive_filter params tmode t_heat) e w)) "t_heat"
  = false.
Proof.
  unfold defensive_filter.
  destruct (py_eq tmode (PInt 0)) eqn:Hm; [|done]. cbn [andb].
  destruct (has params "t_heat") eqn:Hh.
  - rewrite value_bind, value_ret. cbn [fst]. apply has_delete.
  - rewrite value_ret. exact Hh.
Qed.

Ltac io_eval :=
  unfold mbind, IO_bind, bind, mret, IO_ret, ret, log, http, ask, now_utc,
    update_device_config, tick_clock;
  cbn [fst snd andb negb orb
       net_clock clock_reads sent device_config thermostats public_batches logs].

Lemma off_payload_tmode (a b : pyval) :
  get ({[ "tmode" := a; "hold" := b ]} : dict) "tmode" = a.
Proof. unfold get. by simplify_map_eq. Qed.

Lemma off_payload_hold (a b : pyval) :
  get ({[ "tmode" := a; "hold" := b ]} : dict) "hold" = b.
Proof. unfold get. by simplify_map_eq. Qed.

Lemma nonempty_empty {V} : nonempty (∅ : gmap string V) = false.
Proof. unfold nonempty. by rewrite bool_decide_eq_true_2. Qed.

Ltac log_prefix := eexists; rewrite <- ?app_assoc; reflexivity.

Ltac fin := split; [log_prefix|split; reflexivity].

Section ExecutorFacts.

Variable fetch : string -> string -> gmap string ThermostatRecord -> option string.

(** C9. The rejection "t_heat must be omitted when tmode == 0" of
    [_execute_set_state] is unreachable: after the defensive filtering the
    guard [tmode == 0 and "t_heat" in params] is false, and for no input is
    the triple [(False, <that message>, None)] returned. *)
Theorem omit_rejection_unreachable site tid params e w :
  py_eq (get params "tmode") (PInt 0)
    && has (fst (value (defensive_filter params (get params "tmode") (get params "t_heat")) e w))
           "t_heat" = false
  /\ is_rejection omit_rejection (value (_execute_set_state fetch site tid params) e w) = false.
Proof.
  split; [apply filter_clears_guard|].
  unfold _execute_set_state. cbv zeta.
  destruct (negb (py_in (get params "tmode") _)); [done|].
  destruct (negb (py_in (get params "hold") _)); [done|].
  rewrite value_bind.
  pose proof (filter_clears_guard params (get params "tmode") (get params "t_heat") e w) as Hg.
  destruct (value (defensive_filter _ _ _) e w) as [params' t_heat'].
  cbn [fst] in Hg. rewrite Hg.
  destruct (py_eq (get params "tmode") (PInt 1) && is_none t_heat'); [done|].
  rewrite value_bind.
  destruct (value (do_one _ _ _ _ _ _) e _) as [[[tid' ok] err]|x]; [|done].
  rewrite value_ret. destruct ok; [done|]. by destruct err.
Qed.

Lemma is_prefix_refl_app {A} (l k : list A) : l `prefix_of` l ++ k.
Proof. by exists k. Qed.

(** C5. For a set_state command with tmode = 0, a hold in {0, 1} and a
    t_heat, the executor logs the warning and strips t_heat instead of
    rejecting; to the thermostat its adapter resolves it POSTs exactly
    {tmode: 0, hold: <given>} and nothing else (and nothing at all when no
    address resolves); and it returns success if and only if that POST is
    answered 2xx and the read-back of [/tstat] shows tmode = 0 and the
    requested hold. *)
Theorem set_state_off_strips_setpoint site tid params e w :
  py_eq (get params "tmode") (PInt 0) = true ->
  py_in (get params "hold") [PInt 0; PInt 1] = true ->
  has params "t_heat" = true ->
  let call := _execute_set_state fetch site tid params in
  let payload : dict := {[ "tmode" := get params "tmode"; "hold" := get params "hold" ]} in
  (logs w ++ [strip_warning]) `prefix_of` logs (run call e w)
  /\ match fetch site tid (thermostats w) with
     | Some ip0 =>
         if bool_decide (ip0 = "")
         then sent (run call e w) = sent w /\ succeeded (value call e w) = false
         else
           sent (run call e w) = sent w ++ [(ip0, Fields payload)]
           /\ succeeded (value call e w)
              = post_accepted e (net_clock w) ip0 payload
                && readback_confirms_off e (S (net_clock w)) ip0 (get params "hold")
     | None => sent (run call e w) = sent w /\ succeeded (value call e w) = false
     end.
Proof.
  intros Hm Hh Ht. cbv zeta.
  assert (Hm1 : py_eq (get params "tmode") (PInt 1) = false).
  { destruct (py_eq (get params "tmode") (PInt 1)) eqn:E; [|done].
    pose proof (py_eq_int_unique _ _ _ Hm E). lia. }
  assert (Hin : py_in (get params "tmode") [PInt 0; PInt 1] = true).
  { unfold py_in. cbn [existsb]. by rewrite Hm. }
  unfold run, value, _execute_set_state, defensive_filter, do_one, build_payload,
    _resolve_thermostat_ip, _post_tstat, _verify_set_state, _get_tstat_readback.
  cbv zeta. rewrite Hin, Hh, Hm1, Hm, Ht.
  io_eval. rewrite has_delete. io_eval.
  rewrite !off_payload_tmode, !off_payload_hold.
  unfold post_accepted, readback_confirms_off.
  destruct (fetch site tid (thermostats w)) as [ip0|]; [destruct (bool_decide (ip0 = ""))|];
    io_eval; try (fin).
  destruct (device_http e (net_clock w) (POST_tstat ip0 _)) as [x|status b txt]; io_eval;
    [fin|].
  destruct (is_2xx status); io_eval; [|fin].
  destruct (device_http e (S (net_clock w)) (GET_tstat ip0)) as [x|status' body txt'];
    io_eval; rewrite ?nonempty_empty; io_eval; [fin|].
  destruct (is_2xx status'); io_eval; rewrite ?nonempty_empty; io_eval;
    [|destruct body; fin].
  destruct body as [d|truth|]; io_eval; rewrite ?nonempty_empty; io_eval.
  - destruct (nonempty d) eqn:Hd; io_eval.
    + rewrite Hm. io_eval.
      destruct (py_eq (get d "tmode") (PInt 0) && py_eq (get d "hold") (get params "hold"));
        io_eval; [|fin].
      destruct (nonempty (payload_updates _ _)); io_eval; (fin).
    + assert (d = ∅) as ->.
      { unfold nonempty in Hd. by apply negb_false_iff, bool_decide_eq_true in Hd. }
      fin.
  - destruct truth; io_eval; (fin).
  - fin.
Qed.

End ExecutorFacts.

(** The scenario of the specification: params {tmode: 0, t_heat: 70},
    with hold 1, on a device that then reports {tmode: 0, hold: 1}. *)
Lemma set_state_off_witness :
  (py_eq (get Sample.off_with_setpoint "tmode") (PInt 0) = true
   /\ py_in (get Sample.off_with_setpoint "hold") [PInt 0; PInt 1] = true
   /\ has Sample.off_with_setpoint "t_heat" = true)
  /\ sent (run (_execute_set_state Sample.resolve_all "site" "5cdad4276f10"
                  Sample.off_with_setpoint)
               (Sample.env_of Sample.off_held) Sample.empty_world)
     = [("10.0.60.5", Fields Sample.off_held)]
  /\ succeeded (value (_execute_set_state Sample.resolve_all "site" "5cdad4276f10"
                         Sample.off_with_setpoint)
                      (Sample.env_of Sample.off_held) Sample.empty_world)
     = true.
Proof.
  split; [repeat split|].
  pose proof (set_state_off_strips_setpoint Sample.resolve_all "site" "5cdad4276f10"
                Sample.off_with_setpoint (Sample.env_of Sample.off_held)
                Sample.empty_world eq_refl eq_refl eq_refl) as [_ H].
  exact H.
Defined.

(** ** The minute upload checkpoint *)

Lemma ubind_eq {A B} (m : U A) (k : A -> U B) c s :
  (m ≫= k) c s = k (fst (m c s)) c (snd (m c s)).
Proof. unfold mbind, U_bind. by destruct (m c s). Qed.




Lemma slices_cover {A} (k fuel : nat) (l : list A) :
  (0 < k)%nat -> (length l <= fuel)%nat -> concat (slices_from fuel k l) = l.
Proof.
  intros Hk. revert l. induction fuel as [|fuel IH]; intros l Hl.
  - destruct l; [done|cbn in Hl; lia].
  - destruct l as [|x l]; [done|].
    cbn [slices_from concat]. rewrite IH.
    + apply take_drop.
    + rewrite length_drop. cbn [length] in *. lia.
Qed.






Example checkpoint_advances_to_latest :
  sync_checkpoint (snd (_upload_minute_data Sample.one_per_batch Sample.accepting Sample.store))
    !! "minute_upload" = Some 1120.
Proof. vm_compute. reflexivity. Qed.

Example failed_batch_keeps_checkpoint :
  let s' := snd (_upload_minute_data Sample.one_per_batch Sample.failing_after_one
                   Sample.store) in
  sync_checkpoint s' !! "minute_upload" = Some 1000
  /\ accepted s' = [[to_upload_record (Sample.reading 1060)]]
  /\ posts_made s' = 4%nat.
Proof. vm_compute. repeat split. Qed.

(** ** State-change detection *)

Lemma differs_reflect f prev cur : differs_b f prev cur = true <-> differs f prev cur.
Proof.
  destruct f; cbn [differs differs_b]; unfold temp_moved;
    rewrite ?negb_true_iff, <- ?not_true_iff_false, ?Qle_bool_iff, ?Qeq_bool_iff, ?Z.eqb_eq;
    reflexivity.
Qed.

Lemma compare_readings_spec prev cur :
  (forall f, fst (compare_readings prev cur) !! key f
             = if differs_b f prev cur then Some (change_of f prev cur) else None)
  /\ snd (compare_readings prev cur)
     = existsb (fun f => differs_b f prev cur) [Temp; THeat; TMode; TState; Hold; Override].
Proof.
  unfold compare_readings, mark. cbn [existsb differs_b].
  destruct (temp_moved _ _) eqn:E1, (negb (Qeq_bool _ _)) eqn:E2,
    (negb (tmode cur =? _)) eqn:E3, (negb (tstate cur =? _)) eqn:E4,
    (negb (hold cur =? _)) eqn:E5, (negb (override cur =? _)) eqn:E6;
    cbn [fst snd orb]; (split; [|reflexivity]);
    intros []; cbn [key differs_b change_of];
    rewrite ?E1, ?E2, ?E3, ?E4, ?E5, ?E6; by simplify_map_eq.
Qed.

(** C7. [_detect_state_change] answers no-change ("first_reading") on
    the first reading of a device; no-change for a reading whose
    temperature moved by less than 0.5 and whose t_heat, tmode, tstate, hold
    and override are those of the previous reading; and changed, with the
    field in the diff and the fields that did not move out of it, for a
    reading that differs in a monitored field beyond its threshold. *)
Theorem state_change_detection (cache : gmap string StatusRecord) tid cur :
  (cache !! tid = None ->
   _detect_state_change cache tid cur = (false, "first_reading", None))
  /\ (forall prev,
        cache !! tid = Some prev ->
        (Qabs (temp cur - temp prev) < 1 # 2)%Q ->
        (t_heat cur == t_heat prev)%Q ->
        tmode cur = tmode prev -> tstate cur = tstate prev ->
        hold cur = hold prev -> override cur = override prev ->
        _detect_state_change cache tid cur = (false, "no_change", None))
  /\ (forall prev f,
        cache !! tid = Some prev ->
        differs f prev cur ->
        exists kind diff,
          _detect_state_change cache tid cur = (true, kind, Some diff)
          /\ diff !! key f = Some (change_of f prev cur)
          /\ (forall g, ~ differs g prev cur -> diff !! key g = None)).
Proof.
  unfold _detect_state_change. split; [|split].
  - by intros ->.
  - intros prev -> Ht Hh Hm Hs Hd Ho.
    destruct (compare_readings_spec prev cur) as [_ Hsig].
    destruct (compare_readings prev cur) as [m sig]. cbn [snd] in Hsig. subst sig.
    cbn [existsb differs_b]. unfold temp_moved.
    assert (Qle_bool (1 # 2) (Qabs (temp cur - temp prev)) = false) as ->.
    { apply not_true_iff_false. rewrite Qle_bool_iff. by apply Qlt_not_le. }
    assert (Qeq_bool (t_heat cur) (t_heat prev) = true) as -> by by apply Qeq_bool_iff.
    rewrite Hm, Hs, Hd, Ho, !Z.eqb_refl. reflexivity.
  - intros prev f -> Hf.
    destruct (compare_readings_spec prev cur) as [Hlook Hsig].
    destruct (compare_readings prev cur) as [m sig]. cbn [fst snd] in Hlook, Hsig.
    assert (sig = true) as ->.
    { rewrite Hsig. apply existsb_exists. exists f. split.
      - destruct f; cbn; tauto.
      - by apply differs_reflect. }
    cbn [negb]. eexists _, m. split; [reflexivity|]. split.
    + rewrite Hlook. apply differs_reflect in Hf. by rewrite Hf.
    + intros g Hg. rewrite Hlook.
      destruct (differs_b g prev cur) eqn:E; [|done].
      by apply differs_reflect in E.
Qed.

Example first_reading_is_no_change :
  _detect_state_change ∅ "5cdad4276f10"
    {| temp := 70; t_heat := 68; tmode := 1; tstate := 0; hold := 1; override := 0 |}
  = (false, "first_reading", None).
Proof. reflexivity. Qed.

Example small_drift_is_no_change :
  _detect_state_change
    {[ "5cdad4276f10" :=
         {| temp := 70; t_heat := 68; tmode := 1; tstate := 0; hold := 1; override := 0 |} ]}
    "5cdad4276f10"
    {| temp := 70.4; t_heat := 68; tmode := 1; tstate := 0; hold := 1; override := 0 |}
  = (false, "no_change", None).
Proof. vm_compute. reflexivity. Qed.

Example half_degree_is_a_change :
  _detect_state_change
    {[ "5cdad4276f10" :=
         {| temp := 70; t_heat := 68; tmode := 1; tstate := 0; hold := 1; override := 0 |} ]}
    "5cdad4276f10"
    {| temp := 70.5; t_heat := 68; tmode := 1; tstate := 0; hold := 1; override := 0 |}
  = (true, "temperature_change",
     Some {[ "temp" := Change (PFloat 70) (PFloat 70.5) ]}).
Proof. vm_compute. reflexivity. Qed.

(** ** Progress checkpoints of the TCP scan *)

Ltac divmod10 x :=
  pose proof (Nat.div_mod_eq x 10);
  pose proof (Nat.mod_upper_bound x 10 ltac:(lia)).

Section ScanFacts.

Variable probe : nat -> string -> string -> option ThermostatDevice.

Lemma found_between_empty ips a : found_between probe ips a a = [].
Proof. unfold found_between. by rewrite Nat.sub_diag. Qed.

Lemma found_between_snoc ips a n ip0 :
  (a <= n)%nat -> ips !! n = Some ip0 ->
  found_between probe ips a (S n)
  = found_between probe ips a n
      ++ match probe n ip0 "tcp_scan" with Some d => [d] | None => [] end.
Proof.
  intros Ha Hip. unfold found_between.
  replace (S n - a)%nat with (S (n - a)) by lia.
  assert (Hl : drop a (imap (fun i ip1 => probe i ip1 "tcp_scan") ips) !! (n - a)%nat
               = Some (probe n ip0 "tcp_scan")).
  { rewrite lookup_drop. replace (a + (n - a))%nat with n by lia.
    rewrite list_lookup_imap, Hip. done. }
  rewrite (take_S_r _ _ _ Hl), omap_app. cbn.
  by destruct (probe n ip0 "tcp_scan").
Qed.

Lemma expected_calls_snoc ips count :
  expected_calls probe ips (S count) = expected_calls probe ips count ++ [expected_call probe ips count].
Proof. unfold expected_calls. by rewrite seq_S, fmap_app. Qed.

Lemma scan_ip_inv ips n st ip0 :
  (n < length ips)%nat -> ips !! n = Some ip0 ->
  scan_inv probe ips n st ->
  scan_inv probe ips (S n) (scan_ip probe true (length ips) st ip0).
Proof.
  intros Hn Hip [Hsc Hcalls Hpend Hall].
  assert (Hc : last_checkpoint (length ips) n = (10 * (n / 10))%nat).
  { unfold last_checkpoint. destruct (Nat.eqb_spec n (length ips)); [lia|done]. }
  rewrite Hc in Hcalls, Hpend.
  divmod10 n. divmod10 (S n). divmod10 (10 * (n / 10) + 9)%nat.
  assert (Hk : ((10 * (n / 10) + 9) / 10 = n / 10)%nat) by lia.
  rewrite Hk in Hcalls.
  unfold scan_ip. rewrite Hsc.
  pose proof (found_between_snoc ips (10 * (n / 10)) n ip0 ltac:(lia) Hip) as Hp'.
  pose proof (found_between_snoc ips 0 n ip0 ltac:(lia) Hip) as Ha'.
  set (st1 := match probe n ip0 "tcp_scan" with Some _ => _ | None => st end).
  assert (Hst1 : ips_scanned st1 = n
               /\ callback_calls st1 = callback_calls st
               /\ devices_since_checkpoint st1 = found_between probe ips (10 * (n / 10)) (S n)
               /\ all_devices_found st1 = found_between probe ips 0 (S n)).
  { subst st1. rewrite Hp', Ha'. destruct (probe n ip0 "tcp_scan"); cbn.
    - by rewrite Hpend, Hall.
    - by rewrite !app_nil_r. }
  destruct Hst1 as (Hs1 & Hc1 & Hp1 & Ha1). clearbody st1.
  cbv zeta. rewrite Hs1.
  destruct (Nat.eqb (S n mod 10) 0 || Nat.eqb (S n) (length ips)) eqn:Hck.
  - (* a checkpoint *)
    assert (Hlc : ((last_checkpoint (length ips) (S n) + 9) / 10 = S (n / 10))%nat
                  /\ last_checkpoint (length ips) (S n) = S n
                  /\ S n = min (10 * S (n / 10)) (length ips)).
    { unfold last_checkpoint. apply orb_true_iff in Hck as [Hck|Hck].
      - apply Nat.eqb_eq in Hck. divmod10 (S n + 9)%nat.
        destruct (Nat.eqb_spec (S n) (length ips)).
        + repeat split; lia.
        + divmod10 (10 * (S n / 10) + 9)%nat. repeat split; lia.
      - apply Nat.eqb_eq in Hck. rewrite <- Hck, Nat.eqb_refl.
        divmod10 (S n + 9)%nat. repeat split; lia. }
    destruct Hlc as (Hl1 & Hl2 & Hl3).
    split; cbn [ips_scanned callback_calls devices_since_checkpoint all_devices_found].
    + done.
    + rewrite Hl1, expected_calls_snoc, Hc1, Hcalls. f_equal.
      unfold expected_call. rewrite <- Hl3, Hp1. done.
    + by rewrite Hl2, found_between_empty.
    + done.
  - (* between checkpoints *)
    apply orb_false_iff in Hck as [Hm He].
    apply Nat.eqb_neq in Hm, He.
    assert (Hlc : last_checkpoint (length ips) (S n) = (10 * (n / 10))%nat).
    { unfold last_checkpoint. destruct (Nat.eqb_spec (S n) (length ips)); lia. }
    split; cbn [ips_scanned callback_calls devices_since_checkpoint all_devices_found].
    + done.
    + by rewrite Hlc, Hk, Hc1.
    + by rewrite Hlc.
    + done.
Qed.

Lemma scan_prefix_inv known ips n :
  (n <= length ips)%nat ->
  scan_inv probe ips n (scan_loop probe true (length ips) (scan_start known) (take n ips)).
Proof.
  induction n as [|n IH]; intros Hn.
  - change (take 0 ips) with (@nil string). unfold scan_loop. cbn [foldl].
    assert (Hl : last_checkpoint (length ips) 0 = 0%nat).
    { unfold last_checkpoint. by destruct (Nat.eqb 0 (length ips)). }
    split; rewrite ?Hl, ?found_between_empty; reflexivity.
  - destruct (lookup_lt_is_Some_2 ips n ltac:(lia)) as [ip0 Hip].
    rewrite (take_S_r _ _ _ Hip). unfold scan_loop. rewrite foldl_app. cbn [foldl].
    apply scan_ip_inv; [lia|done|]. apply IH. lia.
Qed.

Lemma scan_final known ips :
  scan_inv probe ips (length ips) (snd (discover_tcp_progressive probe true known ips)).
Proof.
  unfold discover_tcp_progressive. cbn [snd].
  pose proof (scan_prefix_inv known ips (length ips) ltac:(lia)) as H.
  by rewrite firstn_all in H.
Qed.

(** C8. On a candidate list of [T] addresses [discover_tcp_progressive]
    invokes a supplied callback exactly ceil(T/10) times: invocation [k]
    (from 0) comes after address min(10(k+1), T), with that count, the total
    [T] and the devices found since address [10k]; the last one comes at
    address [T] whatever the remainder. *)
Theorem progress_callback_cadence known ips :
  let T := length ips in
  let calls := callback_calls (snd (discover_tcp_progressive probe true known ips)) in
  length calls = ((T + 9) / 10)%nat
  /\ (forall k, (k < (T + 9) / 10)%nat ->
        exists call,
          calls !! k = Some call
          /\ call_ips_total call = T
          /\ call_ips_scanned call = min (10 * S k) T
          /\ call_devices call
             = found_between probe ips (10 * k) (call_ips_scanned call))
  /\ (0 < T ->
        exists call, last calls = Some call /\ call_ips_scanned call = T)%nat.
Proof.
  cbv zeta. destruct (scan_final known ips) as [_ Hcalls _ _].
  assert (Hl : last_checkpoint (length ips) (length ips) = length ips).
  { unfold last_checkpoint. by rewrite Nat.eqb_refl. }
  rewrite Hl in Hcalls. rewrite Hcalls.
  assert (Hlook : forall k, (k < (length ips + 9) / 10)%nat ->
            expected_calls probe ips ((length ips + 9) / 10) !! k = Some (expected_call probe ips k)).
  { intros k Hk. unfold expected_calls. rewrite list_lookup_fmap.
    by rewrite lookup_seq_lt. }
  split; [|split].
  - unfold expected_calls. by rewrite length_fmap, length_seq.
  - intros k Hk. exists (expected_call probe ips k). by rewrite Hlook.
  - intros HT. divmod10 (length ips + 9)%nat.
    exists (expected_call probe ips (pred ((length ips + 9) / 10))). split.
    + rewrite last_lookup. unfold expected_calls at 1.
      rewrite length_fmap, length_seq. apply Hlook. lia.
    + unfold expected_call. cbn [call_ips_scanned]. lia.
Qed.

End ScanFacts.

Example five_hundred_addresses :
  let st := snd (discover_tcp_progressive (fun _ _ _ => None) true ∅
                   (replicate 500 "10.0.60.1")) in
  length (callback_calls st) = 50%nat
  /\ call_ips_scanned <$> last (callback_calls st) = Some 500%nat.
Proof. vm_compute. split; reflexivity. Qed.

Example twenty_three_addresses :
  call_ips_scanned <$>
    callback_calls (snd (discover_tcp_progressive (fun _ _ _ => None) true ∅
                           (replicate 23 "10.0.60.1")))
  = [10; 20; 23]%nat.
Proof. vm_compute. reflexivity. Qed.

(* ===================================================================== *)
(** * Further properties of the code                                      *)
(* ===================================================================== *)

(** ** The policy, on every path *)

Lemma seasonal_command_cases day :
  seasonal_command day
  = if date_ge day (Date (year day) 11 16) || date_le day (Date (year day) 4 14)
    then {[ "tmode" := PInt 1; "t_heat" := PInt 50; "fmode" := PInt 0; "hold" := PInt 1 ]}
    else {[ "tmode" := PInt 0; "fmode" := PInt 0; "hold" := PInt 1 ]}.
Proof.
  unfold seasonal_command. rewrite seasonal_config_cases.
  destruct (date_ge day _ || date_le day _); vm_compute; reflexivity.
Qed.

Lemma seasonal_command_cool_free day : cool_free (Fields (seasonal_command day)) = true.
Proof.
  rewrite seasonal_command_cases.
  by destruct (date_ge day _ || date_le day _).
Qed.

Lemma takeover_command day :
  _build_safe_thermostat_command (takeover_config day) = (seasonal_command day, []).
Proof.
  unfold seasonal_command, takeover_config. rewrite seasonal_config_cases.
  destruct (date_ge day _ || date_le day _); vm_compute; reflexivity.
Qed.

Lemma device_config_save_config tid cfg e w :
  device_config (run (_save_config_to_database tid cfg) e w) =
    let ups := saved_updates cfg (utcnow e (clock_reads w)) in
    if nonempty ups
    then <[tid := <["updated_at" := DTime (utcnow e (S (clock_reads w)))]>
                    (ups ∪ default ∅ (device_config w !! tid))]> (device_config w)
    else device_config w.
Proof.
  unfold _save_config_to_database. rewrite run_bind.
  change (value now_utc e w) with (utcnow e (clock_reads w)).
  change (run now_utc e w) with (tick_clock w).
  fold (saved_updates cfg (utcnow e (clock_reads w))). cbv zeta.
  destruct (nonempty (saved_updates cfg _)); [|done].
  rewrite run_bind. reflexivity.
Qed.

Lemma stamped_lookup has_heat mode heat hold now :
  nonempty (stamped true has_heat true mode heat hold now) = true
  /\ stamped true has_heat true mode heat hold now !! "tmode_set" = Some (DVal mode)
  /\ stamped true has_heat true mode heat hold now !! "hold_set" = Some (DVal hold)
  /\ stamped true has_heat true mode heat hold now !! "tmode_applied_at" = Some (DTime now)
  /\ stamped true has_heat true mode heat hold now !! "hold_applied_at" = Some (DTime now)
  /\ (has_heat = true ->
      stamped true has_heat true mode heat hold now !! "t_heat_set" = Some (DVal heat)).
Proof.
  assert (L : stamped true has_heat true mode heat hold now !! "hold_set" = Some (DVal hold)).
  { unfold stamped, stamp_field. by simplify_map_eq. }
  split.
  { unfold nonempty. apply negb_true_iff, bool_decide_eq_false_2.
    intros E. rewrite E, lookup_empty in L. discriminate. }
  split; [|split; [exact L|]]; unfold stamped, stamp_field; destruct has_heat;
    try (by simplify_map_eq);
    (split; [by simplify_map_eq|]); (split; [by simplify_map_eq|]);
    intros ?; by simplify_map_eq.
Qed.

Lemma saved_updates_lookup cfg now :
  has_value cfg "tmode" = true -> has_value cfg "hold" = true ->
  nonempty (saved_updates cfg now) = true
  /\ saved_updates cfg now !! "tmode_set" = Some (DVal (get cfg "tmode"))
  /\ saved_updates cfg now !! "hold_set" = Some (DVal (get cfg "hold"))
  /\ saved_updates cfg now !! "tmode_applied_at" = Some (DTime now)
  /\ saved_updates cfg now !! "hold_applied_at" = Some (DTime now)
  /\ (has_value cfg "t_heat" = true ->
      saved_updates cfg now !! "t_heat_set" = Some (DVal (get cfg "t_heat"))).
Proof.
  intros Hm Hh.
  change (saved_updates cfg now)
    with (stamped (has_value cfg "tmode") (has_value cfg "t_heat") (has_value cfg "hold")
            (get cfg "tmode") (get cfg "t_heat") (get cfg "hold") now).
  rewrite Hm, Hh. apply stamped_lookup.
Qed.

Lemma takeover_config_cases day :
  takeover_config day
  = if date_ge day (Date (year day) 11 16) || date_le day (Date (year day) 4 14)
    then <["hold" := PInt 1]> (config heating_config)
    else <["hold" := PInt 1]> (config cooling_config).
Proof.
  unfold takeover_config. rewrite seasonal_config_cases. by destruct (_ || _).
Qed.

Lemma takeover_config_fields day :
  has_value (takeover_config day) "tmode" = true
  /\ has_value (takeover_config day) "hold" = true
  /\ get (takeover_config day) "hold" = PInt 1
  /\ (get (takeover_config day) "tmode" = PInt 1 ->
      has_value (takeover_config day) "t_heat" = true
      /\ get (takeover_config day) "t_heat" = PInt 50).
Proof.
  rewrite takeover_config_cases.
  destruct (_ || _); vm_compute; (split; [done|]); (split; [done|]); (split; [done|]);
    intros ?; try discriminate; split; reflexivity.
Qed.

Lemma takeover_saved day now :
  nonempty (saved_updates (takeover_config day) now) = true
  /\ forall row stamp,
       takeover_recorded day
         (<["updated_at" := DTime stamp]> (saved_updates (takeover_config day) now ∪ row)).
Proof.
  destruct (takeover_config_fields day) as (Hm & Hh & Hh1 & Ht).
  destruct (saved_updates_lookup (takeover_config day) now Hm Hh)
    as (Hne & L1 & L2 & L3 & L4 & L5).
  split; [exact Hne|]. intros row stamp. exists now.
  rewrite Hh1 in L2.
  split; [rewrite lookup_insert_ne by done; by apply lookup_union_Some_l|].
  split; [rewrite lookup_insert_ne by done; by apply lookup_union_Some_l|].
  split; [rewrite lookup_insert_ne by done; by apply lookup_union_Some_l|].
  split; [rewrite lookup_insert_ne by done; by apply lookup_union_Some_l|].
  intros H1. destruct (Ht H1) as [Hv Hg]. specialize (L5 Hv). rewrite Hg in L5.
  rewrite lookup_insert_ne by done. by apply lookup_union_Some_l.
Qed.

#[global] Instance net_clock_quiet : Quiet net_clock.
Proof. by split. Qed.

Lemma keeps_save_config_thermostats tid cfg :
  keeps thermostats (_save_config_to_database tid cfg).
Proof.
  unfold _save_config_to_database.
  apply keeps_bind; [apply keeps_now_utc; typeclasses eauto|intros now].
  destruct (nonempty _); [|apply keeps_ret].
  apply keeps_bind; [by intros e w|intros _; apply keeps_log; typeclasses eauto].
Qed.

Lemma save_takeover_recorded tid day e w :
  exists row,
    device_config (run (_save_config_to_database tid (takeover_config day)) e w)
    = <[tid := row]> (device_config w)
    /\ takeover_recorded day row.
Proof.
  rewrite device_config_save_config. cbv zeta.
  destruct (takeover_saved day (utcnow e (clock_reads w))) as [-> Hrec].
  eexists. split; [reflexivity|]. apply Hrec.
Qed.

Lemma seasonal_defaults_effect device s e w :
  let day := today e (clock_reads w) in
  let w' := run (_apply_seasonal_defaults_with_hold device s) e w in
  sent w' = sent w ++ [(ip device, Fields (seasonal_command day))]
  /\ thermostats w' = thermostats w
  /\ if answers_200 e (net_clock w) (POST_tstat (ip device) (Fields (seasonal_command day)))
     then exists row,
            device_config w' = <[uuid device := row]> (device_config w)
            /\ takeover_recorded day row
     else device_config w' = device_config w.
Proof.
  cbv zeta. unfold _apply_seasonal_defaults_with_hold. rewrite run_bind.
  change (value date_today e w) with (today e (clock_reads w)).
  change (run date_today e w) with (tick_clock w).
  cbv zeta. rewrite seasonal_tmode_valid. cbn [negb].
  rewrite run_bind, run_ret, value_ret.
  fold (takeover_config (today e (clock_reads w))). rewrite takeover_command.
  rewrite !run_bind.
  match goal with
  | |- context [run (http ?r) e ?W] => set (w3 := W); set (rq := r)
  end.
  assert (Hs : sent w3 = sent w) by (subst w3; repeat drop_quiet sent; done).
  assert (Hd : device_config w3 = device_config w)
    by (subst w3; repeat drop_quiet device_config; done).
  assert (Ht : thermostats w3 = thermostats w)
    by (subst w3; repeat drop_quiet thermostats; done).
  assert (Hn : net_clock w3 = net_clock w)
    by (subst w3; repeat drop_quiet net_clock; done).
  clearbody w3.
  assert (Hv : value (http rq) e w3 = device_http e (net_clock w) rq).
  { unfold value, http. cbn [fst]. by rewrite Hn. }
  assert (Hp : sent (run (http rq) e w3)
               = sent w ++ [(ip device, Fields (seasonal_command (today e (clock_reads w))))]).
  { subst rq. unfold run, http. cbn [snd sent]. by rewrite Hs. }
  assert (Hd' : device_config (run (http rq) e w3) = device_config w) by exact Hd.
  assert (Ht' : thermostats (run (http rq) e w3) = thermostats w) by exact Ht.
  unfold answers_200. rewrite Hv.
  destruct (device_http e (net_clock w) rq) as [x|status b t].
  - split; [exact Hp|]. split; [exact Ht'|exact Hd'].
  - destruct (status =? 200).
    + rewrite !run_bind. split; [|split].
      * drop_quiet sent. rewrite (keeps_save_config _ _ e). drop_quiet sent. exact Hp.
      * drop_quiet thermostats. rewrite (keeps_save_config_thermostats _ _ e).
        drop_quiet thermostats. exact Ht'.
      * drop_quiet device_config.
        match goal with
        | |- context [run (_save_config_to_database ?t ?c) e ?W] =>
            destruct (save_takeover_recorded t (today e (clock_reads w)) e W) as (row & Hrow & Hrec)
        end.
        exists row. split; [|exact Hrec].
        rewrite Hrow. drop_quiet device_config. by rewrite Hd'.
    + split; [exact Hp|]. split; [exact Ht'|exact Hd'].
Qed.

Lemma sync_time_effect device e w :
  sent (run (_sync_thermostat_time device) e w)
  = sent w ++ [(ip device,
                let '(wday, hour, minute) := localtime e (clock_reads w) in
                TimeSync wday hour minute)]
  /\ device_config (run (_sync_thermostat_time device) e w) = device_config w
  /\ thermostats (run (_sync_thermostat_time device) e w) = thermostats w.
Proof.
  unfold _sync_thermostat_time. rewrite run_bind.
  change (value now_local e w) with (localtime e (clock_reads w)).
  change (run now_local e w) with (tick_clock w).
  destruct (localtime e (clock_reads w)) as [[wday hour] minute].
  rewrite run_bind.
  destruct (value (http _) e (tick_clock w)) as [x|status b t];
    [|destruct (status =? 200)]; by cbn.
Qed.

Lemma seasonal_safety_effect device e w :
  let day := today e (clock_reads w) in
  let w' := run (_apply_seasonal_safety_config device) e w in
  let req := POST_tstat (ip device) (Fields (seasonal_command day)) in
  (exists rest,
     sent w' = sent w ++ (ip device, Fields (seasonal_command day)) :: rest
     /\ if answers e (net_clock w) req
        then exists wday hour minute, rest = [(ip device, TimeSync wday hour minute)]
        else rest = [])
  /\ thermostats w' = thermostats w
  /\ if answers_200 e (net_clock w) req
     then exists row,
            device_config w' = <[uuid device := row]> (device_config w)
            /\ takeover_recorded day row
     else device_config w' = device_config w.
Proof.
  cbv zeta. unfold _apply_seasonal_safety_config. rewrite run_bind.
  change (value date_today e w) with (today e (clock_reads w)).
  change (run date_today e w) with (tick_clock w).
  cbv zeta. fold (takeover_config (today e (clock_reads w))).
  rewrite run_bind. rewrite takeover_command. rewrite !run_bind.
  match goal with
  | |- context [run (http ?r) e ?W] => set (w3 := W); set (rq := r)
  end.
  assert (Hs : sent w3 = sent w) by (subst w3; repeat drop_quiet sent; done).
  assert (Hd : device_config w3 = device_config w)
    by (subst w3; repeat drop_quiet device_config; done).
  assert (Ht : thermostats w3 = thermostats w)
    by (subst w3; repeat drop_quiet thermostats; done).
  assert (Hn : net_clock w3 = net_clock w)
    by (subst w3; repeat drop_quiet net_clock; done).
  clearbody w3.
  assert (Hv : value (http rq) e w3 = device_http e (net_clock w) rq).
  { unfold value, http. cbn [fst]. by rewrite Hn. }
  assert (Hp : sent (run (http rq) e w3)
               = sent w ++ [(ip device, Fields (seasonal_command (today e (clock_reads w))))]).
  { subst rq. unfold run, http. cbn [snd sent]. by rewrite Hs. }
  assert (Hd' : device_config (run (http rq) e w3) = device_config w) by exact Hd.
  assert (Ht' : thermostats (run (http rq) e w3) = thermostats w) by exact Ht.
  unfold answers_200, answers. rewrite Hv.
  destruct (device_http e (net_clock w) rq) as [x|status b t].
  - split; [|split].
    + exists []. split; [|done]. drop_quiet sent. exact Hp.
    + drop_quiet thermostats. exact Ht'.
    + drop_quiet device_config. exact Hd'.
  - rewrite !run_bind.
    match goal with
    | |- context [run (_sync_thermostat_time device) e ?W] =>
        set (w5 := W); destruct (sync_time_effect device e w5) as (Hs5 & Hd5 & Ht5)
    end.
    rewrite Hs5, Hd5, Ht5.
    destruct (localtime e (clock_reads w5)) as [[wday hour] minute].
    destruct (status =? 200); subst w5.
    + split; [|split].
      * eexists. split; [|by eexists _, _, _].
        rewrite run_bind. rewrite (keeps_save_config _ _ e). drop_quiet sent.
        rewrite Hp, <- app_assoc. reflexivity.
      * rewrite run_bind. rewrite (keeps_save_config_thermostats _ _ e).
        drop_quiet thermostats. exact Ht'.
      * rewrite run_bind.
        match goal with
        | |- context [run (_save_config_to_database ?t ?c) e ?W] =>
            destruct (save_takeover_recorded t (today e (clock_reads w)) e W) as (row & Hrow & Hrec)
        end.
        exists row. split; [|exact Hrec].
        rewrite Hrow. drop_quiet device_config. by rewrite Hd'.
    + split; [|split].
      * eexists. split; [|by eexists _, _, _].
        drop_quiet sent. rewrite Hp, <- app_assoc. reflexivity.
      * drop_quiet thermostats. exact Ht'.
      * drop_quiet device_config. exact Hd'.
Qed.

Lemma policy_posts_cool_free ip0 posts :
  policy_posts ip0 posts ->
  Forall (fun p => fst p = ip0 /\ cool_free (snd p) = true) posts.
Proof.
  intros [|day|day wday hour minute]; repeat constructor;
    cbn [fst snd]; auto using seasonal_command_cool_free.
Qed.

Lemma policy_effect device given dt e w :
  let w' := run (apply_intelligent_config device given dt) e w in
  (exists posts, sent w' = sent w ++ posts /\ policy_posts (ip device) posts)
  /\ thermostats w' = thermostats w
  /\ (forall tid, tid <> uuid device -> device_config w' !! tid = device_config w !! tid).
Proof.
  cbv zeta. unfold apply_intelligent_config.
  rewrite run_bind. set (w0 := run (log INFO _) e w).
  rewrite run_bind. set (w1 := run (apply_initial_settings (ip device)) e w0).
  assert (Hs1 : sent w1 = sent w ++ [(ip device, fan_off)]).
  { subst w1. by rewrite sent_apply_initial_settings. }
  assert (Hd1 : device_config w1 = device_config w).
  { subst w1. rewrite keeps_apply_initial_settings; [done|typeclasses eauto|by intros ??]. }
  assert (Ht1 : thermostats w1 = thermostats w).
  { subst w1. rewrite keeps_apply_initial_settings; [done|typeclasses eauto|by intros ??]. }
  clearbody w1. clear w0.
  rewrite run_bind.
  set (rd := match given with None => _ | Some s0 => _ end).
  assert (Hrd : sent (run rd e w1) = sent w1
                /\ device_config (run rd e w1) = device_config w1
                /\ thermostats (run rd e w1) = thermostats w1).
  { subst rd. destruct given as [s'|]; [done|].
    repeat split; apply keeps_read_settings; try typeclasses eauto; by intros ??. }
  destruct Hrd as (Hs2 & Hd2 & Ht2).
  rewrite Hs1 in Hs2. rewrite Hd1 in Hd2. rewrite Ht1 in Ht2.
  set (w2 := run rd e w1) in *. clearbody w2.
  destruct (value rd e w1) as [s|].
  - destruct (py_eq (get s "hold") (PInt 0)).
    + rewrite run_bind.
      match goal with
      | |- context [run (_apply_seasonal_defaults_with_hold device s) e ?W] =>
          set (w3 := W);
          destruct (seasonal_defaults_effect device s e w3) as (Ha & Hb & Hc)
      end.
      assert (Hs3 : sent w3 = sent w ++ [(ip device, fan_off)])
        by (subst w3; drop_quiet sent; done).
      assert (Hd3 : device_config w3 = device_config w)
        by (subst w3; drop_quiet device_config; done).
      assert (Ht3 : thermostats w3 = thermostats w)
        by (subst w3; drop_quiet thermostats; done).
      clearbody w3. split; [|split].
      * eexists. rewrite Ha, Hs3, <- app_assoc. split; [reflexivity|]. apply posts_takeover.
      * by rewrite Hb.
      * intros tid Hne. destruct (answers_200 _ _ _).
        -- destruct Hc as (row & -> & _). rewrite lookup_insert_ne by done. by rewrite Hd3.
        -- by rewrite Hc, Hd3.
    + destruct (preserve_branch_effect device s dt e w2) as (Ha & Hb & Hc).
      unfold preserve_branch in Ha, Hb, Hc. split; [|split].
      * eexists. rewrite Ha, Hs2. split; [reflexivity|]. apply posts_baseline.
      * rewrite !run_bind. rewrite (keeps_update_db_other_tables _ _ e).
        repeat drop_quiet thermostats. done.
      * intros tid Hne. rewrite Hc by done. by rewrite Hd2.
  - rewrite run_bind.
    match goal with
    | |- context [run (_apply_seasonal_safety_config device) e ?W] =>
        set (w3 := W);
        destruct (seasonal_safety_effect device e w3) as ((rest & Ha & Hr) & Hb & Hc)
    end.
    assert (Hs3 : sent w3 = sent w ++ [(ip device, fan_off)])
      by (subst w3; drop_quiet sent; done).
    assert (Hd3 : device_config w3 = device_config w)
      by (subst w3; drop_quiet device_config; done).
    assert (Ht3 : thermostats w3 = thermostats w)
      by (subst w3; drop_quiet thermostats; done).
    clearbody w3. split; [|split].
    + eexists. rewrite Ha, Hs3, <- app_assoc. split; [reflexivity|].
      destruct (answers _ _ _).
      * destruct Hr as (wday & hour & minute & ->). apply posts_takeover_clock.
      * subst rest. apply posts_takeover.
    + by rewrite Hb.
    + intros tid Hne. destruct (answers_200 _ _ _).
      * destruct Hc as (row & -> & _). rewrite lookup_insert_ne by done. by rewrite Hd3.
      * by rewrite Hc, Hd3.
Qed.

(** X1. Whatever the device reports or fails to report, whatever the
    settings handed over, the discovery type and the date,
    [apply_intelligent_config] writes to the device it was given and to no
    other address, in one of three sequences: the fan-off baseline alone;
    the baseline and the seasonal command; these two and the clock. None of
    the bodies selects COOL (tmode 2) or carries [t_cool]. The table
    [thermostats] and the [device_config] rows of the other thermostats are
    left as they were. *)
Theorem policy_never_commands_cooling device given dt e w :
  let w' := run (apply_intelligent_config device given dt) e w in
  (exists posts,
     sent w' = sent w ++ posts
     /\ policy_posts (ip device) posts
     /\ Forall (fun p => fst p = ip device /\ cool_free (snd p) = true) posts)
  /\ thermostats w' = thermostats w
  /\ (forall tid, tid <> uuid device -> device_config w' !! tid = device_config w !! tid).
Proof.
  cbv zeta. destruct (policy_effect device given dt e w) as ((posts & Hs & Hp) & Ht & Hd).
  split; [|by split].
  exists posts. split; [done|]. split; [done|]. by apply policy_posts_cool_free.
Qed.

Lemma read_settings_effect ip0 e w :
  value (read_thermostat_current_settings ip0) e w
  = (match device_http e (net_clock w) (GET_tstat ip0) with
     | Reply status (JObj data) _ =>
         if status =? 200 then Some (tstat_settings data) else None
     | _ => None
     end)
  /\ net_clock (run (read_thermostat_current_settings ip0) e w) = S (net_clock w)
  /\ clock_reads (run (read_thermostat_current_settings ip0) e w) = clock_reads w
  /\ sent (run (read_thermostat_current_settings ip0) e w) = sent w
  /\ device_config (run (read_thermostat_current_settings ip0) e w) = device_config w
  /\ thermostats (run (read_thermostat_current_settings ip0) e w) = thermostats w.
Proof.
  unfold read_thermostat_current_settings, run, value. io_eval.
  destruct (device_http e (net_clock w) (GET_tstat ip0)) as [x|status body t]; [done|].
  destruct body; destruct (status =? 200); by cbn.
Qed.







(** ** Local registration *)

Lemma keeps_policy_public_batches device given dt :
  keeps public_batches (apply_intelligent_config device given dt).
Proof.
  assert (Hh : forall r, keeps public_batches (http r)) by (by intros r e w).
  assert (Hu : forall tid u, keeps public_batches (update_device_config tid u))
    by (by intros tid u e w).
  assert (Hsave : forall tid c, keeps public_batches (_save_config_to_database tid c)).
  { intros tid c. unfold _save_config_to_database. frame. }
  assert (Hrow : forall tid, keeps public_batches (device_config_row tid))
    by (by intros tid e w).
  unfold apply_intelligent_config, apply_initial_settings, read_thermostat_current_settings,
    _apply_seasonal_safety_config, _apply_seasonal_defaults_with_hold,
    _update_db_from_thermostat, _sync_thermostat_time, _get_stored_device_config.
  frame.
Qed.

Lemma register_one_effect dt device e w :
  let w' := run (register_one dt device) e w in
  let rec := record_of device (away_temp_for (thermostats w) (uuid device))
               (utcnow e (clock_reads w)) in
  public_batches w' = public_batches w
  /\ if upsert_ok e (net_clock w)
     then value (register_one dt device) e w = Some rec
          /\ thermostats w' = <[uuid device := rec]> (thermostats w)
          /\ (exists posts, sent w' = sent w ++ posts /\ policy_posts (ip device) posts)
          /\ (forall tid, tid <> uuid device ->
                device_config w' !! tid = device_config w !! tid)
     else value (register_one dt device) e w = None
          /\ thermostats w' = thermostats w
          /\ sent w' = sent w
          /\ device_config w' = device_config w.
Proof.
  cbv zeta. unfold register_one.
  rewrite !run_bind, !value_bind.
  set (w0 := run (log INFO _) e w).
  change (value (get_thermostat_by_id (uuid device)) e w0)
    with (thermostats w !! uuid device).
  change (run (get_thermostat_by_id (uuid device)) e w0) with w0.
  fold (away_temp_for (thermostats w) (uuid device)).
  set (lg := match thermostats w !! uuid device with Some _ => _ | None => _ end).
  assert (Hlg : run lg e w0 = run lg e w0
                /\ net_clock (run lg e w0) = net_clock w
                /\ clock_reads (run lg e w0) = clock_reads w
                /\ sent (run lg e w0) = sent w
                /\ device_config (run lg e w0) = device_config w
                /\ thermostats (run lg e w0) = thermostats w
                /\ public_batches (run lg e w0) = public_batches w).
  { subst lg. destruct (thermostats w !! uuid device) as [old|];
      [destruct (away_temp old)|]; done. }
  destruct Hlg as (_ & Hn1 & Hc1 & Hs1 & Hd1 & Ht1 & Hp1).
  set (w1 := run lg e w0) in *. clearbody w1. clear lg w0.
  change (value now_utc e w1) with (utcnow e (clock_reads w1)).
  change (run now_utc e w1) with (tick_clock w1).
  rewrite Hc1.
  fold (away_temp_for (thermostats w) (uuid device)).
  fold (record_of device (away_temp_for (thermostats w) (uuid device))
          (utcnow e (clock_reads w))).
  set (rec := record_of device _ _).
  assert (Hup : value (upsert_thermostat rec) e (tick_clock w1) = upsert_ok e (net_clock w)
                /\ public_batches (run (upsert_thermostat rec) e (tick_clock w1))
                   = public_batches w
                /\ sent (run (upsert_thermostat rec) e (tick_clock w1)) = sent w
                /\ device_config (run (upsert_thermostat rec) e (tick_clock w1))
                   = device_config w
                /\ thermostats (run (upsert_thermostat rec) e (tick_clock w1))
                   = if upsert_ok e (net_clock w)
                     then <[uuid device := rec]> (thermostats w) else thermostats w).
  { unfold upsert_thermostat, value, run. cbn [tick_clock net_clock thermostats clock_reads].
    rewrite Hn1, Ht1.
    destruct (upsert_ok e (net_clock w)); cbn [fst snd public_batches sent device_config thermostats];
      rewrite ?Hp1, ?Hs1, ?Hd1; repeat split; try done.
    cbn [thermostat_id rec record_of]. f_equal.
    subst rec. unfold record_of, away_temp_for. cbn.
    destruct (thermostats w !! uuid device) as [old|]; [|done].
    by destruct (away_temp old). }
  destruct Hup as (Hv & Hp2 & Hs2 & Hd2 & Ht2). rewrite Hv.
  set (w2 := run (upsert_thermostat rec) e (tick_clock w1)) in *. clearbody w2.
  destruct (upsert_ok e (net_clock w)).
  - rewrite !run_bind, !value_bind.
    set (w3 := run (log INFO _) e (run (log INFO _) e w2)).
    destruct (read_settings_effect (ip device) e w3) as (_ & _ & _ & Hs4 & Hd4 & Ht4).
    assert (Hp4 : public_batches (run (read_thermostat_current_settings (ip device)) e w3)
                  = public_batches w3).
    { apply keeps_read_settings; [typeclasses eauto|by intros ??]. }
    set (w4 := run (read_thermostat_current_settings (ip device)) e w3) in *.
    set (pol := match value (read_thermostat_current_settings (ip device)) e w3 with
                | Some s => _ | None => _ end).
    assert (Hpol : (exists posts, sent (run pol e w4) = sent w4 ++ posts
                                  /\ policy_posts (ip device) posts)
                   /\ thermostats (run pol e w4) = thermostats w4
                   /\ (forall tid, tid <> uuid device ->
                         device_config (run pol e w4) !! tid = device_config w4 !! tid)
                   /\ public_batches (run pol e w4) = public_batches w4).
    { subst pol. destruct (value _ e w3) as [s|]; rewrite !run_bind.
      - destruct (policy_effect device (Some s) dt e (run (log INFO "[READ] Current thermostat settings for {device.name}: {current_settings}") e w4))
          as (Ha & Hb & Hc).
        split; [exact Ha|]. split; [exact Hb|]. split; [exact Hc|].
        by rewrite keeps_policy_public_batches.
      - destruct (policy_effect device None dt e (run (log WARNING "[READ] Failed to read settings from {device.name} - using fallback config") e w4))
          as (Ha & Hb & Hc).
        split; [exact Ha|]. split; [exact Hb|]. split; [exact Hc|].
        by rewrite keeps_policy_public_batches. }
    destruct Hpol as ((posts & Hs5 & Hposts) & Ht5 & Hd5 & Hp5).
    assert (H3 : sent w3 = sent w /\ device_config w3 = device_config w
                 /\ thermostats w3 = <[uuid device := rec]> (thermostats w)
                 /\ public_batches w3 = public_batches w).
    { subst w3. repeat drop_quiet sent. repeat drop_quiet device_config.
      repeat drop_quiet thermostats. repeat drop_quiet public_batches. done. }
    destruct H3 as (Hs3 & Hd3 & Ht3 & Hp3).
    rewrite Hs3 in Hs4. rewrite Hd3 in Hd4. rewrite Ht3 in Ht4. rewrite Hp3 in Hp4.
    rewrite Hs4 in Hs5. rewrite Ht4 in Ht5. rewrite Hp4 in Hp5.
    clearbody pol w4 w3. rewrite run_ret, value_ret.
    split; [drop_quiet public_batches; exact Hp5|].
    split; [reflexivity|].
    split; [drop_quiet thermostats; exact Ht5|]. split.
    + exists posts. split; [|done]. drop_quiet sent. exact Hs5.
    + intros tid Hne. drop_quiet device_config. rewrite Hd5 by done. by rewrite Hd4.
  - rewrite !run_bind, !value_bind, run_ret, value_ret.
    split; [drop_quiet public_batches; exact Hp2|].
    split; [reflexivity|].
    split; [drop_quiet thermostats; exact Ht2|].
    split; [drop_quiet sent; exact Hs2|]. drop_quiet device_config. exact Hd2.
Qed.

Lemma register_step_effect dt acc d e w :
  run (register_step dt acc d) e w = run (register_one dt d) e (run acc e w)
  /\ value (register_step dt acc d) e w
     = value acc e w ++ option_list (value (register_one dt d) e (run acc e w)).
Proof.
  unfold register_step. rewrite !run_bind, !value_bind, run_ret, value_ret.
  split; [done|]. destruct (value (register_one dt d) e _); [done|].
  by rewrite app_nil_r.
Qed.

Lemma register_loop_inv (I : World -> list ThermostatRecord -> Prop) dt e devices :
  (forall d w recs, d ∈ devices -> I w recs ->
     I (run (register_one dt d) e w)
       (recs ++ option_list (value (register_one dt d) e w))) ->
  forall acc w,
    I (run acc e w) (value acc e w) ->
    I (run (foldl (register_step dt) acc devices) e w)
      (value (foldl (register_step dt) acc devices) e w).
Proof.
  induction devices as [|d rest IH]; intros Hstep acc w Hacc; cbn [foldl]; [done|].
  apply IH.
  - intros d' w' recs Hin. apply Hstep. by right.
  - destruct (register_step_effect dt acc d e w) as [-> ->].
    apply Hstep; [by left|done].
Qed.

Lemma registration_inv (I : World -> list ThermostatRecord -> Prop)
    cfg devices phase e w :
  devices <> [] ->
  (forall d w recs, d ∈ devices -> I w recs ->
     I (run (register_one (discovery_type_of phase) d) e w)
       (recs ++ option_list (value (register_one (discovery_type_of phase) d) e w))) ->
  (forall w l m, I w [] -> I (run (log l m) e w) []) ->
  I w [] ->
  let w' := run (_register_and_configure_devices cfg devices phase) e w in
  exists w1 recs,
    I w1 recs
    /\ sent w' = sent w1 /\ device_config w' = device_config w1
    /\ thermostats w' = thermostats w1
    /\ public_batches w' = public_batches w1 ++ public_batch_of cfg recs.
Proof.
  intros Hne Hstep Hlog H0. cbv zeta. unfold _register_and_configure_devices.
  destruct devices as [|d0 rest]; [done|]. clear Hne.
  rewrite run_bind. cbv zeta. rewrite run_bind.
  change (foldl _ (mret []) (d0 :: rest))
    with (foldl (register_step (discovery_type_of phase)) (mret []) (d0 :: rest)).
  set (w0 := run (log INFO _) e w).
  pose proof (register_loop_inv I (discovery_type_of phase) e (d0 :: rest) Hstep
                (mret []) w0 (Hlog _ _ _ H0)) as Hloop.
  set (loop := foldl (register_step (discovery_type_of phase)) (mret []) (d0 :: rest)) in *.
  exists (run loop e w0), (value loop e w0). split; [exact Hloop|].
  clearbody loop. clear Hloop. rewrite run_bind.
  set (w1 := run loop e w0). clearbody w1.
  destruct (value loop e w0) as [|r rs]; unfold public_batch_of.
  - drop_quiet sent. drop_quiet device_config. drop_quiet thermostats.
    drop_quiet public_batches.
    destruct (negb (public_enabled cfg)); rewrite app_nil_r; done.
  - drop_quiet sent. drop_quiet device_config. drop_quiet thermostats.
    drop_quiet public_batches.
    destruct (public_sync cfg && public_enabled cfg).
    + rewrite !run_bind.
      set (w2 := run (log INFO _) e w1).
      assert (H2 : sent w2 = sent w1 /\ device_config w2 = device_config w1
                   /\ thermostats w2 = thermostats w1
                   /\ public_batches w2 = public_batches w1) by done.
      destruct H2 as (Hs2 & Hd2 & Ht2 & Hp2). clearbody w2.
      destruct (value (register_thermostats (r :: rs)) e w2);
        rewrite ?run_bind; repeat drop_quiet sent; repeat drop_quiet device_config;
        repeat drop_quiet thermostats; repeat drop_quiet public_batches;
        cbn [register_thermostats run snd sent device_config thermostats public_batches];
        rewrite Hs2, Hd2, Ht2, Hp2; done.
    + destruct (negb (public_enabled cfg)); rewrite app_nil_r; done.
Qed.

Lemma away_temp_for_kept table tid old a :
  table !! tid = Some old -> away_temp old = Some a -> away_temp_for table tid = a.
Proof. unfold away_temp_for. by intros -> ->. Qed.

Lemma registration_keeps_away_temp cfg devices phase e w :
  let w' := run (_register_and_configure_devices cfg devices phase) e w in
  (forall tid old a,
     thermostats w !! tid = Some old -> away_temp old = Some a ->
     exists new, thermostats w' !! tid = Some new /\ away_temp new = Some a)
  /\ (forall tid new,
        thermostats w !! tid = None -> thermostats w' !! tid = Some new ->
        away_temp new = Some 50%Q /\ active new = true).
Proof.
  cbv zeta. destruct devices as [|d0 rest] eqn:Hdev.
  { change (run (_register_and_configure_devices cfg [] phase) e w) with w.
    split; [intros tid old a H1 H2; by exists old|intros tid new H1 H2; congruence]. }
  rewrite <- Hdev. assert (Hne : devices <> []) by (by rewrite Hdev). clear Hdev.
  set (I := fun (w1 : World) (recs : list ThermostatRecord) =>
    (forall tid old a,
       thermostats w !! tid = Some old -> away_temp old = Some a ->
       exists new, thermostats w1 !! tid = Some new /\ away_temp new = Some a)
    /\ (forall tid new,
          thermostats w !! tid = None -> thermostats w1 !! tid = Some new ->
          away_temp new = Some 50%Q /\ active new = true)).
  destruct (registration_inv I cfg devices phase e w Hne) as (w1 & recs & HI & _ & _ & Ht & _).
  - intros d w1 recs _ [Ha Hb]. unfold I.
    pose proof (register_one_effect (discovery_type_of phase) d e w1) as [_ He].
    cbv zeta in He. destruct (upsert_ok e (net_clock w1)).
    + destruct He as (_ & Ht & _). rewrite Ht. split.
      * intros tid old a H1 H2. destruct (Ha tid old a H1 H2) as (new & Hn & Hna).
        destruct (decide (tid = uuid d)) as [->|Hneq].
        -- rewrite lookup_insert_eq. eexists. split; [done|]. cbn.
           by rewrite (away_temp_for_kept _ _ _ _ Hn Hna).
        -- rewrite lookup_insert_ne by done. by exists new.
      * intros tid new H1. destruct (decide (tid = uuid d)) as [->|Hneq].
        -- rewrite lookup_insert_eq. intros [= <-]. cbn. split; [|done].
           unfold away_temp_for.
           destruct (thermostats w1 !! uuid d) as [r|] eqn:Hr; [|done].
           destruct (Hb _ _ H1 Hr) as [-> _]. done.
        -- rewrite lookup_insert_ne by done. by apply Hb.
    + destruct He as (_ & Ht & _). rewrite Ht. by split.
  - intros w1 l m HI. exact HI.
  - unfold I. split; [intros tid old a H1 H2; by exists old|intros tid new H1 H2; congruence].
  - rewrite Ht. exact HI.
Qed.

(** X4. Local registration never resets an away temperature: after
    [_register_and_configure_devices], on any list of devices (repeated
    ones included) and whatever the devices and the database answer, every
    thermostat that had a non-null [away_temp] still has it, and every
    thermostat that appears in the table is active with the default
    [away_temp] of 50. *)
Theorem registration_preserves_away_temp cfg devices phase e w :
  let w' := run (_register_and_configure_devices cfg devices phase) e w in
  (forall tid old a,
     thermostats w !! tid = Some old -> away_temp old = Some a ->
     exists new, thermostats w' !! tid = Some new /\ away_temp new = Some a)
  /\ (forall tid new,
        thermostats w !! tid = None -> thermostats w' !! tid = Some new ->
        away_temp new = Some 50%Q /\ active new = true).
Proof. apply registration_keeps_away_temp. Qed.

(** X5. A device the database refuses is neither configured nor
    announced: when every upsert fails, [_register_and_configure_devices]
    writes to no thermostat, leaves the tables [thermostats] and
    [device_config] as they were and sends nothing to the public server. *)
Theorem refused_devices_are_not_configured cfg devices phase e w :
  (forall n, upsert_ok e n = false) ->
  let w' := run (_register_and_configure_devices cfg devices phase) e w in
  sent w' = sent w /\ thermostats w' = thermostats w
  /\ device_config w' = device_config w /\ public_batches w' = public_batches w.
Proof.
  intros Hno. cbv zeta. destruct devices as [|d0 rest] eqn:Hdev; [done|].
  rewrite <- Hdev. assert (Hne : devices <> []) by (by rewrite Hdev). clear Hdev.
  set (I := fun (w1 : World) (recs : list ThermostatRecord) =>
    recs = [] /\ sent w1 = sent w /\ thermostats w1 = thermostats w
    /\ device_config w1 = device_config w /\ public_batches w1 = public_batches w).
  destruct (registration_inv I cfg devices phase e w Hne)
    as (w1 & recs & (-> & Hs1 & Ht1 & Hd1 & Hp1) & Hs & Hd & Ht & Hp).
  - intros d w1 recs _ (-> & Hs1 & Ht1 & Hd1 & Hp1).
    pose proof (register_one_effect (discovery_type_of phase) d e w1) as [Hp He].
    cbv zeta in He. rewrite Hno in He. destruct He as (-> & Ht & Hs & Hd).
    unfold I. rewrite Hp, Ht, Hs, Hd. done.
  - intros w1 l m HI. exact HI.
  - done.
  - rewrite Hs, Ht, Hd, Hp. cbn [public_batch_of]. rewrite app_nil_r. done.
Qed.

Lemma refused_devices_witness :
  (forall n, upsert_ok (refusing (Sample.env_of Sample.held)) n = false)
  /\ sent (run (_register_and_configure_devices Sample.server [Sample.device] "startup_phase")
               (refusing (Sample.env_of Sample.held)) Sample.empty_world) = [].
Proof.
  split; [reflexivity|].
  apply (refused_devices_are_not_configured Sample.server [Sample.device] "startup_phase"
           (refusing (Sample.env_of Sample.held)) Sample.empty_world).
  reflexivity.
Defined.

Lemma registration_reaches_only_devices cfg devices phase e w :
  let w' := run (_register_and_configure_devices cfg devices phase) e w in
  (exists posts,
     sent w' = sent w ++ posts
     /\ Forall (fun p => (exists d, d ∈ devices /\ fst p = ip d)
                         /\ cool_free (snd p) = true) posts)
  /\ (forall tid, (forall d, d ∈ devices -> uuid d <> tid) ->
        thermostats w' !! tid = thermostats w !! tid
        /\ device_config w' !! tid = device_config w !! tid).
Proof.
  cbv zeta. destruct devices as [|d0 rest] eqn:Hdev.
  { split; [exists []; by rewrite app_nil_r|done]. }
  rewrite <- Hdev. assert (Hne : devices <> []) by (by rewrite Hdev). clear Hdev.
  set (I := fun (w1 : World) (recs : list ThermostatRecord) =>
    (exists posts,
       sent w1 = sent w ++ posts
       /\ Forall (fun p => (exists d, d ∈ devices /\ fst p = ip d)
                           /\ cool_free (snd p) = true) posts)
    /\ (forall tid, (forall d, d ∈ devices -> uuid d <> tid) ->
          thermostats w1 !! tid = thermostats w !! tid
          /\ device_config w1 !! tid = device_config w !! tid)).
  destruct (registration_inv I cfg devices phase e w Hne)
    as (w1 & recs & HI & Hs & Hd & Ht & _).
  - intros d w1 recs Hin [(posts & Hs1 & Hall) Hrows]. unfold I.
    pose proof (register_one_effect (discovery_type_of phase) d e w1) as [_ He].
    cbv zeta in He. destruct (upsert_ok e (net_clock w1)).
    + destruct He as (_ & Ht & (posts' & Hs' & Hp') & Hd). split.
      * exists (posts ++ posts'). rewrite Hs', Hs1, <- app_assoc. split; [done|].
        apply Forall_app. split; [done|].
        eapply Forall_impl; [exact (policy_posts_cool_free _ _ Hp')|].
        intros p [Hip Hc]. split; [by exists d|done].
      * intros tid Hnot. destruct (Hrows tid Hnot) as [Ha Hb].
        assert (tid <> uuid d) by (intros ->; by apply (Hnot d)).
        rewrite Ht, lookup_insert_ne by done. rewrite Hd by done. done.
    + destruct He as (_ & Ht & Hs' & Hd). split.
      * exists posts. by rewrite Hs'.
      * intros tid Hnot. rewrite Ht, Hd. by apply Hrows.
  - intros w1 l m HI. exact HI.
  - unfold I. split; [exists []; by rewrite app_nil_r|done].
  - rewrite Hs, Ht, Hd. exact HI.
Qed.

(** X6. [_register_and_configure_devices] writes only to the addresses
    of the devices it was handed, with bodies that never select COOL nor
    carry [t_cool]; the rows of [thermostats] and [device_config] of every
    other thermostat are left as they were. *)
Theorem registration_touches_only_its_devices cfg devices phase e w :
  let w' := run (_register_and_configure_devices cfg devices phase) e w in
  (exists posts,
     sent w' = sent w ++ posts
     /\ Forall (fun p => (exists d, d ∈ devices /\ fst p = ip d)
                         /\ cool_free (snd p) = true) posts)
  /\ (forall tid, (forall d, d ∈ devices -> uuid d <> tid) ->
        thermostats w' !! tid = thermostats w !! tid
        /\ device_config w' !! tid = device_config w !! tid).
Proof. apply registration_reaches_only_devices. Qed.

(** X7. The public server hears only of devices that are stored locally:
    [_register_and_configure_devices] sends it at most one batch, none in
    local-only mode or without a sync manager, and every record of the
    batch is active, belongs to a device of the list and has a row in the
    local table [thermostats]. *)
Theorem public_batch_is_stored_locally cfg devices phase e w :
  let w' := run (_register_and_configure_devices cfg devices phase) e w in
  exists registered,
    public_batches w' = public_batches w ++ public_batch_of cfg registered
    /\ Forall (fun r => (exists d, d ∈ devices /\ thermostat_id r = uuid d)
                        /\ has_row (thermostats w') (thermostat_id r) = true
                        /\ active r = true) registered.
Proof.
  cbv zeta. destruct devices as [|d0 rest] eqn:Hdev.
  { exists []. cbn. by rewrite app_nil_r. }
  rewrite <- Hdev. assert (Hne : devices <> []) by (by rewrite Hdev). clear Hdev.
  set (I := fun (w1 : World) (recs : list ThermostatRecord) =>
    public_batches w1 = public_batches w
    /\ Forall (fun r => (exists d, d ∈ devices /\ thermostat_id r = uuid d)
                        /\ has_row (thermostats w1) (thermostat_id r) = true
                        /\ active r = true) recs).
  destruct (registration_inv I cfg devices phase e w Hne)
    as (w1 & recs & [Hp1 Hall] & _ & _ & Ht & Hp).
  - intros d w1 recs Hin [Hp1 Hall]. unfold I.
    pose proof (register_one_effect (discovery_type_of phase) d e w1) as [Hp He].
    cbv zeta in He. destruct (upsert_ok e (net_clock w1)).
    + destruct He as (-> & Ht & _). split; [by rewrite Hp|].
      rewrite Ht. apply Forall_app. split.
      * eapply Forall_impl; [exact Hall|]. intros r (Hd & Hrow & Hact).
        split; [done|]. split; [|done]. unfold has_row in *.
        apply bool_decide_eq_true in Hrow. apply bool_decide_eq_true.
        destruct (decide (thermostat_id r = uuid d)) as [->|Hneq].
        -- rewrite lookup_insert_eq. by eexists.
        -- by rewrite lookup_insert_ne.
      * cbn [option_list]. constructor; [|constructor]. cbn [record_of thermostat_id active].
        split; [by exists d|]. split; [|done]. unfold has_row.
        apply bool_decide_eq_true. rewrite lookup_insert_eq. by eexists.
    + destruct He as (-> & Ht & _). cbn [option_list]. rewrite app_nil_r.
      split; [by rewrite Hp|]. by rewrite Ht.
  - intros w1 l m HI. exact HI.
  - unfold I. split; [done|constructor].
  - exists recs. rewrite Hp, Hp1, Ht. done.
Qed.

(** ** The batch of a remote discovery *)





(** ** State changes: kinds and the cache *)

Lemma differs_b_same f s : differs_b f s s = false.
Proof.
  destruct f; cbn [differs_b]; rewrite ?Z.eqb_refl; try reflexivity.
  - unfold temp_moved. apply not_true_iff_false. rewrite Qle_bool_iff.
    intros H. assert (E : (Qabs (temp s - temp s) == 0)%Q).
    { rewrite (Qabs_wd _ 0%Q); [reflexivity|]. ring. }
    rewrite E in H. unfold Qle in H. cbn in H. lia.
  - apply negb_false_iff, Qeq_bool_iff. reflexivity.
Qed.

Lemma detect_state_change_cases cache tid cur :
  _detect_state_change cache tid cur
  = match cache !! tid with
    | None => (false, "first_reading", None)
    | Some prev =>
        if existsb (fun f => differs_b f prev cur) [Temp; THeat; TMode; TState; Hold; Override]
        then (true, _classify_change_type (fst (compare_readings prev cur)),
              Some (fst (compare_readings prev cur)))
        else (false, "no_change", None)
    end.
Proof.
  unfold _detect_state_change. destruct (cache !! tid) as [prev|]; [|done].
  destruct (compare_readings_spec prev cur) as [_ Hsig].
  destruct (compare_readings prev cur) as [diff sig]. cbn [fst snd] in *.
  rewrite <- Hsig. by destruct sig.
Qed.

Lemma classify_by_fields prev cur :
  _classify_change_type (fst (compare_readings prev cur))
  = if differs_b TMode prev cur || differs_b THeat prev cur || differs_b Hold prev cur
    then "manual_adjustment"
    else if differs_b TState prev cur then "hvac_state_change"
    else if differs_b Temp prev cur then "temperature_change"
    else if differs_b Override prev cur then "override_change"
    else "other_change".
Proof.
  destruct (compare_readings_spec prev cur) as [Hlook _].
  unfold _classify_change_type.
  pose proof (Hlook TMode) as H1. pose proof (Hlook THeat) as H2.
  pose proof (Hlook Hold) as H3. pose proof (Hlook TState) as H4.
  pose proof (Hlook Temp) as H5. pose proof (Hlook Override) as H6.
  cbn [key] in *. rewrite H1, H2, H3, H4, H5, H6.
  destruct (differs_b TMode prev cur), (differs_b THeat prev cur),
    (differs_b Hold prev cur), (differs_b TState prev cur),
    (differs_b Temp prev cur), (differs_b Override prev cur); reflexivity.
Qed.

(** X9. The kind [_detect_state_change] reports follows a fixed
    precedence over the fields that moved: a change of mode, setpoint or
    hold is a "manual_adjustment" whatever else moved; otherwise a change
    of the HVAC state is an "hvac_state_change"; otherwise a temperature
    that moved by 0.5 or more is a "temperature_change"; otherwise the
    reading differs in [override] alone, an "override_change". The kind
    "other_change" is never reported, and a change is reported exactly when
    one of the six fields moved. *)
Theorem change_kind_follows_precedence cache tid cur :
  match cache !! tid with
  | None => _detect_state_change cache tid cur = (false, "first_reading", None)
  | Some prev =>
      let moved f := differs_b f prev cur in
      fst (fst (_detect_state_change cache tid cur))
      = (moved Temp || moved THeat || moved TMode || moved TState || moved Hold
         || moved Override)
      /\ snd (fst (_detect_state_change cache tid cur))
         = (if moved TMode || moved THeat || moved Hold then "manual_adjustment"
            else if moved TState then "hvac_state_change"
            else if moved Temp then "temperature_change"
            else if moved Override then "override_change"
            else "no_change")
  end.
Proof.
  rewrite detect_state_change_cases. destruct (cache !! tid) as [prev|]; [|done].
  cbv zeta. cbn [existsb]. rewrite orb_false_r.
  pose proof (classify_by_fields prev cur) as Hk.
  destruct (differs_b Temp prev cur), (differs_b THeat prev cur),
    (differs_b TMode prev cur), (differs_b TState prev cur),
    (differs_b Hold prev cur), (differs_b Override prev cur);
    cbn [orb fst snd] in *; split; (reflexivity || exact Hk).
Qed.

(** X10. A reading that has just been stored by [_update_state_cache]
    is no change against itself, and storing the reading of one
    thermostat leaves what [_detect_state_change] answers for every other
    thermostat as it was. *)
Theorem cached_reading_is_no_change cache tid status :
  _detect_state_change (_update_state_cache cache tid status) tid status
  = (false, "no_change", None)
  /\ (forall other cur,
        other <> tid ->
        _detect_state_change (_update_state_cache cache tid status) other cur
        = _detect_state_change cache other cur).
Proof.
  split.
  - rewrite detect_state_change_cases. unfold _update_state_cache.
    rewrite lookup_insert_eq. cbn [existsb]. by rewrite !differs_b_same.
  - intros other cur Hne. unfold _detect_state_change, _update_state_cache.
    by rewrite lookup_insert_ne.
Qed.

(** ** The set_state executor, on every command *)

Lemma build_payload_shape e tmode hold t_heat payload :
  build_payload e tmode hold t_heat = Returned payload ->
  get payload "tmode" = tmode /\ get payload "hold" = hold
  /\ has payload "tmode" = true /\ has payload "hold" = true
  /\ has payload "t_cool" = false
  /\ has payload "t_heat" = py_eq tmode (PInt 1).
Proof.
  unfold build_payload. destruct (py_eq tmode (PInt 1)).
  - destruct (py_float e t_heat) as [f|]; [|done]. intros [= <-].
    unfold get, has. by simplify_map_eq.
  - intros [= <-]. unfold get, has. by simplify_map_eq.
Qed.

Lemma payload_updates_tracked payload now stamp row :
  has payload "tmode" = true -> has payload "hold" = true ->
  nonempty (payload_updates payload now) = true
  /\ tracked (get payload "tmode") (get payload "hold")
       (<["updated_at" := DTime stamp]> (payload_updates payload now ∪ row)).
Proof.
  intros Hm Hh.
  change (payload_updates payload now)
    with (stamped (has payload "tmode") (has payload "t_heat") (has payload "hold")
            (get payload "tmode") (get payload "t_heat") (get payload "hold") now).
  rewrite Hm, Hh.
  destruct (stamped_lookup (has payload "t_heat") (get payload "tmode")
              (get payload "t_heat") (get payload "hold") now)
    as (Hne & L1 & L2 & L3 & L4 & _).
  split; [exact Hne|]. exists now.
  split; [rewrite lookup_insert_ne by done; by apply lookup_union_Some_l|].
  split; [rewrite lookup_insert_ne by done; by apply lookup_union_Some_l|].
  split; [rewrite lookup_insert_ne by done; by apply lookup_union_Some_l|].
  rewrite lookup_insert_ne by done; by apply lookup_union_Some_l.
Qed.

Section ExecutorEffects.

Variable fetch : string -> string -> gmap string ThermostatRecord -> option string.

Lemma do_one_effect site tmode hold t_heat tid e w :
  thermostats (snd (do_one fetch site tmode hold t_heat tid e w)) = thermostats w
  /\ do_one_writes tid e tmode hold t_heat (fetch site tid (thermostats w)) w
       (do_one fetch site tmode hold t_heat tid e w).
Proof.
  unfold do_one_writes, do_one, _resolve_thermostat_ip, _post_tstat, _verify_set_state,
    _get_tstat_readback.
  io_eval.
  destruct (fetch site tid (thermostats w)) as [ip0|]; [|done].
  destruct (bool_decide (ip0 = "")); [done|]. io_eval.
  destruct (build_payload e tmode hold t_heat) as [payload|x] eqn:Hb; [|done].
  destruct (build_payload_shape _ _ _ _ _ Hb) as (Gm & Gh & Hm & Hh & _).
  io_eval.
  destruct (device_http e (net_clock w) (POST_tstat ip0 _)) as [x|status b txt]; io_eval;
    [done|].
  destruct (is_2xx status); io_eval; [|done].
  destruct (payload_updates_tracked payload (utcnow e (clock_reads w))
              (utcnow e (S (clock_reads w))) (default ∅ (device_config w !! tid)) Hm Hh)
    as [Hne Htr].
  rewrite Gm, Gh in Htr.
  destruct (device_http e (S (net_clock w)) (GET_tstat ip0)) as [x|status' body txt'];
    io_eval; rewrite ?nonempty_empty; io_eval; [done|].
  destruct (is_2xx status'); io_eval; rewrite ?nonempty_empty; io_eval; [|done].
  destruct body as [d|truth|]; io_eval; rewrite ?nonempty_empty; io_eval;
    [|by destruct truth|done].
  destruct (nonempty d); io_eval; [|done].
  destruct (py_eq (get payload "tmode") (PInt 0)); io_eval.
  - destruct (py_eq (get d "tmode") (PInt 0) && py_eq (get d "hold") (get payload "hold"));
      io_eval; [|done].
    rewrite Hne. io_eval. split; [done|]. split; [done|].
    eexists. split; [reflexivity|exact Htr].
  - destruct (py_eq (get d "tmode") (PInt 1) && py_eq (get d "hold") (get payload "hold"));
      io_eval; [|done].
    destruct (py_sub (get d "t_heat") (get payload "t_heat")) as [dq|]; io_eval; [|done].
    destruct (negb (Qle_bool (1 # 10) (Qabs dq))); io_eval; [|done].
    rewrite Hne. io_eval. split; [done|]. split; [done|].
    eexists. split; [reflexivity|exact Htr].
Qed.

Lemma defensive_filter_effect params tmode t_heat e w :
  let r := defensive_filter params tmode t_heat e w in
  sent (snd r) = sent w /\ device_config (snd r) = device_config w
  /\ thermostats (snd r) = thermostats w.
Proof.
  unfold defensive_filter. by destruct (py_eq tmode (PInt 0) && has params "t_heat").
Qed.

(** What [_execute_set_state] does to the world, by its outcome. *)
Lemma execute_set_state_effect site tid params e w :
  let r := _execute_set_state fetch site tid params e w in
  thermostats (snd r) = thermostats w
  /\ (sent (snd r) = sent w /\ device_config (snd r) = device_config w
       /\ succeeded (fst r) = false
      \/ exists ip0 payload,
           fetch site tid (thermostats w) = Some ip0 /\ ip0 <> ""
           /\ sent (snd r) = sent w ++ [(ip0, Fields payload)]
           /\ get payload "tmode" = get params "tmode"
           /\ get payload "hold" = get params "hold"
           /\ safe_payload payload
           /\ if succeeded (fst r)
              then exists row,
                     device_config (snd r) = <[tid := row]> (device_config w)
                     /\ tracked (get params "tmode") (get params "hold") row
              else device_config (snd r) = device_config w).
Proof.
  cbv zeta. unfold _execute_set_state. cbv zeta.
  destruct (py_in (get params "tmode") [PInt 0; PInt 1]) eqn:Hm; cbn [negb];
    [|split; [done|left; done]].
  destruct (py_in (get params "hold") [PInt 0; PInt 1]) eqn:Hh; cbn [negb];
    [|split; [done|left; done]].
  rewrite bind_eq.
  destruct (defensive_filter_effect params (get params "tmode") (get params "t_heat") e w)
    as (Hs1 & Hd1 & Ht1).
  cbv zeta in Hs1, Hd1, Ht1.
  destruct (defensive_filter params (get params "tmode") (get params "t_heat") e w)
    as [[params' t_heat'] w1].
  cbn [fst snd] in *.
  destruct (py_eq (get params "tmode") (PInt 1) && is_none t_heat');
    [split; [done|left; done]|].
  destruct (py_eq (get params "tmode") (PInt 0) && has params' "t_heat");
    [split; [done|left; done]|].
  rewrite bind_eq.
  destruct (do_one_effect site (get params "tmode") (get params "hold") t_heat' tid e w1)
    as [Ht2 Hw].
  unfold do_one_writes in Hw. rewrite Ht1 in Hw.
  destruct (do_one fetch site (get params "tmode") (get params "hold") t_heat' tid e w1)
    as [r w2].
  cbn [fst snd] in *. rewrite Hs1, Hd1 in Hw.
  match goal with
  | |- context [snd (?m e w2)] => set (fin := m)
  end.
  assert (Hsucc : exists res, fin e w2 = (res, w2) /\ succeeded res = ok_of r).
  { subst fin. destruct r as [[[tid0 ok] err]|x]; eexists; (split; reflexivity). }
  clearbody fin.
  destruct Hsucc as (res & -> & Hsu). cbn [fst snd]. rewrite Hsu.
  split; [by rewrite Ht2|].
  destruct (fetch site tid (thermostats w)) as [ip0|]; [|left; done].
  destruct (bool_decide (ip0 = "")) eqn:Hip; [left; done|].
  destruct (build_payload e (get params "tmode") (get params "hold") t_heat')
    as [payload|x] eqn:Hb; [|left; done].
  destruct (build_payload_shape _ _ _ _ _ Hb) as (Gm & Gh & _ & _ & Hc & Hheat).
  destruct Hw as [Hs2 Hd2]. right. exists ip0, payload.
  split; [done|]. split; [by apply bool_decide_eq_false in Hip|].
  split; [done|]. split; [done|]. split; [done|].
  split; [|exact Hd2].
  unfold safe_payload. rewrite Gm, Gh. done.
Qed.

(** X11. Whatever its parameters, one [set_state] command makes
    [_execute_set_state] write to at most one address, the one its adapter
    resolves for the thermostat, and at most once; the body carries the
    requested mode and hold, a mode of OFF or HEAT and a hold of 0 or 1,
    never [t_cool], and [t_heat] exactly in HEAT mode. A command that leads
    to no write does not succeed, and the table [thermostats] is left as it
    was. *)
Theorem set_state_sends_one_safe_payload site tid params e w :
  let call := _execute_set_state fetch site tid params in
  thermostats (run call e w) = thermostats w
  /\ (sent (run call e w) = sent w /\ succeeded (value call e w) = false
      \/ exists ip0 payload,
           fetch site tid (thermostats w) = Some ip0 /\ ip0 <> ""
           /\ sent (run call e w) = sent w ++ [(ip0, Fields payload)]
           /\ get payload "tmode" = get params "tmode"
           /\ get payload "hold" = get params "hold"
           /\ safe_payload payload).
Proof.
  cbv zeta. destruct (execute_set_state_effect site tid params e w) as [Ht Hw].
  split; [exact Ht|].
  destruct Hw as [(Hs & _ & Hf)|(ip0 & payload & H1 & H2 & H3 & H4 & H5 & H6 & _)].
  - left. by split.
  - right. exists ip0, payload. done.
Qed.


End ExecutorEffects.

(** ** Attempts and batches of the minute upload *)

Lemma retry_loop_attempts k data c s :
  exists n,
    posts_made (snd (retry_loop k data c s)) = (posts_made s + n)%nat
    /\ (n <= k)%nat
    /\ (forall i, (S i < n)%nat ->
          accepted_code (minute_endpoint c (posts_made s + i) data) = false)
    /\ if fst (retry_loop k data c s)
       then (0 < n)%nat
            /\ accepted_code (minute_endpoint c (posts_made s + n - 1) data) = true
       else n = k
            /\ forall i, (i < n)%nat ->
                 accepted_code (minute_endpoint c (posts_made s + i) data) = false.
Proof.
  revert s. induction k as [|k IH]; intros s.
  - exists 0%nat. cbn. split; [lia|]. split; [lia|]. split; [intros; lia|].
    split; [done|intros; lia].
  - cbn [retry_loop]. rewrite ubind_eq. unfold post. cbn [fst snd].
    set (r := minute_endpoint c (posts_made s) data).
    assert (Hr : accepted_code r = accepted_code (minute_endpoint c (posts_made s) data))
      by done.
    set (s1 := {| sync_checkpoint := sync_checkpoint s; minute_readings := minute_readings s;
                  posts_made := S (posts_made s); accepted := _;
                  time_reads := time_reads s; journal := journal s |}).
    assert (Hnext : forall s2, posts_made s2 = S (posts_made s) ->
              accepted_code r = false ->
              exists n,
                posts_made (snd (retry_loop k data c s2)) = (posts_made s + n)%nat
                /\ (n <= S k)%nat
                /\ (forall i, (S i < n)%nat ->
                      accepted_code (minute_endpoint c (posts_made s + i) data) = false)
                /\ if fst (retry_loop k data c s2)
                   then (0 < n)%nat
                        /\ accepted_code (minute_endpoint c (posts_made s + n - 1) data) = true
                   else n = S k
                        /\ forall i, (i < n)%nat ->
                             accepted_code (minute_endpoint c (posts_made s + i) data) = false).
    { intros s2 Hp Hrej. destruct (IH s2) as (n & Hn & Hle & Hbefore & Hlast).
      exists (S n). rewrite Hn, Hp. split; [lia|]. split; [lia|].
      assert (Hall : forall i, (S i < S n)%nat ->
                accepted_code (minute_endpoint c (posts_made s + i) data) = false).
      { intros [|i] Hi.
        - by rewrite Nat.add_0_r, <- Hr.
        - specialize (Hbefore i ltac:(lia)). rewrite Hp in Hbefore.
          by replace (posts_made s + S i)%nat with (S (posts_made s) + i)%nat by lia. }
      split; [exact Hall|].
      destruct (fst (retry_loop k data c s2)).
      - destruct Hlast as [Hpos Hacc]. split; [lia|].
        rewrite Hp in Hacc.
        by replace (posts_made s + S n - 1)%nat with (S (posts_made s) + n - 1)%nat by lia.
      - destruct Hlast as [-> Hrej']. split; [done|].
        intros [|i] Hi.
        + by rewrite Nat.add_0_r, <- Hr.
        + specialize (Hrej' i ltac:(lia)). rewrite Hp in Hrej'.
          by replace (posts_made s + S i)%nat with (S (posts_made s) + i)%nat by lia. }
    clearbody r. destruct r as [code|x].
    + cbn [accepted_code] in *. destruct (bool_decide (code = 200 ∨ code = 201)) eqn:Hc.
      * exists 1%nat. subst s1. unfold mret, U_ret. cbn [fst snd posts_made].
        split; [lia|]. split; [lia|]. split; [intros; lia|]. split; [lia|].
        replace (posts_made s + 1 - 1)%nat with (posts_made s) by lia.
        by rewrite <- Hr.
      * destruct (code =? 429); rewrite !ubind_eq; (apply Hnext; reflexivity).
    + rewrite !ubind_eq. apply Hnext; reflexivity.
Qed.

(** X13. [_post_with_retry] posts at most [retry_attempts] times and
    not at all without a session; it stops at the first post the public
    server accepts (status 200 or 201) and returns [True] then; it returns
    [False] only after every one of the attempts allowed was refused or
    failed. *)
Theorem post_with_retry_stops_at_first_success cfg data c s :
  let r := _post_with_retry cfg data c s in
  let allowed := if session cfg then Z.to_nat (retry_attempts cfg) else 0%nat in
  exists n,
    posts_made (snd r) = (posts_made s + n)%nat
    /\ (n <= allowed)%nat
    /\ (forall i, (S i < n)%nat ->
          accepted_code (minute_endpoint c (posts_made s + i) data) = false)
    /\ if fst r
       then (0 < n)%nat
            /\ accepted_code (minute_endpoint c (posts_made s + n - 1) data) = true
       else n = allowed
            /\ forall i, (i < n)%nat ->
                 accepted_code (minute_endpoint c (posts_made s + i) data) = false.
Proof.
  cbv zeta. unfold _post_with_retry. destruct (session cfg); cbn [negb].
  - apply retry_loop_attempts.
  - exists 0%nat. cbn. split; [lia|]. split; [lia|]. split; [intros; lia|].
    split; [done|intros; lia].
Qed.

Lemma slices_bounded {A} (k fuel : nat) (l : list A) :
  (0 < k)%nat ->
  Forall (fun b => (0 < length b <= k)%nat) (slices_from fuel k l).
Proof.
  intros Hk. revert l. induction fuel as [|fuel IH]; intros l; [constructor|].
  destruct l as [|x l]; [constructor|]. cbn [slices_from].
  constructor; [|apply IH].
  rewrite length_take. cbn [length]. lia.
Qed.

(** X14. The batches of a minute upload: with a positive
    [max_batch_size] they are the upload records cut in order, none empty
    and none longer than the size; a size of zero gives no batches but an
    error; a negative size gives no batch at all. *)
Theorem batches_partition_the_records max_batch records :
  match batches_of max_batch records with
  | None => max_batch = 0
  | Some batches =>
      if max_batch <? 0 then batches = []
      else concat batches = records
           /\ Forall (fun b => (0 < length b <= Z.to_nat max_batch)%nat) batches
  end.
Proof.
  unfold batches_of. destruct (Z.eqb_spec max_batch 0) as [->|Hz]; [done|].
  destruct (Z.ltb_spec max_batch 0); [done|]. split.
  - apply slices_cover; lia.
  - apply slices_bounded. lia.
Qed.

Lemma upload_minute_data_run cfg c s :
  exists s0,
    sync_checkpoint s0 = sync_checkpoint s
    /\ minute_readings s0 = minute_readings s
    /\ accepted s0 = accepted s
    /\ posts_made s0 = posts_made s
    /\ snd (_upload_minute_data cfg c s)
       = snd (upload_selected cfg (window_start c s) (selected c s) c s0).
Proof.
  unfold _upload_minute_data, selected, window_start.
  rewrite ubind_eq. unfold get_sync_checkpoint at 1 2. cbn [fst snd].
  destruct (sync_checkpoint s !! "minute_upload") as [t|].
  - rewrite !ubind_eq. cbn [fst snd mret U_ret].
    eexists. split; [|split; [|split; [|split; [|reflexivity]]]]; reflexivity.
  - rewrite !ubind_eq. cbn [fst snd mret U_ret].
    eexists. split; [|split; [|split; [|split; [|reflexivity]]]]; reflexivity.
Qed.






Lemma upload_selected_posts cfg ck rows c s0 :
  exists batches,
    batches_of (max_batch_size cfg) (to_upload_record <$> rows)
    = (if max_batch_size cfg =? 0 then None else Some batches)
    /\ match rows with
       | [] =>
           snd (upload_selected cfg ck rows c s0)
           = snd (note INFO "No minute data to upload. Exiting without updating checkpoint. Checkpoint remains: {checkpoint}" c s0)
       | first :: others =>
           if max_batch_size cfg =? 0
           then sync_checkpoint (snd (upload_selected cfg ck rows c s0)) = sync_checkpoint s0
                /\ accepted (snd (upload_selected cfg ck rows c s0)) = accepted s0
                /\ posts_made (snd (upload_selected cfg ck rows c s0)) = posts_made s0
           else
             let up := upload_batches cfg ck batches c s0 in
             accepted (snd (upload_selected cfg ck rows c s0)) = accepted (snd up)
             /\ posts_made (snd (upload_selected cfg ck rows c s0)) = posts_made (snd up)
             /\ sync_checkpoint (snd (upload_selected cfg ck rows c s0))
                = if fst up
                  then <["minute_upload" := latest_minute_ts first others]>
                         (sync_checkpoint (snd up))
                  else sync_checkpoint (snd up)
       end.
Proof.
  unfold upload_selected.
  assert (Hb : exists batches,
            batches_of (max_batch_size cfg) (to_upload_record <$> rows)
            = (if max_batch_size cfg =? 0 then None else Some batches)).
  { unfold batches_of. destruct (max_batch_size cfg =? 0); [by exists []|].
    destruct (max_batch_size cfg <? 0); by eexists. }
  destruct Hb as (batches & Hb). exists batches. split; [exact Hb|].
  destruct rows as [|first others]; [done|]. cbv zeta. rewrite Hb.
  destruct (max_batch_size cfg =? 0); [done|].
  rewrite ubind_eq. destruct (fst (upload_batches cfg ck batches c s0)).
  - rewrite ubind_eq. done.
  - done.
Qed.



(** X17. A degenerate [max_batch_size] makes [_upload_minute_data]
    post nothing. With a size of zero the run ends on an error and the
    checkpoint stays; with a negative size the run counts as successful:
    the checkpoint moves to the latest reading although no reading was
    uploaded. *)
Theorem degenerate_batch_size_posts_nothing cfg c s :
  max_batch_size cfg <= 0 ->
  let s' := snd (_upload_minute_data cfg c s) in
  posts_made s' = posts_made s /\ accepted s' = accepted s
  /\ if max_batch_size cfg =? 0
     then sync_checkpoint s' = sync_checkpoint s
     else checkpoint_after (selected c s) s s'.
Proof.
  intros Hb. cbv zeta.
  destruct (upload_minute_data_run cfg c s) as (s0 & Hc0 & Hm0 & Ha0 & Hp0 & ->).
  destruct (upload_selected_posts cfg (window_start c s) (selected c s) c s0)
    as (batches & Hbatches & Hrun).
  destruct (selected c s) as [|first others] eqn:Hrows.
  - rewrite Hrun. cbn [note snd accepted posts_made sync_checkpoint checkpoint_after].
    rewrite Ha0, Hp0, Hc0. split; [done|]. split; [done|]. by destruct (_ =? 0).
  - destruct (Z.eqb_spec (max_batch_size cfg) 0) as [E|E].
    + destruct Hrun as (Hc & Ha & Hp). by rewrite Hc, Ha, Hp, Hc0, Ha0, Hp0.
    + cbv zeta in Hrun. destruct Hrun as (Ha & Hp & Hc).
      assert (batches = []) as ->.
      { unfold batches_of in Hbatches.
        destruct (Z.eqb_spec (max_batch_size cfg) 0); [done|].
        destruct (Z.ltb_spec (max_batch_size cfg) 0); [|lia]. congruence. }
      cbn [upload_batches mret U_ret fst snd] in *. cbn [checkpoint_after].
      rewrite Ha, Hp, Hc, Hc0, Ha0, Hp0. done.
Qed.

Lemma degenerate_batch_size_witness :
  max_batch_size {| session := true; retry_attempts := 3; max_batch_size := -1 |} <= 0
  /\ accepted (snd (_upload_minute_data
                      {| session := true; retry_attempts := 3; max_batch_size := -1 |}
                      Sample.accepting Sample.store)) = []
  /\ sync_checkpoint (snd (_upload_minute_data
                      {| session := true; retry_attempts := 3; max_batch_size := -1 |}
                      Sample.accepting Sample.store)) !! "minute_upload" = Some 1120.
Proof.
  split; [cbn; lia|].
  destruct (degenerate_batch_size_posts_nothing
              {| session := true; retry_attempts := 3; max_batch_size := -1 |}
              Sample.accepting Sample.store ltac:(cbn; lia)) as (_ & Ha & Hc).
  split; [exact Ha|]. cbn [max_batch_size Z.eqb] in Hc.
  change (selected Sample.accepting Sample.store)
    with [Sample.reading 1060; Sample.reading 1120] in Hc.
  cbn [checkpoint_after] in Hc. rewrite Hc. reflexivity.
Defined.

(** ** The registry and the stream of a TCP scan *)

Section ScanStream.

Variable probe : nat -> string -> string -> option ThermostatDevice.

Lemma found_between_app ips a b c :
  (a <= b)%nat -> (b <= c)%nat -> (c <= length ips)%nat ->
  found_between probe ips a b ++ found_between probe ips b c = found_between probe ips a c.
Proof.
  intros Hab Hbc Hc. induction c as [|c IH].
  - assert (b = 0%nat) as -> by lia. assert (a = 0%nat) as -> by lia.
    by rewrite found_between_empty.
  - destruct (decide (b = S c)) as [->|Hne].
    + by rewrite found_between_empty, app_nil_r.
    + destruct (lookup_lt_is_Some_2 ips c ltac:(lia)) as [ip0 Hip].
      rewrite (found_between_snoc probe ips b c ip0) by (lia || done).
      rewrite (found_between_snoc probe ips a c ip0) by (lia || done).
      rewrite app_assoc, IH by lia. done.
Qed.

Lemma concat_expected_calls ips k :
  concat (call_devices <$> expected_calls probe ips k)
  = found_between probe ips 0 (min (10 * k) (length ips)).
Proof.
  induction k as [|k IH].
  - change (10 * 0)%nat with 0%nat. rewrite Nat.min_0_l, found_between_empty. reflexivity.
  - rewrite expected_calls_snoc, fmap_app, concat_app, IH.
    cbn [fmap list_fmap concat expected_call call_devices]. rewrite app_nil_r.
    destruct (decide (10 * k <= length ips)%nat) as [Hle|Hgt].
    + rewrite (Nat.min_l (10 * k)) by lia. apply found_between_app; lia.
    + rewrite (Nat.min_r (10 * k)) by lia.
      rewrite (Nat.min_r (10 * S k)) by lia.
      unfold found_between at 2.
      replace (length ips - 10 * k)%nat with 0%nat by lia.
      by rewrite app_nil_r.
Qed.

Lemma scan_ip_same total st st' ip0 :
  same_scan st st' ->
  same_scan (scan_ip probe true total st ip0) (scan_ip probe false total st' ip0).
Proof.
  intros (H1 & H2 & H3 & H4 & H5). unfold scan_ip, same_scan. rewrite H1.
  destruct (probe (ips_scanned st) ip0 "tcp_scan") as [d|];
    cbn [ips_scanned all_devices_found devices_since_checkpoint known_devices
         callback_calls];
    rewrite ?H1; destruct (_ || _);
    cbn [ips_scanned all_devices_found devices_since_checkpoint known_devices
         callback_calls];
    rewrite ?H2, ?H3, ?H4, ?H5; done.
Qed.

Lemma scan_loop_same total ips st st' :
  same_scan st st' ->
  same_scan (scan_loop probe true total st ips) (scan_loop probe false total st' ips).
Proof.
  revert st st'. induction ips as [|ip0 rest IH]; intros st st' Hs; [done|].
  unfold scan_loop. cbn [foldl]. apply IH. by apply scan_ip_same.
Qed.

Lemma scan_ip_remembers b total known st ip0 :
  known_devices st = remember known (all_devices_found st) ->
  known_devices (scan_ip probe b total st ip0)
  = remember known (all_devices_found (scan_ip probe b total st ip0)).
Proof.
  intros H. unfold scan_ip.
  destruct (probe (ips_scanned st) ip0 "tcp_scan") as [d|];
    cbn [ips_scanned all_devices_found known_devices];
    destruct (_ || _); cbn [all_devices_found known_devices];
    rewrite ?H; unfold remember; rewrite ?foldl_app; done.
Qed.

Lemma scan_loop_remembers b total known st ips :
  known_devices st = remember known (all_devices_found st) ->
  known_devices (scan_loop probe b total st ips)
  = remember known (all_devices_found (scan_loop probe b total st ips)).
Proof.
  revert st. induction ips as [|ip0 rest IH]; intros st Hs; [done|].
  unfold scan_loop. cbn [foldl]. apply IH. by apply scan_ip_remembers.
Qed.

(** X18. [discover_tcp_progressive] tests every candidate address and
    reports every device it finds exactly once: the devices handed to the
    callback, batch after batch, are the devices of the result, in the
    order found. Without a callback the result is the same. In both cases
    every device found is entered in the registry [known_devices] under
    its uuid, a later find replacing an earlier one with the same uuid, and
    the other entries of the registry are kept. *)
Theorem scan_reports_each_device_once known ips :
  let out := discover_tcp_progressive probe true known ips in
  let silent := discover_tcp_progressive probe false known ips in
  devices (fst out) = found_between probe ips 0 (length ips)
  /\ concat (call_devices <$> callback_calls (snd out)) = devices (fst out)
  /\ devices_tested (fst out) = length ips
  /\ success_count (fst out) = length (devices (fst out))
  /\ known_devices (snd out) = remember known (devices (fst out))
  /\ fst silent = fst out
  /\ callback_calls (snd silent) = []
  /\ known_devices (snd silent) = known_devices (snd out).
Proof.
  cbv zeta. destruct (scan_final probe known ips) as [Hsc Hcalls _ Hall].
  assert (Hl : last_checkpoint (length ips) (length ips) = length ips).
  { unfold last_checkpoint. by rewrite Nat.eqb_refl. }
  rewrite Hl in Hcalls.
  assert (Hsame : same_scan (scan_loop probe true (length ips) (scan_start known) ips)
                    (scan_loop probe false (length ips) (scan_start known) ips)).
  { apply scan_loop_same. by repeat split. }
  destruct Hsame as (S1 & S2 & S3 & S4 & S5).
  unfold discover_tcp_progressive in *. cbn [fst snd devices devices_tested success_count] in *.
  split; [exact Hall|]. split.
  { rewrite Hcalls, concat_expected_calls, Hall. f_equal.
    divmod10 (length ips + 9)%nat. lia. }
  split; [exact Hsc|]. split; [done|]. split.
  { by apply scan_loop_remembers. }
  split; [by rewrite S1, S2|]. split; [exact S5|exact S4].
Qed.

End ScanStream.

(** ** The away temperature *)


Lemma update_away_temp_effect tid v e w :
  let r := DatabaseManager.update_thermostat_away_temp tid v e w in
  sent (snd r) = sent w /\ device_config (snd r) = device_config w
  /\ public_batches (snd r) = public_batches w
  /\ match thermostats w !! tid with
     | Some row =>
         if active row && upsert_ok e (net_clock w)
         then fst r = true
              /\ thermostats (snd r)
                 = <[tid := DatabaseManager.with_away_temp row v]> (thermostats w)
         else fst r = false /\ thermostats (snd r) = thermostats w
     | None => fst r = false /\ thermostats (snd r) = thermostats w
     end.
Proof.
  cbv zeta. unfold DatabaseManager.update_thermostat_away_temp.
  destruct (upsert_ok e (net_clock w)), (thermostats w !! tid) as [row|];
    try destruct (active row); done.
Qed.

Lemma set_away_temp_effect site tid params e w :
  let r := CommandDispatch._execute_set_away_temp site tid params e w in
  sent (snd r) = sent w /\ device_config (snd r) = device_config w
  /\ public_batches (snd r) = public_batches w
  /\ match away_temp_request e params, thermostats w !! tid with
     | Some v, Some row =>
         if active row && upsert_ok e (net_clock w)
         then fst r = (true, None, Some (CommandDispatch.AwayTemp v tid))
              /\ thermostats (snd r)
                 = <[tid := DatabaseManager.with_away_temp row v]> (thermostats w)
         else accepted_by (fst r) = false /\ thermostats (snd r) = thermostats w
     | _, _ => accepted_by (fst r) = false /\ thermostats (snd r) = thermostats w
     end.
Proof.
  cbv zeta. unfold CommandDispatch._execute_set_away_temp, away_temp_request.
  destruct (is_none (get params "away_temp")); [done|].
  rewrite bind_eq. cbn [ask fst snd].
  destruct (py_float e (get params "away_temp")) as [v|]; [|done].
  destruct (CommandDispatch.out_of_range v); [done|].
  rewrite bind_eq.
  destruct (update_away_temp_effect tid v e w) as (Hs & Hd & Hp & Ht).
  cbv zeta in Hs, Hd, Hp, Ht.
  destruct (DatabaseManager.update_thermostat_away_temp tid v e w) as [ok w1].
  cbn [fst snd] in *.
  destruct (thermostats w !! tid) as [row|].
  - destruct (active row && upsert_ok e (net_clock w)); destruct Ht as [-> Ht].
    + rewrite bind_eq. cbn [log fst snd sent device_config public_batches thermostats
                         mret IO_ret ret].
      done.
    + done.
  - destruct Ht as [-> Ht]. done.
Qed.




Section DispatchFacts.

Variable fetch : string -> string -> gmap string ThermostatRecord -> option string.

(** X21. No command of the public server can select COOL: whatever its
    name and parameters, [execute_command] writes to at most one address,
    and only for a [set_state] command, with a body whose mode is OFF or
    HEAT, whose hold is 0 or 1, without [t_cool], and with [t_heat] exactly
    in HEAT mode. A command that is neither [set_state] nor
    [set_away_temp] is answered "Unsupported command" and changes
    nothing. *)
Theorem no_command_selects_cooling site tid cmd params e w :
  let call := CommandDispatch.execute_command fetch site tid cmd params in
  (sent (run call e w) = sent w
   \/ exists ip0 payload,
        cmd = "set_state"
        /\ fetch site tid (thermostats w) = Some ip0
        /\ sent (run call e w) = sent w ++ [(ip0, Fields payload)]
        /\ safe_payload payload)
  /\ (cmd <> "set_state" -> cmd <> "set_away_temp" ->
      run call e w = w
      /\ value call e w = Returned (false, Some ("Unsupported command: " +:+ cmd), None)).
Proof.
  cbv zeta. unfold CommandDispatch.execute_command.
  destruct (bool_decide (cmd = "set_state")) eqn:Hs.
  - apply bool_decide_eq_true in Hs. split; [|intros Hne; done].
    rewrite run_bind.
    destruct (execute_set_state_effect fetch site tid params e w) as [_ Hw].
    cbv zeta in Hw.
    change (snd (_execute_set_state fetch site tid params e w))
      with (run (_execute_set_state fetch site tid params) e w) in Hw.
    set (r := value (_execute_set_state fetch site tid params) e w).
    set (w1 := run (_execute_set_state fetch site tid params) e w) in *.
    clearbody w1 r.
    match goal with
    | |- context [sent ?t = sent w] =>
        assert (Hrun : sent t = sent w1)
          by (destruct r as [[[? ?] ?]|?]; reflexivity);
        rewrite Hrun; clear Hrun
    end.
    destruct Hw as [(Hsent & _)|(ip0 & payload & H1 & _ & H3 & _ & _ & H6 & _)].
    + by left.
    + right. exists ip0, payload. done.
  - apply bool_decide_eq_false in Hs.
    destruct (bool_decide (cmd = "set_away_temp")) eqn:Ha.
    + apply bool_decide_eq_true in Ha. split; [|intros _ Hne; done].
      left. rewrite run_bind, run_ret.
      destruct (set_away_temp_effect site tid params e w) as (Hsent & _).
      exact Hsent.
    + split; [by left|]. intros _ _. done.
Qed.

End DispatchFacts.

(** ** Acknowledgments *)

Section AckFacts.

Variable D : Type.

Abbreviation SyncState := (SyncManager.SyncState D).
Abbreviation Server := (SyncManager.Server D).

Lemma retry_results_effect k (srv : Server) batch (st : SyncState) :
  let r := SyncManager.retry_results D k srv batch st in
  SyncManager.command_acks D (snd r) = SyncManager.command_acks D st
  /\ SyncManager.acks_counted D (snd r) = SyncManager.acks_counted D st
  /\ SyncManager.delivered D (snd r)
     = (if fst r then SyncManager.delivered D st ++ [batch] else SyncManager.delivered D st)
  /\ exists n,
       SyncManager.posts D (snd r) = (SyncManager.posts D st + n)%nat
       /\ (n <= k)%nat
       /\ (forall i, (S i < n)%nat ->
             let a := SyncManager.results_endpoint D srv (SyncManager.posts D st + i) batch in
             accepted_code a = false /\ refused_for_good a = false)
       /\ if fst r
          then (0 < n)%nat
               /\ accepted_code
                    (SyncManager.results_endpoint D srv (SyncManager.posts D st + n - 1) batch)
                  = true
          else (n = k
                /\ forall i, (i < n)%nat ->
                     accepted_code
                       (SyncManager.results_endpoint D srv (SyncManager.posts D st + i) batch)
                     = false)
               \/ ((0 < n)%nat
                   /\ refused_for_good
                        (SyncManager.results_endpoint D srv (SyncManager.posts D st + n - 1)
                           batch) = true).
Proof.
  cbv zeta. revert st. induction k as [|k IH]; intros st.
  - cbn. split; [done|]. split; [done|]. split; [done|].
    exists 0%nat. split; [lia|]. split; [lia|]. split; [intros; lia|].
    left. split; [done|intros; lia].
  - cbn [SyncManager.retry_results SyncManager.post_results].
    set (a0 := SyncManager.results_endpoint D srv (SyncManager.posts D st) batch).
    assert (Ha0 : a0 = SyncManager.results_endpoint D srv (SyncManager.posts D st + 0) batch)
      by (by rewrite Nat.add_0_r).
    assert (Hnext : forall st2 : SyncState,
              SyncManager.command_acks D st2 = SyncManager.command_acks D st ->
              SyncManager.acks_counted D st2 = SyncManager.acks_counted D st ->
              SyncManager.delivered D st2 = SyncManager.delivered D st ->
              SyncManager.posts D st2 = S (SyncManager.posts D st) ->
              accepted_code a0 = false -> refused_for_good a0 = false ->
              let r := SyncManager.retry_results D k srv batch st2 in
              SyncManager.command_acks D (snd r) = SyncManager.command_acks D st
              /\ SyncManager.acks_counted D (snd r) = SyncManager.acks_counted D st
              /\ SyncManager.delivered D (snd r)
                 = (if fst r then SyncManager.delivered D st ++ [batch]
                    else SyncManager.delivered D st)
              /\ exists n,
                   SyncManager.posts D (snd r) = (SyncManager.posts D st + n)%nat
                   /\ (n <= S k)%nat
                   /\ (forall i, (S i < n)%nat ->
                         let a := SyncManager.results_endpoint D srv
                                    (SyncManager.posts D st + i) batch in
                         accepted_code a = false /\ refused_for_good a = false)
                   /\ if fst r
                      then (0 < n)%nat
                           /\ accepted_code
                                (SyncManager.results_endpoint D srv
                                   (SyncManager.posts D st + n - 1) batch) = true
                      else (n = S k
                            /\ forall i, (i < n)%nat ->
                                 accepted_code
                                   (SyncManager.results_endpoint D srv
                                      (SyncManager.posts D st + i) batch) = false)
                           \/ ((0 < n)%nat
                               /\ refused_for_good
                                    (SyncManager.results_endpoint D srv
                                       (SyncManager.posts D st + n - 1) batch) = true)).
    { intros st2 Hq Hc Hd Hp Hacc Href. cbv zeta.
      destruct (IH st2) as (Hq' & Hc' & Hd' & n & Hn & Hle & Hbefore & Hlast).
      rewrite Hq', Hc', Hd', Hq, Hc, Hd. split; [done|]. split; [done|]. split; [done|].
      exists (S n). rewrite Hn, Hp. split; [lia|]. split; [lia|].
      assert (Hshift : forall i, (SyncManager.posts D st + S i = S (SyncManager.posts D st) + i)%nat)
        by (intros; lia).
      split.
      { intros [|i] Hi; cbv zeta.
        - rewrite <- Ha0. done.
        - rewrite Hshift, <- Hp. apply Hbefore. lia. }
      destruct (fst (SyncManager.retry_results D k srv batch st2)).
      - destruct Hlast as [Hpos Hlast]. split; [lia|].
        replace (SyncManager.posts D st + S n - 1)%nat
          with (SyncManager.posts D st2 + n - 1)%nat by lia. done.
      - destruct Hlast as [[-> Hrej]|[Hpos Hlast]].
        + left. split; [done|]. intros [|i] Hi.
          * by rewrite <- Ha0.
          * rewrite Hshift, <- Hp. apply Hrej. lia.
        + right. split; [lia|].
          replace (SyncManager.posts D st + S n - 1)%nat
            with (SyncManager.posts D st2 + n - 1)%nat by lia. done. }
    clearbody a0. destruct a0 as [code|x].
    + cbn [accepted_code refused_for_good] in Hnext.
      destruct (bool_decide (code = 200 ∨ code = 201)) eqn:Hc.
      * cbn [fst snd SyncManager.command_acks SyncManager.acks_counted
             SyncManager.delivered SyncManager.posts].
        split; [done|]. split; [done|]. split; [done|].
        exists 1%nat. split; [lia|]. split; [lia|]. split; [intros; lia|].
        split; [lia|].
        replace (SyncManager.posts D st + 1 - 1)%nat with (SyncManager.posts D st + 0)%nat
          by lia.
        rewrite <- Ha0. cbn [accepted_code]. done.
      * destruct (code =? 422) eqn:H422.
        -- cbn [fst snd SyncManager.logged SyncManager.command_acks SyncManager.acks_counted
                SyncManager.delivered SyncManager.posts].
           split; [done|]. split; [done|]. split; [done|].
           exists 1%nat. split; [lia|]. split; [lia|]. split; [intros; lia|].
           right. split; [lia|].
           replace (SyncManager.posts D st + 1 - 1)%nat with (SyncManager.posts D st + 0)%nat
             by lia.
           rewrite <- Ha0. cbn [refused_for_good]. done.
        -- destruct (code =? 429); apply Hnext; done.
    + apply Hnext; done.
Qed.


(** X22. [_post_with_retry] of the sync manager posts at most
    [retry_attempts] times and not at all without a session; it stops at
    the first post the public server accepts (status 200 or 201) and
    returns [True] then; it also stops, returning [False], at the first
    answer 422, which is not retried; otherwise it returns [False] after
    every attempt allowed was refused or failed. *)
Theorem validation_errors_are_not_retried cfg (srv : Server) batch (st : SyncState) :
  let r := SyncManager._post_with_retry D cfg srv batch st in
  let allowed :=
    if SyncManager.has_session cfg then Z.to_nat (SyncManager.attempts cfg) else 0%nat in
  let answer i := SyncManager.results_endpoint D srv (SyncManager.posts D st + i) batch in
  exists n,
    SyncManager.posts D (snd r) = (SyncManager.posts D st + n)%nat
    /\ (n <= allowed)%nat
    /\ (forall i, (S i < n)%nat ->
          accepted_code (answer i) = false /\ refused_for_good (answer i) = false)
    /\ if fst r
       then (0 < n)%nat /\ accepted_code (answer (n - 1)%nat) = true
       else (n = allowed /\ forall i, (i < n)%nat -> accepted_code (answer i) = false)
            \/ ((0 < n)%nat /\ refused_for_good (answer (n - 1)%nat) = true).
Proof.
  cbv zeta. unfold SyncManager._post_with_retry.
  destruct (SyncManager.has_session cfg); cbn [negb].
  - destruct (retry_results_effect (Z.to_nat (SyncManager.attempts cfg)) srv batch st)
      as (_ & _ & _ & n & Hn & Hle & Hbefore & Hlast).
    exists n. split; [done|]. split; [done|]. split; [exact Hbefore|].
    destruct (fst (SyncManager.retry_results D _ srv batch st)).
    + destruct Hlast as [Hpos Hacc]. split; [done|].
      by replace (SyncManager.posts D st + (n - 1))%nat
        with (SyncManager.posts D st + n - 1)%nat by lia.
    + destruct Hlast as [Hall|[Hpos Href]]; [by left|right]. split; [done|].
      by replace (SyncManager.posts D st + (n - 1))%nat
        with (SyncManager.posts D st + n - 1)%nat by lia.
  - exists 0%nat. cbn [fst snd]. split; [lia|]. split; [lia|]. split; [intros; lia|].
    left. split; [done|intros; lia].
Qed.


End AckFacts.

(** ** Devices found more than once *)

Lemma dedupe_inv all_devices :
  let st := foldl DiscoveryPhases.dedupe_step ([], ∅) all_devices in
  NoDup (uuid <$> fst st)
  /\ (forall u, u ∈ snd st <-> u ∈ uuid <$> fst st)
  /\ (forall u, u ∈ uuid <$> fst st <-> u <> "" /\ u ∈ uuid <$> all_devices)
  /\ (forall d, d ∈ fst st -> first_with (uuid d) all_devices = Some d).
Proof.
  cbv zeta. induction all_devices as [|d l IH] using rev_ind.
  - cbn. split; [constructor|]. split; [set_solver|]. split; [|set_solver].
    intros u. split; [intros H; by apply elem_of_nil in H|intros [_ H]; by apply elem_of_nil in H].
  - rewrite foldl_app. cbn [foldl].
    destruct IH as (Hnd & Hseen & Hids & Hfirst).
    set (st := foldl DiscoveryPhases.dedupe_step ([], ∅) l) in *.
    assert (Hfw : forall u d', first_with u l = Some d' -> first_with u (l ++ [d]) = Some d').
    { intros u d'. unfold first_with.
      destruct (list_find (fun d0 => uuid d0 = u) l) as [[i x]|] eqn:E; [|done].
      cbn. intros [= ->]. cbn.
      assert (E' : list_find (fun d0 => uuid d0 = u) (l ++ [d]) = Some (i, d')).
      { apply list_find_app_Some. by left. }
      by rewrite E'. }
    unfold DiscoveryPhases.dedupe_step.
    destruct (decide (uuid d = "")) as [He|He].
    + rewrite (bool_decide_eq_true_2 _ He). cbn [negb andb].
      split; [done|]. split; [done|]. split.
      * intros u. rewrite Hids, fmap_app, elem_of_app. cbn.
        rewrite list_elem_of_singleton. split; [tauto|].
        intros [Hu [H| ->]]; [done|congruence].
      * intros d' Hin. apply Hfw. by apply Hfirst.
    + rewrite (bool_decide_eq_false_2 _ He). cbn [negb andb].
      destruct (decide (uuid d ∈ snd st)) as [Hin|Hnin].
      * rewrite (bool_decide_eq_true_2 _ Hin). cbn [negb].
        split; [done|]. split; [done|]. split.
        -- intros u. rewrite Hids, fmap_app, elem_of_app. cbn.
           rewrite list_elem_of_singleton. split; [tauto|].
           intros [Hu [H| ->]]; [done|]. apply Hids. by apply Hseen.
        -- intros d' Hd'. apply Hfw. by apply Hfirst.
      * rewrite (bool_decide_eq_false_2 _ Hnin). cbn [negb fst snd].
        assert (Hfresh : uuid d ∉ uuid <$> l).
        { intros Hl. apply Hnin, Hseen, Hids. done. }
        split; [|split; [|split]].
        -- rewrite fmap_app. apply NoDup_app. split; [done|]. split.
           ++ intros u Hu. cbn. rewrite list_elem_of_singleton. intros ->.
              apply Hnin, Hseen. done.
           ++ cbn. apply NoDup_singleton.
        -- intros u. rewrite fmap_app, elem_of_app, elem_of_union, elem_of_singleton.
           cbn. rewrite list_elem_of_singleton, Hseen. tauto.
        -- intros u. rewrite !fmap_app, !elem_of_app. cbn.
           rewrite !list_elem_of_singleton, Hids. split; [|tauto].
           intros [H| ->]; [tauto|]. split; [done|by right].
        -- intros d' Hd'. apply elem_of_app in Hd' as [Hd'|Hd'].
           ++ apply Hfw. by apply Hfirst.
           ++ apply list_elem_of_singleton in Hd' as ->.
              unfold first_with.
              assert (E : list_find (fun d0 => uuid d0 = uuid d) (l ++ [d])
                          = Some (length l, d)).
              { apply list_find_app_Some. right. split; [lia|]. split.
                - apply list_find_None, Forall_forall. intros x Hx Heq.
                  apply Hfresh. rewrite <- Heq. by apply list_elem_of_fmap_2.
                - cbn. rewrite decide_True by done. cbn. f_equal. f_equal. lia. }
              by rewrite E.
Qed.

Lemma size_found_ids all_devices l :
  NoDup l ->
  (forall u, u ∈ l <-> u <> "" /\ u ∈ uuid <$> all_devices) ->
  size (DiscoveryPhases.all_found_ids all_devices) = length l.
Proof.
  intros Hnd Hl. unfold DiscoveryPhases.all_found_ids.
  assert (E : (list_to_set (uuid <$> filter (fun d => uuid d <> "") all_devices) : gset string)
              = list_to_set l).
  { apply set_eq. intros u. rewrite !elem_of_list_to_set, Hl, list_elem_of_fmap.
    split.
    - intros (d & -> & Hd). apply list_elem_of_filter in Hd as [Hne Hd].
      split; [done|]. by apply list_elem_of_fmap_2.
    - intros [Hne Hu]. apply list_elem_of_fmap in Hu as (d & -> & Hd).
      exists d. split; [done|]. by apply list_elem_of_filter. }
  rewrite E. by apply size_list_to_set.
Qed.

(** X24. In the result of a remote discovery no device is listed twice
    and the count agrees with the list: [devices_found] holds one entry
    per uuid found by any phase, the uuids being pairwise distinct and none
    empty, each entry describing the first device found with its uuid
    (database before UDP before TCP); [total_devices_found] is the length
    of [devices_found]. A device without uuid is dropped. *)
Theorem discovery_result_lists_each_device_once phases_to_run all_devices :
  let r := DiscoveryPhases.build_result phases_to_run all_devices in
  NoDup (dd_thermostat_id <$> devices_found r)
  /\ total_devices_found r = Z.of_nat (length (devices_found r))
  /\ (forall u, u ∈ dd_thermostat_id <$> devices_found r
                <-> u <> "" /\ u ∈ uuid <$> all_devices)
  /\ (forall dd, dd ∈ devices_found r ->
        exists d, first_with (dd_thermostat_id dd) all_devices = Some d
                  /\ dd = found_entry d).
Proof.
  cbv zeta. unfold DiscoveryPhases.build_result, DiscoveryPhases.unique_devices.
  cbn [devices_found total_devices_found].
  destruct (dedupe_inv all_devices) as (Hnd & _ & Hids & Hfirst). cbv zeta in *.
  set (unique := fst (foldl DiscoveryPhases.dedupe_step ([], ∅) all_devices)) in *.
  assert (Hmap : dd_thermostat_id <$> (found_entry <$> unique) = uuid <$> unique).
  { rewrite <- list_fmap_compose. done. }
  change (fun d => {| dd_thermostat_id := uuid d; dd_name := dev_name d; dd_ip := ip d;
                      dd_discovery_method := dev_discovery_method d |}) with found_entry.
  rewrite Hmap. split; [exact Hnd|]. split.
  - rewrite (size_found_ids all_devices (uuid <$> unique) Hnd Hids).
    by rewrite !length_fmap.
  - split; [exact Hids|].
    intros dd Hdd. apply list_elem_of_fmap in Hdd as (d & -> & Hd).
    exists d. split; [|done]. by apply Hfirst.
Qed.

Lemma odict_has_spec k (m : StartupDiscovery.odict) :
  StartupDiscovery.odict_has k m = true <-> k ∈ fst <$> m.
Proof.
  unfold StartupDiscovery.odict_has. rewrite existsb_exists, list_elem_of_fmap. split.
  - intros (kv & Hin & Hk). apply bool_decide_eq_true in Hk.
    exists kv. split; [done|]. by apply list_elem_of_In.
  - intros (kv & -> & Hin). exists kv. split; [by apply list_elem_of_In|].
    by apply bool_decide_eq_true.
Qed.

Lemma odict_set_effect d (m : StartupDiscovery.odict) :
  odict_wf m ->
  let m' := StartupDiscovery.odict_set (uuid d) d m in
  odict_wf m'
  /\ (forall u, u ∈ fst <$> m' <-> u ∈ fst <$> m \/ u = uuid d)
  /\ (forall v, v ∈ snd <$> m' -> v ∈ snd <$> m \/ v = d).
Proof.
  intros [Hnd Hk]. cbv zeta. unfold StartupDiscovery.odict_set.
  destruct (StartupDiscovery.odict_has (uuid d) m) eqn:Hhas.
  - apply odict_has_spec in Hhas.
    set (f := fun kv : string * ThermostatDevice =>
                if bool_decide (fst kv = uuid d) then (uuid d, d) else kv).
    assert (Hkeys : fst <$> (f <$> m) = fst <$> m).
    { rewrite <- list_fmap_compose. apply list_fmap_ext. intros i kv _. unfold f. cbn.
      destruct (bool_decide_reflect (fst kv = uuid d)); done. }
    split; [split|split].
    + by rewrite Hkeys.
    + apply Forall_fmap. eapply Forall_impl; [exact Hk|]. intros kv Hkv. unfold f. cbn.
      by destruct (bool_decide (fst kv = uuid d)).
    + intros u. rewrite Hkeys. split; [by left|]. intros [H| ->]; done.
    + intros v Hv. apply list_elem_of_fmap in Hv as (kv' & -> & Hin).
      apply list_elem_of_fmap in Hin as (kv & -> & Hin). unfold f.
      destruct (bool_decide (fst kv = uuid d)); [by right|left].
      by apply list_elem_of_fmap_2.
  - assert (Hnot : uuid d ∉ fst <$> m).
    { intros Hin. apply odict_has_spec in Hin. congruence. }
    split; [split|split].
    + rewrite fmap_app. apply NoDup_app. split; [done|]. split.
      * intros u Hu. cbn. rewrite list_elem_of_singleton. by intros ->.
      * cbn. apply NoDup_singleton.
    + apply Forall_app. split; [done|]. by constructor.
    + intros u. rewrite fmap_app, elem_of_app. cbn. by rewrite list_elem_of_singleton.
    + intros v. rewrite fmap_app, elem_of_app. cbn. by rewrite list_elem_of_singleton.
Qed.

Lemma odict_fold_set l (m : StartupDiscovery.odict) :
  odict_wf m ->
  let m' := foldl (fun all_devices device =>
                     StartupDiscovery.odict_set (uuid device) device all_devices) m l in
  odict_wf m'
  /\ (forall u, u ∈ fst <$> m' <-> u ∈ fst <$> m \/ u ∈ uuid <$> l)
  /\ (forall v, v ∈ snd <$> m' -> v ∈ snd <$> m \/ v ∈ l).
Proof.
  cbv zeta. revert m. induction l as [|d l IH]; intros m Hwf; cbn [foldl].
  - split; [done|]. split; [|by left]. intros u. split; [by left|].
    intros [H|H]; [done|]. by apply elem_of_nil in H.
  - destruct (odict_set_effect d m Hwf) as (Hwf1 & Hk1 & Hv1). cbv zeta in *.
    destruct (IH _ Hwf1) as (Hwf2 & Hk2 & Hv2).
    split; [done|]. split.
    + intros u. rewrite Hk2, Hk1. cbn. rewrite elem_of_cons. tauto.
    + intros v Hv. destruct (Hv2 v Hv) as [H|H].
      * destruct (Hv1 v H) as [H'| ->]; [by left|right; by left].
      * right. by right.
Qed.

Lemma odict_fold_add l (m : StartupDiscovery.odict) :
  odict_wf m ->
  let m' := foldl (fun all_devices device =>
                     if negb (StartupDiscovery.odict_has (uuid device) all_devices)
                     then StartupDiscovery.odict_set (uuid device) device all_devices
                     else all_devices) m l in
  odict_wf m'
  /\ (forall u, u ∈ fst <$> m' <-> u ∈ fst <$> m \/ u ∈ uuid <$> l)
  /\ (forall v, v ∈ snd <$> m' -> v ∈ snd <$> m \/ (v ∈ l /\ uuid v ∉ fst <$> m)).
Proof.
  cbv zeta. revert m. induction l as [|d l IH]; intros m Hwf; cbn [foldl].
  - split; [done|]. split; [|by left]. intros u. split; [by left|].
    intros [H|H]; [done|]. by apply elem_of_nil in H.
  - destruct (StartupDiscovery.odict_has (uuid d) m) eqn:Hhas; cbn [negb].
    + apply odict_has_spec in Hhas.
      destruct (IH _ Hwf) as (Hwf2 & Hk2 & Hv2).
      split; [done|]. split.
      * intros u. rewrite Hk2. cbn. rewrite elem_of_cons. split; [tauto|].
        intros [H|[->|H]]; tauto.
      * intros v Hv. destruct (Hv2 v Hv) as [H|[H1 H2]]; [by left|right].
        split; [by right|done].
    + assert (Hnot : uuid d ∉ fst <$> m).
      { intros Hin. apply odict_has_spec in Hin. congruence. }
      destruct (odict_set_effect d m Hwf) as (Hwf1 & Hk1 & Hv1). cbv zeta in *.
      destruct (IH _ Hwf1) as (Hwf2 & Hk2 & Hv2).
      split; [done|]. split.
      * intros u. rewrite Hk2, Hk1. cbn. rewrite elem_of_cons. tauto.
      * intros v Hv. destruct (Hv2 v Hv) as [H|[H1 H2]].
        -- destruct (Hv1 v H) as [H'| ->]; [by left|right]. split; [by left|done].
        -- right. split; [by right|]. intros Hin. apply H2, Hk1. by left.
Qed.

Lemma odict_values_uuid (m : StartupDiscovery.odict) :
  odict_wf m -> uuid <$> (snd <$> m) = fst <$> m.
Proof.
  intros [_ Hk]. rewrite <- list_fmap_compose. apply list_fmap_ext.
  intros i kv Hi. cbn. symmetry. eapply Forall_lookup_1 in Hk; [|exact Hi]. done.
Qed.

Lemma odict_remember known (m : StartupDiscovery.odict) :
  odict_wf m ->
  foldl (fun r kv => <[fst kv := snd kv]> r) known m = remember known (snd <$> m).
Proof.
  intros [_ Hk]. unfold remember. revert known.
  induction Hk as [|kv m Hkv Hk IH]; intros known; cbn [foldl fmap list_fmap]; [done|].
  rewrite IH, Hkv. done.
Qed.

(** X25. [discover_combined_startup] merges what the database phase and
    the UDP phase found by uuid: the devices it returns have pairwise
    distinct uuids, which are exactly the uuids found by either phase; a
    device found by both is returned as the database phase saw it; the
    scan is to go on to TCP exactly when neither phase found anything; and
    the registry [known_devices] is updated with the devices returned. *)
Theorem startup_discovery_merges_by_uuid known db_devices udp_devices :
  let out := StartupDiscovery.discover_combined_startup known db_devices udp_devices in
  let devices_list := fst (fst out) in
  NoDup (uuid <$> devices_list)
  /\ (forall u, u ∈ uuid <$> devices_list <-> u ∈ uuid <$> (db_devices ++ udp_devices))
  /\ (forall d, d ∈ devices_list ->
        d ∈ db_devices \/ (d ∈ udp_devices /\ uuid d ∉ uuid <$> db_devices))
  /\ snd (fst out) = match db_devices, udp_devices with [], [] => true | _, _ => false end
  /\ snd out = remember known devices_list.
Proof.
  cbv zeta. unfold StartupDiscovery.discover_combined_startup. cbv zeta. cbn [fst snd].
  assert (Hwf0 : odict_wf []) by (split; constructor).
  destruct (odict_fold_set db_devices [] Hwf0) as (Hwf1 & Hk1 & Hv1). cbv zeta in *.
  match type of Hwf1 with odict_wf ?m => set (m1 := m) in * end.
  destruct (odict_fold_add udp_devices m1 Hwf1) as (Hwf2 & Hk2 & Hv2). cbv zeta in *.
  match type of Hwf2 with odict_wf ?m => set (m2 := m) in * end.
  assert (Hk1' : forall u, u ∈ fst <$> m1 <-> u ∈ uuid <$> db_devices).
  { intros u. rewrite Hk1. split; [|by right]. intros [H|H]; [|done].
    by apply elem_of_nil in H. }
  rewrite (odict_values_uuid m2 Hwf2), (odict_remember known m2 Hwf2).
  split; [by destruct Hwf2|]. split; [|split; [|split; [|done]]].
  - intros u. rewrite Hk2, Hk1', fmap_app, elem_of_app. done.
  - intros d Hd. destruct (Hv2 d Hd) as [H|[H1 H2]].
    + left. destruct (Hv1 d H) as [H'|H']; [|done]. by apply elem_of_nil in H'.
    + right. split; [done|]. intros Hin. by apply H2, Hk1'.
  - rewrite length_fmap.
    assert (Hne : forall u, u ∈ fst <$> m2 -> Nat.eqb (length m2) 0 = false).
    { clearbody m2. intros u Hu. destruct m2; [by apply elem_of_nil in Hu|done]. }
    destruct db_devices as [|d0 db'], udp_devices as [|u0 udp']; [done|..].
    + apply (Hne (uuid u0)), Hk2. right. by left.
    + apply (Hne (uuid d0)), Hk2. left. apply Hk1'. by left.
    + apply (Hne (uuid d0)), Hk2. left. apply Hk1'. by left.
Qed.

(** ** The routes of the local API *)

Lemma update_config_tracking_effect tid command e w :
  let w' := run (ThermostatRoutes._update_config_tracking tid command) e w in
  sent w' = sent w /\ thermostats w' = thermostats w
  /\ device_config w'
     = let ups := payload_updates command (utcnow e (clock_reads w)) in
       if nonempty ups
       then <[tid := <["updated_at" := DTime (utcnow e (S (clock_reads w)))]>
                       (ups ∪ default ∅ (device_config w !! tid))]> (device_config w)
       else device_config w.
Proof.
  cbv zeta. unfold ThermostatRoutes._update_config_tracking. rewrite run_bind.
  change (value now_utc e w) with (utcnow e (clock_reads w)).
  change (run now_utc e w) with (tick_clock w). cbv zeta.
  destruct (nonempty (payload_updates command _)); done.
Qed.

Lemma execute_thermostat_command_effect tid command e w :
  let w' := run (ThermostatRoutes._execute_thermostat_command tid command) e w in
  let r := value (ThermostatRoutes._execute_thermostat_command tid command) e w in
  thermostats w' = thermostats w
  /\ match thermostats w !! tid with
     | None =>
         sent w' = sent w /\ device_config w' = device_config w
         /\ ThermostatRoutes.resp_status r = "failed"
     | Some thermostat =>
         let request := POST_tstat (ip_address thermostat) (Fields command) in
         let ups := payload_updates command (utcnow e (clock_reads w)) in
         sent w' = sent w ++ [(ip_address thermostat, Fields command)]
         /\ ThermostatRoutes.resp_status r
            = (if confirms e (net_clock w) request then "success" else "failed")
         /\ device_config w'
            = if confirms e (net_clock w) request && nonempty ups
              then <[tid := <["updated_at" := DTime (utcnow e (S (clock_reads w)))]>
                              (ups ∪ default ∅ (device_config w !! tid))]> (device_config w)
              else device_config w
     end.
Proof.
  cbv zeta. unfold ThermostatRoutes._execute_thermostat_command.
  rewrite run_bind, value_bind.
  change (value (get_thermostat_by_id tid) e w) with (thermostats w !! tid).
  change (run (get_thermostat_by_id tid) e w) with w.
  destruct (thermostats w !! tid) as [thermostat|]; [|done].
  rewrite run_bind, value_bind. unfold confirms.
  set (request := POST_tstat (ip_address thermostat) (Fields command)).
  change (value (http request) e w) with (device_http e (net_clock w) request).
  set (w1 := run (http request) e w).
  assert (Hs : sent w1 = sent w ++ [(ip_address thermostat, Fields command)]) by reflexivity.
  assert (Ht : thermostats w1 = thermostats w) by reflexivity.
  assert (Hd : device_config w1 = device_config w) by reflexivity.
  assert (Hc : clock_reads w1 = clock_reads w) by reflexivity.
  clearbody w1.
  destruct (device_http e (net_clock w) request) as [err|status body text].
  { rewrite run_ret, value_ret. done. }
  destruct (status =? 200); cbn [andb].
  2: { rewrite run_ret, value_ret. by destruct body. }
  destruct body as [result|other|].
  2,3: rewrite run_ret, value_ret; done.
  rewrite run_bind, value_bind, run_ret, value_ret. cbn [ThermostatRoutes.resp_status].
  destruct (py_eq (get result "success") (PInt 0)); cbn [andb].
  - destruct (update_config_tracking_effect tid command e w1) as (Hs2 & Ht2 & Hd2).
    cbv zeta in *. rewrite Hs2, Ht2, Hd2, Hs, Ht, Hd, Hc. done.
  - rewrite run_ret. done.
Qed.


(** X27. The two control routes of the local API forward the request as
    it is. [set_thermostat_mode] posts the requested mode, whatever it is,
    so that a request for mode 2 sends a cooling command to the device;
    [set_thermostat_temperature] posts HEAT with the requested setpoint,
    of any value, and a hold of 0 or 1, and never a cooling setpoint. For
    a thermostat without a row neither route sends anything. *)
Theorem api_routes_forward_the_request tid e w :
  match thermostats w !! tid with
  | None =>
      forall tmode t_heat hold,
        sent (run (ThermostatRoutes.set_thermostat_mode tid tmode) e w) = sent w
        /\ sent (run (ThermostatRoutes.set_thermostat_temperature tid t_heat hold) e w)
           = sent w
  | Some thermostat =>
      forall tmode t_heat hold,
        sent (run (ThermostatRoutes.set_thermostat_mode tid tmode) e w)
        = sent w ++ [(ip_address thermostat, Fields {[ "tmode" := PInt tmode ]})]
        /\ cool_free (Fields {[ "tmode" := PInt tmode ]}) = negb (tmode =? 2)
        /\ exists payload,
             sent (run (ThermostatRoutes.set_thermostat_temperature tid t_heat hold) e w)
             = sent w ++ [(ip_address thermostat, Fields payload)]
             /\ get payload "tmode" = PInt 1
             /\ get payload "t_heat" = PFloat t_heat
             /\ get payload "hold" = PInt (if hold then 1 else 0)
             /\ cool_free (Fields payload) = true
  end.
Proof.
  destruct (thermostats w !! tid) as [thermostat|] eqn:Hrow; intros tmode t_heat hold.
  - split; [|split].
    + unfold ThermostatRoutes.set_thermostat_mode. cbv zeta.
      pose proof (execute_thermostat_command_effect tid {[ "tmode" := PInt tmode ]} e w)
        as [_ H].
      rewrite Hrow in H. by destruct H as [H _].
    + unfold cool_free. cbn.
      destruct (Z.eqb_spec tmode 2) as [->|Hne]; [done|].
      change (get {[ "tmode" := PInt tmode ]} "tmode") with (PInt tmode).
      destruct (py_eq (PInt tmode) (PInt 2)) eqn:E; [exfalso|done].
      apply py_eq_int_number in E as (q & Hq & Hqe). cbn in Hq. injection Hq as <-.
      unfold Qeq, inject_Z in Hqe. cbn in Hqe. lia.
    + eexists. split; [|split; [|split; [|split]]].
      * unfold ThermostatRoutes.set_thermostat_temperature. cbv zeta.
        match goal with
        | |- context [ThermostatRoutes._execute_thermostat_command tid ?c] =>
            pose proof (execute_thermostat_command_effect tid c e w) as [_ H]
        end.
        rewrite Hrow in H. destruct H as [H _]. exact H.
      * done.
      * done.
      * done.
      * done.
  - split.
    + unfold ThermostatRoutes.set_thermostat_mode. cbv zeta.
      pose proof (execute_thermostat_command_effect tid {[ "tmode" := PInt tmode ]} e w)
        as [_ H].
      rewrite Hrow in H. by destruct H as [H _].
    + unfold ThermostatRoutes.set_thermostat_temperature. cbv zeta.
      match goal with
      | |- context [ThermostatRoutes._execute_thermostat_command tid ?c] =>
          pose proof (execute_thermostat_command_effect tid c e w) as [_ H]
      end.
      rewrite Hrow in H. by destruct H as [H _].
Qed.

(** ** Periodic discovery *)



